(** * ktalk-test-push: the per-session notification poller of src/index.ts

    A shallow embedding of the Telegram bot's poller: the [Notifier] class,
    the [NotifierFactory] registry, the [sessionProxy] write-through handle,
    the boot-time restore loop and the command handlers that touch the
    session. JavaScript objects that the source shares by reference
    (contexts, notifiers) live in a store and are named by their index;
    exceptions are an explicit completion; everything the program does to
    the outside (replies, fetches, emitted events) is appended to a trace,
    and what the outside answers (how a request ends, whether the Bot API
    accepts a message) is given to the steps that wait for it. *)

From stdpp Require Import gmap strings list.
From Stdlib Require Import ZArith Ascii.

Set Default Proof Using "Type".
Set Warnings "-register-all".

(** ** JavaScript values used by the program *)

(** The [number]s the program computes with: chat ids, counts, intervals.
    Integral values and [NaN] (what [Number(text)] yields for text that is
    not numeric). *)
Inductive number :=
  | NaN
  | Num (z : Z).

Global Instance number_eq_dec : EqDecision number.
Proof. solve_decision. Defined.

Global Instance number_countable : Countable number :=
  inj_countable'
    (λ n, match n with NaN => None | Num z => Some z end)
    (λ o, match o with None => NaN | Some z => Num z end)
    (λ n, match n with NaN => eq_refl | Num _ => eq_refl end).

(** [!n] is false exactly for the truthy numbers: not 0, not NaN. *)
Definition truthy (n : number) : bool :=
  match n with
  | NaN => false
  | Num z => negb (z =? 0)%Z
  end.

(** [Number.isNaN(n)] *)
Definition isNaN (n : number) : bool :=
  match n with
  | NaN => true
  | Num _ => false
  end.

(** [a > b]: every comparison with NaN is false. *)
Definition gt (a b : number) : bool :=
  match a, b with
  | Num x, Num y => (y <? x)%Z
  | _, _ => false
  end.

(** [a === b] on numbers: NaN equals nothing, itself included. *)
Definition strict_eq (a b : number) : bool :=
  match a, b with
  | Num x, Num y => (x =? y)%Z
  | _, _ => false
  end.

(** [a != b] on numbers. *)
Definition loose_ne (a b : number) : bool := negb (strict_eq a b).

(** [!s] for a [string | null]: null and the empty string are falsy. *)
Definition truthy_string (s : option string) : bool :=
  match s with
  | None => false
  | Some t => negb (String.eqb t "")
  end.

(** ** Errors *)

(** An [Error] object: [name], [message], and the [entity] field that
    [InvalidError] adds. *)
Record Error := {
  name : string;
  message : string;
  entity : option string;
}.

(** [new Error(message)] *)
Definition new_Error (msg : string) : Error :=
  {| name := "Error"; message := msg; entity := None |}.

(** [new InvalidError(entity)]: the class does not set [name], so it stays
    the inherited "Error". *)
Definition InvalidError (e : string) : Error :=
  {| name := "Error"; message := e +:+ " must be set"; entity := Some e |}.

(** What a [throw] can carry: an [Error] instance, or any other value, kept
    here as the text [String(input)] gives for it. *)
Inductive Thrown :=
  | ThrownError (e : Error)
  | ThrownValue (text : string).

Definition ensureError (input : Thrown) : Error :=
  match input with
  | ThrownError e => e
  | ThrownValue text => new_Error text
  end.

Definition formatError (error : Error) : string :=
  name error +:+ ": " +:+ message error.

(** ** The session state *)

Record NotificationsCount := {
  rooms_count : number;
}.

Record Options := {
  token : option string;
  referer : option string;
  interval : number;
  allowZeroMessages : bool;
  polling : bool;
  pollingOnBoot : bool;
}.

Record NotifierState := {
  count : NotificationsCount;
  options : Options;
}.

Definition DEFAULT_NOTIFIER_STATE : NotifierState :=
  {| count := {| rooms_count := Num 0 |};
     options := {| token := None;
                   referer := None;
                   interval := Num 60000;
                   allowZeroMessages := false;
                   polling := false;
                   pollingOnBoot := false |} |}.

Definition createNotifierState : NotifierState := DEFAULT_NOTIFIER_STATE.

(** Field assignments on a state. *)
Definition with_options (f : Options → Options) (s : NotifierState) : NotifierState :=
  {| count := count s; options := f (options s) |}.

Definition set_count (c : NotificationsCount) (s : NotifierState) : NotifierState :=
  {| count := c; options := options s |}.

Definition set_rooms_count (n : number) (s : NotifierState) : NotifierState :=
  {| count := {| rooms_count := n |}; options := options s |}.

Definition set_token (v : option string) : NotifierState → NotifierState :=
  with_options (λ o, {| token := v; referer := referer o; interval := interval o;
                        allowZeroMessages := allowZeroMessages o;
                        polling := polling o; pollingOnBoot := pollingOnBoot o |}).

Definition set_referer (v : option string) : NotifierState → NotifierState :=
  with_options (λ o, {| token := token o; referer := v; interval := interval o;
                        allowZeroMessages := allowZeroMessages o;
                        polling := polling o; pollingOnBoot := pollingOnBoot o |}).

Definition set_interval (v : number) : NotifierState → NotifierState :=
  with_options (λ o, {| token := token o; referer := referer o; interval := v;
                        allowZeroMessages := allowZeroMessages o;
                        polling := polling o; pollingOnBoot := pollingOnBoot o |}).

Definition set_allowZeroMessages (v : bool) : NotifierState → NotifierState :=
  with_options (λ o, {| token := token o; referer := referer o; interval := interval o;
                        allowZeroMessages := v;
                        polling := polling o; pollingOnBoot := pollingOnBoot o |}).

Definition set_polling (v : bool) : NotifierState → NotifierState :=
  with_options (λ o, {| token := token o; referer := referer o; interval := interval o;
                        allowZeroMessages := allowZeroMessages o;
                        polling := v; pollingOnBoot := pollingOnBoot o |}).

Definition set_pollingOnBoot (v : bool) : NotifierState → NotifierState :=
  with_options (λ o, {| token := token o; referer := referer o; interval := interval o;
                        allowZeroMessages := allowZeroMessages o;
                        polling := polling o; pollingOnBoot := v |}).

(** ** sessionProxy: the write-through handle *)

(** [sessionProxy(obj, trigger)] works on any object, so it is modelled on
    untyped object trees. The blob handed to the outermost call is the root;
    the nested proxy that the [get] trap builds for [target[p]] wraps the
    sub-object one step further down, so a proxy is named by the path that
    leads from the root to its target. An access expression such as
    [handle.options.interval = 5] is a chain of [get] traps followed by one
    [set] trap. *)
Module SessionProxy.

Inductive primitive :=
  | undefined
  | null
  | boolean (b : bool)
  | numeric (n : number)
  | text (s : string).

(** [Obj] is what [instanceof Object] accepts. *)
Inductive value :=
  | Prim (p : primitive)
  | Obj (fields : list (string * value)).

(** [target[p]] *)
Fixpoint get_field (p : string) (fields : list (string * value)) : value :=
  match fields with
  | [] => Prim undefined
  | (k, v) :: rest => if String.eqb k p then v else get_field p rest
  end.

(** [Reflect.set(target, p, newValue)] on an ordinary object. *)
Fixpoint set_field (p : string) (x : value) (fields : list (string * value))
  : list (string * value) :=
  match fields with
  | [] => [(p, x)]
  | (k, v) :: rest =>
      if String.eqb k p then (k, x) :: rest else (k, v) :: set_field p x rest
  end.

(** Following [get] traps down [path]: each step returns a nested proxy as
    long as the field is an object. The result is what the last step
    returns; [None] when a step leaves the objects before the path ends. *)
Fixpoint navigate (path : list string) (v : value) : option value :=
  match path with
  | [] => Some v
  | p :: rest =>
      match v with
      | Obj fields => navigate rest (get_field p fields)
      | Prim _ => None
      end
  end.

(** The root after the object at [path] had its field [p] assigned: the
    target is mutated in place, which on a tree rebuilds the spine above
    it. In a module (strict code) assigning a field of a primitive throws
    a TypeError before any trap runs: [None]. *)
Fixpoint assign (path : list string) (p : string) (x : value) (v : value)
  : option value :=
  match v with
  | Prim _ => None
  | Obj fields =>
      match path with
      | [] => Some (Obj (set_field p x fields))
      | q :: rest =>
          match assign rest p x (get_field q fields) with
          | Some v' => Some (Obj (set_field q v' fields))
          | None => None
          end
      end
  end.

Section Handle.
(** What the [trigger] closure acts on, and what it does there given the
    whole blob it reads when it runs. *)
Context {Env : Type}.
Variable trigger : value → Env → Env.

Record state := {
  root : value;
  env : Env;
  calls : nat;   (* how many times [trigger] has run *)
}.

Inductive access :=
  | Read (path : list string)
  | Write (path : list string) (p : string) (x : value).

(** The [get] traps of a read: nothing but [Reflect.get] and new
    proxies. *)
Definition read (path : list string) (st : state) : option value * state :=
  (navigate path (root st), st).

(** The [set] trap at the end of a write: [Reflect.set], then
    [trigger()]. *)
Definition write (path : list string) (p : string) (x : value) (st : state)
  : bool * state :=
  match assign path p x (root st) with
  | Some r => (true, {| root := r; env := trigger r (env st); calls := S (calls st) |})
  | None => (false, st)
  end.

Definition step (a : access) (st : state) : state :=
  match a with
  | Read path => snd (read path st)
  | Write path p x => snd (write path p x st)
  end.

Definition run (l : list access) (st : state) : state :=
  foldl (λ s a, step a s) st l.

(** The writes of [l] that go through, counted. *)
Fixpoint writes (l : list access) (r : value) : nat :=
  match l with
  | [] => 0
  | Read _ :: rest => writes rest r
  | Write path p x :: rest =>
      match assign path p x r with
      | Some r' => S (writes rest r')
      | None => writes rest r
      end
  end.
End Handle.

(** The state blob as the object the program has at run time. *)
Definition of_string_or_null (s : option string) : value :=
  match s with
  | None => Prim null
  | Some t => Prim (text t)
  end.

Definition of_count (c : NotificationsCount) : value :=
  Obj [("rooms_count", Prim (numeric (rooms_count c)))].

Definition of_options (o : Options) : value :=
  Obj [("token", of_string_or_null (token o));
       ("referer", of_string_or_null (referer o));
       ("interval", Prim (numeric (interval o)));
       ("allowZeroMessages", Prim (boolean (allowZeroMessages o)));
       ("polling", Prim (boolean (polling o)));
       ("pollingOnBoot", Prim (boolean (pollingOnBoot o)))].

Definition of_state (s : NotifierState) : value :=
  Obj [("count", of_count (count s)); ("options", of_options (options s))].

End SessionProxy.

(** ** Events, listeners and what the program does to the outside *)

(** The keys of [EventMap]. *)
Inductive EventName :=
  | ev_stop
  | ev_start
  | ev_error
  | ev_poll
  | ev_notification_count
  | ev_notification_count_changed
  | ev_state_changed.

Global Instance EventName_eq_dec : EqDecision EventName.
Proof. solve_decision. Defined.

(** An [emit] call: the event with its argument. *)
Inductive Event :=
  | on_error (error : Error)
  | on_poll (polling : bool)
  | on_notification_count (count : NotificationsCount)
  | on_notification_count_changed (count : NotificationsCount)
  | on_state_changed (state : NotifierState).

Definition event_name (e : Event) : EventName :=
  match e with
  | on_error _ => ev_error
  | on_poll _ => ev_poll
  | on_notification_count _ => ev_notification_count
  | on_notification_count_changed _ => ev_notification_count_changed
  | on_state_changed _ => ev_state_changed
  end.

(** The four closures the program registers on an emitter. The relays of
    [NotifierFactory.create] capture the context that created the notifier,
    named by its index in the store. *)
Inductive Listener :=
  | relay_state_changed                      (* constructor, 'notification-count:changed' *)
  | relay_error (ctx : nat)                  (* create, 'error' *)
  | relay_notification_count (ctx : nat)     (* create, 'notification-count' *)
  | clear_polling.                           (* startPollingNotifications, once 'poll' *)

Record Registration := {
  event : EventName;
  once : bool;
  listener : Listener;
}.

Inductive Message :=
  | Text (s : string)
  | RoomsHaveNewMessages (n : number).   (* `${n} rooms have new messages` *)

Inductive Effect :=
  | Fetched (url : string) (Referer Origin Talk_Token : string) (signal : nat)
  | Aborted (signal : nat)                          (* controller.abort() *)
  | Replied (ctx : nat) (m : Message)               (* ctx.reply(m) *)
  | Sent (chat : number) (m : Message)              (* bot.api.sendMessage(chat, m) *)
  | Emitted (notifier : nat) (e : Event)            (* emitter.emit(...) *)
  | Logged (s : string)                             (* console.log, console.warn *)
  | Unhandled (t : Thrown).                         (* rejection of a promise nobody awaits *)

(** ** The objects of a running process *)

Record NotifierContext := {
  chatId : option number;        (* undefined when the update has no chat *)
  session : NotifierState;
  notifier : option nat;         (* #notifier *)
}.

Record Notifier := {
  controller : nat;              (* the AbortController in use, by allocation order *)
  getSession : nat;              (* the context the accessor closure reads *)
  emitter : list Registration;
}.

(** A session file: its parsed content, or what reading it throws. *)
Inductive Stored :=
  | Readable (s : NotifierState)
  | Unreadable (t : Thrown).

(** The promise of [getNotificationCount()]: rejected before any request
    went out, or waiting for the response of the request it sent. *)
Inductive Promise :=
  | rejected (t : Thrown)
  | fetching (signal : nat).

(** The files of the session directory are kept in the order [glob] lists
    them, each under the number its name denotes ([Number(key)], with
    [chatId.toString()] as its inverse). *)
Record World := {
  contexts : list NotifierContext;
  notifiers : list Notifier;
  registry : gmap number nat;               (* NotifierFactory.registry *)
  storage : list (number * Stored);
  controllers : nat;                        (* AbortControllers made so far *)
  timers : list (nat * number);             (* setTimeout(poll, delay), by notifier *)
  awaiting : list (nat * Promise);          (* polls suspended at their await *)
  trace : list Effect;
  delivery : number → Message → option Thrown;
    (* what the Bot API answers to sendMessage(chat, m): nothing when it
       accepts the message, else what the call is rejected with (a
       process sends a chat each of its two messages at most once) *)
}.

(** A process that has just started on the session files [files], with a
    Bot API that accepts every message. *)
Definition fresh (files : list (number * Stored)) : World :=
  {| contexts := []; notifiers := []; registry := ∅; storage := files;
     controllers := 0; timers := []; awaiting := []; trace := [];
     delivery := λ _ _, None |}.

Definition with_contexts (f : list NotifierContext → list NotifierContext) (w : World) : World :=
  {| contexts := f (contexts w); notifiers := notifiers w; registry := registry w;
     storage := storage w; controllers := controllers w; timers := timers w;
     awaiting := awaiting w; trace := trace w;
     delivery := delivery w |}.

Definition with_notifiers (f : list Notifier → list Notifier) (w : World) : World :=
  {| contexts := contexts w; notifiers := f (notifiers w); registry := registry w;
     storage := storage w; controllers := controllers w; timers := timers w;
     awaiting := awaiting w; trace := trace w;
     delivery := delivery w |}.

Definition with_registry (f : gmap number nat → gmap number nat) (w : World) : World :=
  {| contexts := contexts w; notifiers := notifiers w; registry := f (registry w);
     storage := storage w; controllers := controllers w; timers := timers w;
     awaiting := awaiting w; trace := trace w;
     delivery := delivery w |}.

Definition with_storage (f : list (number * Stored) → list (number * Stored)) (w : World) : World :=
  {| contexts := contexts w; notifiers := notifiers w; registry := registry w;
     storage := f (storage w); controllers := controllers w; timers := timers w;
     awaiting := awaiting w; trace := trace w;
     delivery := delivery w |}.

Definition with_controllers (f : nat → nat) (w : World) : World :=
  {| contexts := contexts w; notifiers := notifiers w; registry := registry w;
     storage := storage w; controllers := f (controllers w); timers := timers w;
     awaiting := awaiting w; trace := trace w;
     delivery := delivery w |}.

Definition with_timers (f : list (nat * number) → list (nat * number)) (w : World) : World :=
  {| contexts := contexts w; notifiers := notifiers w; registry := registry w;
     storage := storage w; controllers := controllers w; timers := f (timers w);
     awaiting := awaiting w; trace := trace w;
     delivery := delivery w |}.

Definition with_awaiting (f : list (nat * Promise) → list (nat * Promise)) (w : World) : World :=
  {| contexts := contexts w; notifiers := notifiers w; registry := registry w;
     storage := storage w; controllers := controllers w; timers := timers w;
     awaiting := f (awaiting w); trace := trace w;
     delivery := delivery w |}.

Definition with_trace (f : list Effect → list Effect) (w : World) : World :=
  {| contexts := contexts w; notifiers := notifiers w; registry := registry w;
     storage := storage w; controllers := controllers w; timers := timers w;
     awaiting := awaiting w; trace := f (trace w);
     delivery := delivery w |}.

Definition with_delivery (d : number → Message → option Thrown) (w : World) : World :=
  {| contexts := contexts w; notifiers := notifiers w; registry := registry w;
     storage := storage w; controllers := controllers w; timers := timers w;
     awaiting := awaiting w; trace := trace w;
     delivery := d |}.

(** ** Computations: a state with exceptions *)

Inductive Completion (A : Type) :=
  | Normal (a : A)
  | Throw (t : Thrown).
Arguments Normal {A} a.
Arguments Throw {A} t.

Definition Js (A : Type) : Type := World → Completion A * World.

Definition ret {A} (a : A) : Js A := λ w, (Normal a, w).

Definition throw {A} (t : Thrown) : Js A := λ w, (Throw t, w).

Definition bind {A B} (m : Js A) (k : A → Js B) : Js B :=
  λ w, match m w with
       | (Normal a, w') => k a w'
       | (Throw t, w') => (Throw t, w')
       end.

(** [try { m } catch (t) { h t }] *)
Definition try_catch {A} (m : Js A) (h : Thrown → Js A) : Js A :=
  λ w, match m w with
       | (Normal a, w') => (Normal a, w')
       | (Throw t, w') => h t w'
       end.

Declare Scope js_scope.
Delimit Scope js_scope with js.
Notation "x <- m ;; k" := (bind m (λ x, k))
  (at level 100, m at next level, k at level 200, right associativity) : js_scope.
Notation "m ;;; k" := (bind m (λ _, k))
  (at level 100, k at level 200, right associativity) : js_scope.
Open Scope js_scope.

Fixpoint for_each {A} (f : A → Js unit) (l : list A) : Js unit :=
  match l with
  | [] => ret tt
  | x :: rest => f x ;;; for_each f rest
  end.

Definition effect (e : Effect) : Js unit :=
  λ w, (Normal tt, with_trace (λ t, t ++ [e]) w).

(** Store access. A reference always names a live object in a running
    process; a missing one is reported as the TypeError a property access
    on [undefined] raises. *)
Definition TypeError (msg : string) : Thrown :=
  ThrownError {| name := "TypeError"; message := msg; entity := None |}.

Definition get_context (c : nat) : Js NotifierContext :=
  λ w, match contexts w !! c with
       | Some cx => (Normal cx, w)
       | None => (Throw (TypeError "no such context"), w)
       end.

Definition get_notifier (n : nat) : Js Notifier :=
  λ w, match notifiers w !! n with
       | Some nt => (Normal nt, w)
       | None => (Throw (TypeError "no such notifier"), w)
       end.

Definition with_session (f : NotifierState → NotifierState) (cx : NotifierContext)
  : NotifierContext :=
  {| chatId := chatId cx; session := f (session cx); notifier := notifier cx |}.

Definition modify_session (c : nat) (f : NotifierState → NotifierState) : Js unit :=
  λ w, (Normal tt, with_contexts (alter (with_session f) c) w).

Definition modify_notifier (n : nat) (f : Notifier → Notifier) : Js unit :=
  λ w, (Normal tt, with_notifiers (alter f n) w).

(** An async function called without [await]: what it throws rejects a
    promise that nobody handles. *)
Definition detached (m : Js unit) : Js unit :=
  try_catch m (λ t, effect (Unhandled t)).

(** ** The session files ([CustomFileAdapter]) *)

Fixpoint file (key : number) (files : list (number * Stored)) : option Stored :=
  match files with
  | [] => None
  | (k, v) :: rest => if decide (k = key) then Some v else file key rest
  end.

Fixpoint put_file (key : number) (v : Stored) (files : list (number * Stored))
  : list (number * Stored) :=
  match files with
  | [] => [(key, v)]
  | (k, v') :: rest =>
      if decide (k = key) then (k, v) :: rest else (k, v') :: put_file key v rest
  end.

(** [storage.getKeys()] *)
Definition getKeys : Js (list number) :=
  λ w, (Normal ((storage w).*1), w).

(** [storage.read(key)]. The loop only reads keys it has just listed; a key
    without a file would hand [undefined] to the caller. *)
Definition storage_read (key : number) : Js NotifierState :=
  λ w, match file key (storage w) with
       | Some (Readable s) => (Normal s, w)
       | Some (Unreadable t) => (Throw t, w)
       | None => (Throw (TypeError "session is undefined"), w)
       end.

(** [storage.write(key, value)] *)
Definition storage_write (key : number) (s : NotifierState) : Js unit :=
  λ w, (Normal tt, with_storage (put_file key (Readable s)) w).

(** ** class Notifier *)

Definition BASE_ENDPOINT : string := "https://chat.ktalk.ru".
Definition NOTIFICATION_COUNT_PATH : string :=
  "_matrix/client/strangler/api/v1/talk_notifications".

(** The [trigger] that [getSession] of [NotifierFactory.create] hands to
    [sessionProxy]: write the whole [ctx.session] under the chat id. *)
Definition trigger (c : nat) : Js unit :=
  cx <- get_context c ;;
  match chatId cx with
  | Some k => if truthy k then storage_write k (session cx) else ret tt
  | None => ret tt
  end.

(** An assignment through the proxy that [getSession()] returns, at any
    depth: the [set] trap assigns on the target, then runs [trigger]. *)
Definition proxy_set (c : nat) (f : NotifierState → NotifierState) : Js unit :=
  modify_session c f ;;;
  trigger c.

(** [this.session], read *)
Definition this_session (n : nat) : Js NotifierState :=
  nt <- get_notifier n ;;
  cx <- get_context (getSession nt) ;;
  ret (session cx).

(** [this.session.<path> = v] *)
Definition this_session_set (n : nat) (f : NotifierState → NotifierState) : Js unit :=
  nt <- get_notifier n ;;
  proxy_set (getSession nt) f.

(** [this.controller = new AbortController()] *)
Definition new_AbortController (n : nat) : Js unit :=
  λ w, (Normal tt,
        with_controllers S
          (with_notifiers (alter (λ nt, {| controller := controllers w;
                                           getSession := getSession nt;
                                           emitter := emitter nt |}) n) w)).

(** [new Notifier(getSession)]: returns the new object. *)
Definition new_Notifier (c : nat) : Js nat :=
  λ w, (Normal (length (notifiers w)),
        with_controllers S
          (with_notifiers
             (λ l, l ++ [ {| controller := controllers w;
                             getSession := c;
                             emitter := [ {| event := ev_notification_count_changed;
                                             once := false;
                                             listener := relay_state_changed |} ] |} ])
             w)).

Definition rebind (c : nat) (nt : Notifier) : Notifier :=
  {| controller := controller nt; getSession := c; emitter := emitter nt |}.

Definition updateSession (n : nat) (c : nat) : Js unit :=
  modify_notifier n (rebind c).

(** [emitter.on(ev, l)] and [emitter.once(ev, l)] *)
Definition add_listener (n : nat) (ev : EventName) (o : bool) (l : Listener) : Js unit :=
  modify_notifier n (λ nt, {| controller := controller nt; getSession := getSession nt;
                              emitter := emitter nt ++
                                [ {| event := ev; once := o; listener := l |} ] |}).

(** [emitter.emit]: the listeners registered for the event run in
    registration order, those registered with [once] are taken off; an
    'error' event nobody listens to is thrown instead. *)
Definition dispatch (run : Listener → Event → Js unit) (n : nat) (e : Event) : Js unit :=
  nt <- get_notifier n ;;
  let called := filter (λ r, event r = event_name e) (emitter nt) in
  match called, e with
  | [], on_error err => throw (ThrownError err)
  | _, _ =>
      modify_notifier n (λ nt, {| controller := controller nt; getSession := getSession nt;
                                  emitter := filter (λ r, ¬ (event r = event_name e ∧ once r = true))
                                                    (emitter nt) |}) ;;;
      for_each (λ r, run (listener r) e) called
  end.

Definition emit_with (run : Listener → Event → Js unit) (n : nat) (e : Event) : Js unit :=
  effect (Emitted n e) ;;;
  dispatch run n e.

(** [ctx.reply(m)]: the call. Every handler and relay that replies does so
    as its last step, so whether the Bot API accepts the message changes
    nothing in the state of the poller. *)
Definition reply (c : nat) (m : Message) : Js unit := effect (Replied c m).

(** [bot.api.sendMessage(chat, m)]: the call is made, and its promise is
    rejected when the Bot API does not accept the message (the bot was
    blocked, the chat is gone, the network is down). What this gives, to an
    [await] or to nobody, is up to the caller. *)
Definition sendMessage (chat : number) (m : Message) : Js unit :=
  effect (Sent chat m) ;;;
  λ w, (match delivery w chat m with
        | None => Normal tt
        | Some t => Throw t
        end, w).

(** [NotifierContext.handleNotificationCount] *)
Definition handleNotificationCount (c : nat) (cnt : NotificationsCount) (showIfZero : bool)
  : Js unit :=
  cx <- get_context c ;;
  if negb showIfZero && negb (allowZeroMessages (options (session cx)))
     && strict_eq (rooms_count cnt) (Num 0)
  then ret tt
  else reply c (RoomsHaveNewMessages (rooms_count cnt)).

(** Listeners that emit nothing themselves. *)
Definition run_plain (n : nat) (l : Listener) (e : Event) : Js unit :=
  match l, e with
  | clear_polling, on_poll p =>
      if p then ret tt else this_session_set n (set_polling false)
  | _, _ => ret tt
  end.

Definition emit_plain : nat → Event → Js unit := λ n, emit_with (run_plain n) n.

Definition stopPollingNotifications (n : nat) (commit : bool) : Js unit :=
  (if commit then this_session_set n (set_pollingOnBoot false) else ret tt) ;;;
  this_session_set n (set_polling false) ;;;
  nt <- get_notifier n ;;
  effect (Aborted (controller nt)) ;;;
  new_AbortController n ;;;
  emit_plain n (on_poll false).

(** All listeners. The relays are async functions: they run up to their
    first [await], which is the reply they send. *)
Definition run_listener (n : nat) (l : Listener) (e : Event) : Js unit :=
  match l, e with
  | relay_state_changed, on_notification_count_changed _ =>
      s <- this_session n ;;
      emit_plain n (on_state_changed s)
  | relay_error c, on_error error =>
      detached (stopPollingNotifications n false ;;;
                reply c (Text (formatError error)))
  | relay_notification_count c, on_notification_count cnt =>
      detached (handleNotificationCount c cnt false)
  | _, _ => run_plain n l e
  end.

Definition emit : nat → Event → Js unit := λ n, emit_with (run_listener n) n.

(** [getNotificationCount()] up to its [await fetch(...)]: an async
    function, so what it throws comes back as a rejected promise. *)
Definition getNotificationCount (n : nat) : Js Promise :=
  try_catch
    (let url := BASE_ENDPOINT +:+ "/" +:+ NOTIFICATION_COUNT_PATH in
     s <- this_session n ;;
     let referer := referer (options s) in
     if negb (truthy_string referer) then throw (ThrownError (InvalidError "referer"))
     else
       s' <- this_session n ;;
       if negb (truthy_string (token (options s'))) then
         throw (ThrownError (InvalidError "token"))
       else
         s'' <- this_session n ;;
         nt <- get_notifier n ;;
         effect (Fetched url (default "" referer) (default "" referer)
                         (default "" (token (options s''))) (controller nt)) ;;;
         ret (fetching (controller nt)))
    (λ t, ret (rejected t)).

(** How the request ends: [fetch] rejects, or a response comes with a
    status and what [response.json()] gives. *)
Inductive FetchOutcome :=
  | fetch_rejects (t : Thrown)
  | fetch_resolves (status : Z) (json : Completion NotificationsCount).

(** [getNotificationCount()] from its [await] on: what the caller's own
    [await] receives. *)
Definition settle (p : Promise) (o : FetchOutcome) : Completion NotificationsCount :=
  match p with
  | rejected t => Throw t
  | fetching _ =>
      match o with
      | fetch_rejects t => Throw t
      | fetch_resolves status json =>
          if decide (status ≠ 200%Z)
          then Throw (ThrownError (new_Error "Got non 200 response status"))
          else json
      end
  end.

(** [setTimeout(poll, delay)] *)
Definition setTimeout (n : nat) (delay : number) : Js unit :=
  λ w, (Normal tt, with_timers (λ l, l ++ [(n, delay)]) w).

(** [poll()] up to [await this.getNotificationCount()]: the promise it
    then waits on, none when it returned before. *)
Definition poll_enter (n : nat) : Js (option Promise) :=
  s <- this_session n ;;
  if negb (polling (options s)) then ret None
  else
    p <- getNotificationCount n ;;
    ret (Some p).

Definition suspend (n : nat) (p : Promise) : Js unit :=
  λ w, (Normal tt, with_awaiting (λ l, l ++ [(n, p)]) w).

Definition poll (n : nat) : Js unit :=
  detached
    (entered <- poll_enter n ;;
     match entered with
     | Some p => suspend n p
     | None => ret tt
     end).

(** [poll()] from that [await] on, given what the await receives. *)
Definition poll_resume (n : nat) (r : Completion NotificationsCount) : Js unit :=
  detached
    (try_catch
       (data <- (λ w, (r, w)) ;;
        effect (Logged "polled") ;;;
        emit n (on_notification_count data) ;;;
        s <- this_session n ;;
        (if loose_ne (rooms_count data) (rooms_count (count s))
         then emit n (on_notification_count_changed data)
         else ret tt) ;;;
        this_session_set n (set_count data) ;;;
        s' <- this_session n ;;
        setTimeout n (interval (options s')))
       (λ error, emit n (on_error (ensureError error)))).

Definition startPollingNotifications (n : nat) (force : bool) : Js unit :=
  s <- this_session n ;;
  if polling (options s) && negb force then
    effect (Logged "Already polling for notifications")
  else
    new_AbortController n ;;;
    this_session_set n (set_polling true) ;;;
    this_session_set n (set_pollingOnBoot true) ;;;
    poll n ;;;
    emit n (on_poll true) ;;;
    add_listener n ev_poll true clear_polling.

(** ** class NotifierFactory *)

Definition registry_set (k : number) (n : nat) : Js unit :=
  λ w, (Normal tt, with_registry (insert k n) w).

Module NotifierFactory.

Definition create (c : nat) : Js nat :=
  cx <- get_context c ;;
  match chatId cx with
  | None => throw (ThrownError (InvalidError "chat id"))
  | Some k =>
      if negb (truthy k) then throw (ThrownError (InvalidError "chat id"))
      else
        reg <- (λ w, (Normal (registry w), w)) ;;
        (match reg !! k with
         | Some _ => ret tt
         | None =>
             n <- new_Notifier c ;;
             registry_set k n ;;;
             cx' <- get_context c ;;
             (if pollingOnBoot (options (session cx')) then
                effect (Logged "Polling enabled in session. Started to poll") ;;;
                startPollingNotifications n true ;;;
                detached (sendMessage k (Text "Continue polling after reboot"))
              else ret tt) ;;;
             add_listener n ev_error false (relay_error c) ;;;
             add_listener n ev_notification_count false (relay_notification_count c)
         end) ;;;
        reg' <- (λ w, (Normal (registry w), w)) ;;
        match reg' !! k with
        | Some n => updateSession n c ;;; ret n
        | None => throw (TypeError "notifier is undefined")
        end
  end.

End NotifierFactory.

(** ** class NotifierContext *)

(** [new NotifierContext(update, api, me)] followed by the session being
    put on it: returns the new object. *)
Definition new_NotifierContext (chat : option number) (s : NotifierState) : Js nat :=
  λ w, (Normal (length (contexts w)),
        with_contexts (λ l, l ++ [ {| chatId := chat; session := s; notifier := None |} ]) w).

Definition initialize (c : nat) : Js unit :=
  n <- NotifierFactory.create c ;;
  λ w, (Normal tt,
        with_contexts (alter (λ cx, {| chatId := chatId cx; session := session cx;
                                       notifier := Some n |}) c) w).

(** [ctx.notifier] *)
Definition ctx_notifier (c : nat) : Js nat :=
  cx <- get_context c ;;
  match notifier cx with
  | Some n => ret n
  | None => throw (ThrownError (InvalidError "notifier"))
  end.

(** ** Boot: restoring the stored sessions *)

(** The body of the [for (const key of keys)] loop. *)
Definition restore (key : number) : Js unit :=
  s <- storage_read key ;;
  c <- new_NotifierContext (Some key) s ;;
  NotifierFactory.create c ;;;
  sendMessage key (Text "Bot booted").

Definition boot : Js unit :=
  keys <- getKeys ;;
  for_each restore keys.

(** ** Command handlers

    Each runs on the context of its update, after the middleware that calls
    [ctx.initialize()]. They assign on [ctx.session] itself, not through
    the proxy. *)

(** [/interval]: [interval] is [Number(ctx.match)]. *)
Definition command_interval (c : nat) (interval : number) : Js unit :=
  if isNaN interval && gt interval (Num 0) then
    throw (ThrownError (new_Error "Interval must be a non negative number > 0"))
  else
    modify_session c (set_interval interval) ;;;
    reply c (Text "Interval successfully set").

(** [/check], with how its request ends. *)
Definition command_check (c : nat) (o : FetchOutcome) : Js unit :=
  n <- ctx_notifier c ;;
  p <- getNotificationCount n ;;
  cnt <- (λ w, (settle p o, w)) ;;
  modify_session c (set_rooms_count (rooms_count cnt)) ;;;
  handleNotificationCount c cnt true.

(** [/token], with how its request ends. *)
Definition command_token (c : nat) (text : string) (o : FetchOutcome) : Js unit :=
  modify_session c (set_token (Some text)) ;;;
  n <- ctx_notifier c ;;
  p <- getNotificationCount n ;;
  _ <- (λ w, (settle p o, w)) ;;
  reply c (Text "Token successfully set").

(** [/referer] *)
Definition command_referer (c : nat) (text : string) : Js unit :=
  modify_session c (set_referer (Some text)) ;;;
  reply c (Text "Referer successfully set").

(** [/allow]: [Boolean(ctx.match)] is true for any text but the empty one. *)
Definition command_allow (c : nat) (text : string) : Js unit :=
  modify_session c (set_allowZeroMessages (negb (String.eqb text ""))) ;;;
  reply c (Text "Allow zero messages successfully set").

(** [/poll] *)
Definition command_poll (c : nat) : Js unit :=
  n <- ctx_notifier c ;;
  startPollingNotifications n false.

(** [/stop] *)
Definition command_stop (c : nat) : Js unit :=
  n <- ctx_notifier c ;;
  stopPollingNotifications n true.

(** What runs before a command handler: [grammy.session] puts the stored
    session of the chat, or a new default one, on the context of the
    update; then the middleware calls [ctx.initialize()]. Returns the
    context. *)
Definition update_arrives (chat : number) : Js nat :=
  s <- (λ w, match file chat (storage w) with
             | Some (Readable s) => (Normal s, w)
             | Some (Unreadable t) => (Throw t, w)
             | None => (Normal createNotifierState, w)
             end) ;;
  c <- new_NotifierContext (Some chat) s ;;
  initialize c ;;;
  ret c.

(** ** The event loop's turns for a poller *)

(** A timer of [setTimeout(poll, delay)] comes due: the [i]-th pending one. *)
Definition timer_fires (i : nat) : Js unit :=
  λ w, match timers w !! i with
       | Some (n, _) => poll n (with_timers (delete i) w)
       | None => (Normal tt, w)
       end.

(** The [i]-th suspended poll continues: its request has ended with [o]. *)
Definition fetch_settles (i : nat) (o : FetchOutcome) : Js unit :=
  λ w, match awaiting w !! i with
       | Some (n, p) => poll_resume n (settle p o) (with_awaiting (delete i) w)
       | None => (Normal tt, w)
       end.

(** ** Vocabulary of the statements *)

(** The events of name [ev] that notifier [n] has emitted, oldest first. *)
Definition emitted (n : nat) (ev : EventName) (w : World) : list Event :=
  omap (λ eff, match eff with
               | Emitted m e => if decide (m = n ∧ event_name e = ev) then Some e else None
               | _ => None
               end) (trace w).

(** The count notifications delivered to users: which context replied, and
    the count it announced. *)
Definition notifications (w : World) : list (nat * number) :=
  omap (λ eff, match eff with
               | Replied c (RoomsHaveNewMessages k) => Some (c, k)
               | _ => None
               end) (trace w).

(** The requests sent to the count endpoint. *)
Definition requests (w : World) : list Effect :=
  omap (λ eff, match eff with Fetched _ _ _ _ _ => Some eff | _ => None end) (trace w).

(** [lastCount] of every session in memory. *)
Definition counts (w : World) : list NotificationsCount :=
  (λ cx, count (session cx)) <$> contexts w.

(** Notifier [n] is a live object whose accessor reads a live context. *)
Definition bound (n : nat) (w : World) : option (nat * NotifierContext) :=
  nt ← notifiers w !! n;
  cx ← contexts w !! getSession nt;
  Some (getSession nt, cx).

(** The context that the accessor of notifier [n] reads. *)
Definition accessor (n : nat) (w : World) : option nat :=
  getSession <$> notifiers w !! n.

(** What [this.session] reads for notifier [n]. *)
Definition session_of (n : nat) (w : World) : option NotifierState :=
  (λ b, session b.2) <$> bound n w.

(** The listeners notifier [n] has for [ev], in registration order. *)
Definition listeners (n : nat) (ev : EventName) (w : World) : list Listener :=
  match notifiers w !! n with
  | Some nt => listener <$> filter (λ r, event r = ev) (emitter nt)
  | None => []
  end.

(** [m] leaves the observation [obs] of the world as it was. *)
Definition keeps {X A} (obs : World → X) (m : Js A) : Prop :=
  ∀ w, obs (m w).2 = obs w.

(** What [NotifierFactory.create] does for a new chat from the point where
    the notifier is registered: resume polling if the session says so, then
    put the two relays on the emitter. *)
Definition wire (c n : nat) (k : number) (resume : bool) : Js unit :=
  (if resume then
     effect (Logged "Polling enabled in session. Started to poll") ;;;
     startPollingNotifications n true ;;;
     detached (sendMessage k (Text "Continue polling after reboot"))
   else ret tt) ;;;
  add_listener n ev_error false (relay_error c) ;;;
  add_listener n ev_notification_count false (relay_notification_count c).

(** ** A process to run the statements on *)

(** One stored session with credentials, polling when the process went
    down, and the process after [boot]: context 0 and notifier 0 for chat
    7, its first poll waiting for the response. *)
Definition with_credentials : NotifierState :=
  set_token (Some "secret") (set_referer (Some "https://ktalk.example") DEFAULT_NOTIFIER_STATE).

Definition stored_session : NotifierState := set_pollingOnBoot true with_credentials.

Definition booted : World := (boot (fresh [(Num 7, Readable stored_session)])).2.

(** A response with status 200 and the body [{ rooms_count: k }]. *)
Definition ok (k : Z) : FetchOutcome :=
  fetch_resolves 200 (Normal {| rooms_count := Num k |}).

(** The process after the first poll has returned 3 rooms. *)
Definition polled_3 : World := (fetch_settles 0 (ok 3) booted).2.

(** The process after [boot] found one session that was never configured. *)
Definition unconfigured : World :=
  (boot (fresh [(Num 7, Readable DEFAULT_NOTIFIER_STATE)])).2.

(** A process that has just received an update from chat 7, whose stored
    session has credentials and is not polling: context 0 with notifier 0. *)
Definition configured : World :=
  (update_arrives (Num 7) (fresh [(Num 7, Readable with_credentials)])).2.

(** Three session files, the second of which does not parse. *)
Definition bad_json : Thrown :=
  ThrownError {| name := "SyntaxError"; message := "Unexpected end of JSON input";
                 entity := None |}.

Definition files_with_bad_one : list (number * Stored) :=
  [(Num 7, Readable stored_session); (Num 8, Unreadable bad_json);
   (Num 9, Readable stored_session)].



(** Chat 7 allowed zero counts when the process went down. After [boot]
    an update from the chat comes in, and [/allow] without text turns them
    off in the session that the notifier reads from then on. *)
Definition allow_turned_off : World :=
  (command_allow 1 ""
     (update_arrives (Num 7)
        (boot (fresh [(Num 7, Readable (set_allowZeroMessages true stored_session))])).2).2).2.

(** The polls of notifier [n] that are suspended at their await. *)
Definition polls_of (n : nat) (w : World) : list (nat * Promise) :=
  filter (λ x, x.1 = n) (awaiting w).

(** The messages that [bot.api.sendMessage] was called with for chat [k],
    oldest first. *)
Definition sent (k : number) (w : World) : list Message :=
  omap (λ eff, match eff with
               | Sent k' m => if decide (k' = k) then Some m else None
               | _ => None
               end) (trace w).

(** The rejections that nobody handled, oldest first. *)
Definition unhandled (w : World) : list Thrown :=
  omap (λ eff, match eff with Unhandled t => Some t | _ => None end) (trace w).

(** What contexts have replied, oldest first. *)
Definition replied (w : World) : list (nat * Message) :=
  omap (λ eff, match eff with Replied c m => Some (c, m) | _ => None end) (trace w).

(** [/clear]: [ctx.session = createNotifierState()]. *)
Definition command_clear (c : nat) : Js unit :=
  modify_session c (λ _, createNotifierState) ;;;
  reply c (Text "Successfully cleared session").

(** The chat whose session notifier [n] reads. *)
Definition chat_of (n : nat) (w : World) : option number :=
  b ← bound n w; chatId b.2.

(** Context [c'] as seen from notifier [n]: observed as long as the
    accessor of [n] reads another context. *)
Definition apart_context (n c' : nat) (w : World) : option (option NotifierContext) :=
  if decide (accessor n w = Some c') then None else Some (contexts w !! c').

(** The session file of chat [k'] as seen from notifier [n]: observed as
    long as [n] reads the session of another chat. *)
Definition apart_file (n : nat) (k' : number) (w : World) : option (option Stored) :=
  if decide (chat_of n w = Some k') then None else Some (file k' (storage w)).

(** The process after [boot] found the sessions of two chats, both polling
    when the process went down: contexts 0 and 1, notifiers 0 and 1. *)
Definition two_sessions : World :=
  (boot (fresh [(Num 7, Readable stored_session); (Num 9, Readable stored_session)])).2.

(** ** File names and keys ([CustomFileAdapter.getKeys]) *)

(** [s.split('/')] *)
Fixpoint split_slash (s : string) : list string :=
  match s with
  | EmptyString => [EmptyString]
  | String a rest =>
      if Ascii.eqb a "/"%char then EmptyString :: split_slash rest
      else match split_slash rest with
           | seg :: segs => String a seg :: segs
           | [] => [String a EmptyString]
           end
  end.

(** [s.slice(0, -5)] *)
Definition slice_0_minus5 (s : string) : string :=
  String.substring 0 (String.length s - 5) s.

(** The callback of [files.map] in [getKeys]:
    [file.split('/').at(-1)!.slice(0, -5)]. *)
Definition key_of_file (file : string) : string :=
  slice_0_minus5 (default EmptyString (last (split_slash file))).

(** A string without a slash. *)
Fixpoint no_slash (s : string) : bool :=
  match s with
  | EmptyString => true
  | String a rest => negb (Ascii.eqb a "/"%char) && no_slash rest
  end.

(** * Proofs *)

(** ** Reasoning about computations *)

Lemma bind_normal {A B} (m : Js A) (k : A → Js B) w a w' :
  m w = (Normal a, w') → bind m k w = k a w'.
Proof. intros E. unfold bind. by rewrite E. Qed.

Lemma bind_throw {A B} (m : Js A) (k : A → Js B) w t w' :
  m w = (Throw t, w') → bind m k w = (Throw t, w').
Proof. intros E. unfold bind. by rewrite E. Qed.

Section Keeps.
Context {X : Type} (obs : World → X).

Lemma keeps_ret {A} (a : A) : keeps obs (ret a).
Proof. by intros w. Qed.

Lemma keeps_throw {A} (t : Thrown) : keeps obs (@throw A t).
Proof. by intros w. Qed.

Lemma keeps_read {A} (f : World → Completion A) : keeps obs (λ w, (f w, w)).
Proof. by intros w. Qed.

Lemma keeps_bind {A B} (m : Js A) (k : A → Js B) :
  keeps obs m → (∀ a, keeps obs (k a)) → keeps obs (bind m k).
Proof.
  intros Hm Hk w. unfold bind. specialize (Hm w).
  destruct (m w) as [[a|t] w']; simpl in *; [|done].
  by rewrite Hk.
Qed.

Lemma keeps_try_catch {A} (m : Js A) (h : Thrown → Js A) :
  keeps obs m → (∀ t, keeps obs (h t)) → keeps obs (try_catch m h).
Proof.
  intros Hm Hh w. unfold try_catch. specialize (Hm w).
  destruct (m w) as [[a|t] w']; simpl in *; [done|].
  by rewrite Hh.
Qed.

Lemma keeps_for_each {A} (f : A → Js unit) (l : list A) :
  (∀ x, keeps obs (f x)) → keeps obs (for_each f l).
Proof.
  intros Hf. induction l as [|x l IH]; simpl.
  - apply keeps_ret.
  - apply keeps_bind; auto.
Qed.

Lemma keeps_get_context c : keeps obs (get_context c).
Proof. intros w. unfold get_context. by destruct (contexts w !! c). Qed.

Lemma keeps_get_notifier n : keeps obs (get_notifier n).
Proof. intros w. unfold get_notifier. by destruct (notifiers w !! n). Qed.

Lemma keeps_detached (m : Js unit) :
  keeps obs m → (∀ t, keeps obs (effect (Unhandled t))) → keeps obs (detached m).
Proof. intros. by apply keeps_try_catch. Qed.

End Keeps.

(** The operations that are compositions of others. *)
Ltac unfold_ops :=
  unfold startPollingNotifications, poll_resume, poll, poll_enter, getNotificationCount,
    emit, run_listener, stopPollingNotifications, emit_plain, emit_with, dispatch, run_plain,
    handleNotificationCount, reply, sendMessage, this_session_set, this_session,
    proxy_set, trigger, add_listener, updateSession, suspend.

(** Taking a computation apart down to the steps that touch the world. *)
Ltac keeps_split :=
  repeat first
    [ progress cbv beta iota zeta
    | progress unfold_ops
    | apply keeps_ret
    | apply keeps_throw
    | apply keeps_get_context
    | apply keeps_get_notifier
    | apply keeps_read
    | apply keeps_bind; [|intros ?]
    | apply keeps_try_catch; [|intros ?]
    | apply keeps_detached; [|intros ?]
    | apply keeps_for_each; intros ?
    | match goal with
      | |- keeps _ (if ?b then _ else _) => destruct b
      | |- keeps _ (match ?x with _ => _ end) => destruct x
      end ].

(** Observations that no step of the notifier writes are kept by
    computation alone. *)
Ltac keeps_frame :=
  unfold_ops; keeps_split; try (intros ?; reflexivity).

Lemma emit_keeps_timers n e : keeps timers (emit n e).
Proof. keeps_frame. Qed.


(** ** What the steps leave alone *)

Lemma emitted_app n ev w eff :
  emitted n ev (with_trace (λ t, t ++ [eff]) w) =
  emitted n ev w ++
    match eff with
    | Emitted m e => if decide (m = n ∧ event_name e = ev) then [e] else []
    | _ => []
    end.
Proof.
  unfold emitted. simpl. rewrite omap_app. f_equal.
  destruct eff; simpl; try done. by case_decide.
Qed.

Lemma keeps_emitted_effect n ev eff :
  (∀ e, eff = Emitted n e → event_name e ≠ ev) →
  keeps (emitted n ev) (effect eff).
Proof.
  intros H w. unfold effect. simpl. rewrite emitted_app.
  destruct eff; rewrite ?app_nil_r; try done.
  case_decide as Hd; rewrite ?app_nil_r; [|done].
  destruct Hd as [-> Hd]. by destruct (H e).
Qed.

Lemma notifications_app w eff :
  notifications (with_trace (λ t, t ++ [eff]) w) =
  notifications w ++
    match eff with
    | Replied c (RoomsHaveNewMessages k) => [(c, k)]
    | _ => []
    end.
Proof.
  unfold notifications. simpl. rewrite omap_app. f_equal.
  destruct eff as [| |c []| | | |]; done.
Qed.

Lemma keeps_notifications_effect eff :
  (∀ c k, eff ≠ Replied c (RoomsHaveNewMessages k)) →
  keeps notifications (effect eff).
Proof.
  intros H w. unfold effect. simpl. rewrite notifications_app.
  destruct eff as [| |c [|k]| | | |]; rewrite ?app_nil_r; try done.
  by destruct (H c k).
Qed.

Lemma counts_alter (c : nat) (f : NotifierContext → NotifierContext) (l : list NotifierContext) :
  (∀ cx, count (session (f cx)) = count (session cx)) →
  (λ cx, count (session cx)) <$> alter f c l = (λ cx, count (session cx)) <$> l.
Proof.
  intros Hf. revert c. induction l as [|x l IH]; intros [|c]; simpl; try done.
  - by rewrite Hf.
  - f_equal. apply IH.
Qed.

Lemma keeps_counts_modify_session c f :
  (∀ s, count (f s) = count s) → keeps counts (modify_session c f).
Proof.
  intros Hf w. unfold modify_session, counts. simpl.
  apply counts_alter. intros cx. simpl. apply Hf.
Qed.

(** Closing the leaves of a frame argument about events or counts. *)
Ltac keeps_leaf :=
  first
    [ intros ?; reflexivity
    | apply keeps_emitted_effect; intros ? [=]; subst; simpl in *; congruence
    | apply keeps_notifications_effect; intros ? ?; discriminate
    | apply keeps_counts_modify_session; intros ?; reflexivity ].

Ltac keeps_auto := unfold_ops; keeps_split; try keeps_leaf.

Lemma detached_normal (m : Js unit) w : (detached m w).1 = Normal tt.
Proof.
  unfold detached, try_catch. destruct (m w) as [[[]|t] w']; done.
Qed.

Lemma dispatch_keeps_emitted n m e ev :
  ev ≠ ev_poll → ev ≠ ev_state_changed →
  keeps (emitted m ev) (dispatch (run_listener n) n e).
Proof. intros. keeps_auto. Qed.

(** ** A poll whose request fails *)

Lemma poll_resume_throw n t :
  poll_resume n (Throw t) = detached (emit n (on_error (ensureError t))).
Proof. reflexivity. Qed.

Lemma detached_emit n e w :
  detached (emit n e) w =
  detached (dispatch (run_listener n) n e) (with_trace (λ t, t ++ [Emitted n e]) w).
Proof. reflexivity. Qed.

(** C10. When the awaited [getNotificationCount()] of a poll cycle throws
    [t], the rest of the cycle completes and leaves every session's count
    as it was, emits no 'notification-count' and no
    'notification-count:changed' event, schedules no timer, and emits
    exactly one 'error' event. The event carries the normalized error: [t]
    itself when an [Error] was thrown, and otherwise a new [Error] whose
    message is the text of what was thrown. *)
Theorem poll_fetch_throws (n : nat) (t : Thrown) (w : World) :
  let w' := (poll_resume n (Throw t) w).2 in
  (poll_resume n (Throw t) w).1 = Normal tt ∧
  counts w' = counts w ∧
  emitted n ev_notification_count w' = emitted n ev_notification_count w ∧
  emitted n ev_notification_count_changed w' = emitted n ev_notification_count_changed w ∧
  timers w' = timers w ∧
  emitted n ev_error w' =
    emitted n ev_error w ++
      [on_error match t with
                | ThrownError e => e
                | ThrownValue text => {| name := "Error"; message := text; entity := None |}
                end].
Proof.
  rewrite poll_resume_throw. set (e := on_error (ensureError t)). simpl.
  split; [apply detached_normal|].
  split; [by assert (H : keeps counts (detached (emit n e))) by keeps_auto|].
  split; [by assert (H : keeps (emitted n ev_notification_count) (detached (emit n e)))
             by keeps_auto|].
  split; [by assert (H : keeps (emitted n ev_notification_count_changed) (detached (emit n e)))
             by keeps_auto|].
  split; [by assert (H : keeps timers (detached (emit n e))) by keeps_auto|].
  rewrite detached_emit.
  assert (H : keeps (emitted n ev_error) (detached (dispatch (run_listener n) n e)))
    by keeps_auto.
  rewrite H, emitted_app. simpl. rewrite decide_True; [|done].
  unfold e. by destruct t.
Qed.

(** A poll of the booted process whose request is rejected with something
    that is no [Error], the text "socket hang up": the one 'error' event
    carries an [Error] with that message, the count stays 0 and no timer is
    set. *)
Lemma poll_fetch_throws_witness :
  let w' := (poll_resume 0 (Throw (ThrownValue "socket hang up")) booted).2 in
  emitted 0 ev_error w' =
    [on_error {| name := "Error"; message := "socket hang up"; entity := None |}] ∧
  counts w' = [ {| rooms_count := Num 0 |} ] ∧
  timers w' = [].
Proof.
  destruct (poll_fetch_throws 0 (ThrownValue "socket hang up") booted)
    as (_ & Hc & _ & _ & Ht & He).
  split; [exact He|]. split; [exact Hc|exact Ht].
Defined.

(** ** A poll whose request succeeds *)

Lemma accessor_alter (n m : nat) (f : Notifier → Notifier) (l : list Notifier) :
  (∀ nt, getSession (f nt) = getSession nt) →
  getSession <$> alter f m l !! n = getSession <$> l !! n.
Proof.
  intros Hf. destruct (decide (m = n)) as [->|Hne].
  - rewrite list_lookup_alter_eq. destruct (l !! n); simpl; [by rewrite Hf|done].
  - by rewrite list_lookup_alter_ne.
Qed.

Lemma keeps_accessor_modify_notifier n m f :
  (∀ nt, getSession (f nt) = getSession nt) →
  keeps (accessor n) (modify_notifier m f).
Proof. intros Hf w. unfold accessor. simpl. by apply accessor_alter. Qed.

Lemma keeps_accessor_new_AbortController n m :
  keeps (accessor n) (new_AbortController m).
Proof. intros w. unfold accessor. simpl. by apply accessor_alter. Qed.

Ltac keeps_accessor :=
  unfold_ops; keeps_split;
  try first
    [ intros ?; reflexivity
    | apply keeps_accessor_modify_notifier; intros ?; reflexivity
    | apply keeps_accessor_new_AbortController ].

Lemma emit_keeps_accessor n m e : keeps (accessor m) (emit n e).
Proof. keeps_accessor. Qed.

Lemma bound_eq n w w' :
  accessor n w' = accessor n w → contexts w' = contexts w → bound n w' = bound n w.
Proof.
  unfold accessor, bound. intros Ha Hc. rewrite Hc.
  destruct (notifiers w' !! n) as [nt'|], (notifiers w !! n) as [nt|];
    simpl in *; try done.
  by injection Ha as ->.
Qed.

Lemma bound_notifier n w c cx :
  bound n w = Some (c, cx) →
  ∃ nt, notifiers w !! n = Some nt ∧ getSession nt = c ∧ contexts w !! c = Some cx.
Proof.
  unfold bound. intros H.
  destruct (notifiers w !! n) as [nt|]; simpl in H; [|done].
  destruct (contexts w !! getSession nt) as [cx'|] eqn:E; simpl in H; [|done].
  injection H as <- <-. eauto.
Qed.

Lemma this_session_bound n w c cx :
  bound n w = Some (c, cx) → this_session n w = (Normal (session cx), w).
Proof.
  intros (nt & Hn & <- & Hc)%bound_notifier.
  unfold this_session, bind, get_notifier, get_context. by rewrite Hn, Hc.
Qed.

Lemma get_notifier_bound n w c cx :
  bound n w = Some (c, cx) →
  ∃ nt, get_notifier n w = (Normal nt, w) ∧ getSession nt = c.
Proof.
  intros (nt & Hn & <- & Hc)%bound_notifier.
  exists nt. unfold get_notifier. by rewrite Hn.
Qed.

Lemma for_each_normal {A} (P : World → Prop) (f : A → Js unit) (l : list A) w :
  (∀ x w, P w → (f x w).1 = Normal tt ∧ P (f x w).2) →
  P w → (for_each f l w).1 = Normal tt ∧ P (for_each f l w).2.
Proof.
  intros Hf. revert w. induction l as [|x l IH]; intros w HP; simpl; [done|].
  destruct (Hf x w HP) as [H1 H2]. unfold bind.
  destruct (f x w) as [[[]|t] w1]; simpl in *; [|done]. by apply IH.
Qed.

(** The events of a successful poll have listeners that read the world and
    reply, nothing more: the objects stay as they are. *)
Lemma emit_count_keeps_contexts n data :
  keeps contexts (emit n (on_notification_count data)).
Proof. keeps_frame. Qed.

Lemma emit_changed_keeps_contexts n data :
  keeps contexts (emit n (on_notification_count_changed data)).
Proof. keeps_frame. Qed.

Lemma dispatch_found run n e w nt :
  notifiers w !! n = Some nt →
  event_name e ≠ ev_error →
  dispatch run n e w =
  for_each (λ r, run (listener r) e) (filter (λ r, event r = event_name e) (emitter nt))
    (modify_notifier n
       (λ nt, {| controller := controller nt; getSession := getSession nt;
                 emitter := filter (λ r, ¬ (event r = event_name e ∧ once r = true))
                                   (emitter nt) |}) w).2.
Proof.
  intros Hn He. unfold dispatch. unfold bind at 1. unfold get_notifier. rewrite Hn.
  destruct (filter _ (emitter nt)); destruct e; done.
Qed.

Lemma dispatch_called run n e w nt :
  notifiers w !! n = Some nt →
  filter (λ r, event r = event_name e) (emitter nt) ≠ [] →
  dispatch run n e w =
  for_each (λ r, run (listener r) e) (filter (λ r, event r = event_name e) (emitter nt))
    (modify_notifier n
       (λ nt, {| controller := controller nt; getSession := getSession nt;
                 emitter := filter (λ r, ¬ (event r = event_name e ∧ once r = true))
                                   (emitter nt) |}) w).2.
Proof.
  intros Hn He. unfold dispatch. unfold bind at 1. unfold get_notifier. rewrite Hn.
  destruct (filter _ (emitter nt)); [done|]. by destruct e.
Qed.

Lemma dispatch_normal (P : World → Prop) run n e w :
  is_Some (notifiers w !! n) →
  event_name e ≠ ev_error →
  (∀ l w, P w → (run l e w).1 = Normal tt ∧ P (run l e w).2) →
  (∀ f w, (∀ nt, getSession (f nt) = getSession nt) → P w → P (modify_notifier n f w).2) →
  P w →
  (dispatch run n e w).1 = Normal tt ∧ P (dispatch run n e w).2.
Proof.
  intros [nt Hn] He Hrun Hmod HP.
  rewrite (dispatch_found _ _ _ _ _ Hn He).
  apply (for_each_normal P); [intros; by apply Hrun|].
  by apply Hmod.
Qed.

Lemma bound_modify_notifier n m f w :
  (∀ nt, getSession (f nt) = getSession nt) →
  bound n (modify_notifier m f w).2 = bound n w.
Proof.
  intros Hf. apply bound_eq; [|done].
  by apply keeps_accessor_modify_notifier.
Qed.

Lemma emit_plain_state_changed_normal n s w :
  is_Some (bound n w) →
  (emit_plain n (on_state_changed s) w).1 = Normal tt.
Proof.
  intros [[c cx] Hb].
  destruct (bound_notifier _ _ _ _ Hb) as (nt & Hn & _).
  unfold emit_plain, emit_with, bind at 1, effect.
  eapply proj1, (dispatch_normal (λ _, True)); simpl; try done.
  intros l w0 _. by destruct l.
Qed.

Lemma emit_count_keeps_bound n m data :
  keeps (bound m) (emit n (on_notification_count data)).
Proof.
  intros w. apply bound_eq; [apply emit_keeps_accessor|apply emit_count_keeps_contexts].
Qed.

Lemma emit_changed_keeps_bound n m data :
  keeps (bound m) (emit n (on_notification_count_changed data)).
Proof.
  intros w. apply bound_eq; [apply emit_keeps_accessor|apply emit_changed_keeps_contexts].
Qed.

Lemma run_listener_count_normal n l data w :
  (run_listener n l (on_notification_count data) w).1 = Normal tt.
Proof. destruct l; try done. apply detached_normal. Qed.

Lemma run_listener_changed_normal n l data w :
  is_Some (bound n w) →
  (run_listener n l (on_notification_count_changed data) w).1 = Normal tt.
Proof.
  intros [[c cx] Hb]. destruct l; try done. simpl.
  unfold bind. rewrite (this_session_bound _ _ _ _ Hb).
  by apply emit_plain_state_changed_normal.
Qed.

Lemma run_listener_keeps_bound n m l e :
  event_name e = ev_notification_count ∨ event_name e = ev_notification_count_changed →
  keeps (bound m) (run_listener n l e).
Proof.
  intros He w. apply bound_eq.
  - assert (H : keeps (accessor m) (run_listener n l e)) by keeps_accessor. apply H.
  - assert (H : keeps contexts (run_listener n l e)).
    { destruct e; simpl in He; try (by destruct He); keeps_frame. }
    apply H.
Qed.

Lemma emit_success_normal n e w :
  is_Some (bound n w) →
  event_name e = ev_notification_count ∨ event_name e = ev_notification_count_changed →
  (emit n e w).1 = Normal tt.
Proof.
  intros Hb He.
  unfold emit, emit_with, bind at 1, effect.
  eapply proj1, (dispatch_normal (λ w, is_Some (bound n w))).
  - destruct Hb as [[c cx] Hb].
    destruct (bound_notifier _ _ _ _ Hb) as (nt & Hn & _). simpl. by rewrite Hn.
  - by destruct He as [-> | ->].
  - intros l w' Hb'. split.
    + destruct e; simpl in He; try (by destruct He).
      * apply run_listener_count_normal.
      * by apply run_listener_changed_normal.
    + by rewrite run_listener_keeps_bound.
  - intros f w' Hf Hb'. by rewrite bound_modify_notifier.
  - done.
Qed.
Lemma normal_eta {A} (m : Js A) w a : (m w).1 = Normal a → m w = (Normal a, (m w).2).
Proof. destruct (m w) as [r w']. simpl. by intros ->. Qed.

(** What the [trigger] of context [cx] makes of the files. *)
Lemma this_session_set_bound n f w c cx :
  bound n w = Some (c, cx) →
  this_session_set n f w =
    (Normal tt,
     match chatId cx with
     | Some k =>
         if truthy k
         then with_storage (put_file k (Readable (f (session cx))))
                (with_contexts (alter (with_session f) c) w)
         else with_contexts (alter (with_session f) c) w
     | None => with_contexts (alter (with_session f) c) w
     end).
Proof.
  intros Hb. destruct (bound_notifier _ _ _ _ Hb) as (nt & Hn & <- & Hc).
  unfold this_session_set, proxy_set, trigger, bind, get_notifier, modify_session, get_context.
  rewrite Hn. simpl. rewrite list_lookup_alter_eq, Hc. simpl.
  destruct (chatId cx) as [k|]; [|done]. by destruct (truthy k).
Qed.

Lemma this_session_set_bound' n f w c cx :
  bound n w = Some (c, cx) →
  (this_session_set n f w).1 = Normal tt ∧
  bound n (this_session_set n f w).2 = Some (c, with_session f cx) ∧
  contexts (this_session_set n f w).2 = alter (with_session f) c (contexts w).
Proof.
  intros Hb. rewrite (this_session_set_bound _ _ _ _ _ Hb).
  destruct (bound_notifier _ _ _ _ Hb) as (nt & Hn & <- & Hc).
  assert (Hb' : bound n (with_contexts (alter (with_session f) (getSession nt)) w)
                = Some (getSession nt, with_session f cx)).
  { unfold bound. simpl. rewrite Hn. simpl. rewrite list_lookup_alter_eq, Hc. done. }
  destruct (chatId cx) as [k|]; [destruct (truthy k)|]; done.
Qed.

Lemma poll_resume_success n data w c cx :
  bound n w = Some (c, cx) →
  let w2 := (emit n (on_notification_count data) (with_trace (λ t, t ++ [Logged "polled"]) w)).2 in
  let w3 := if loose_ne (rooms_count data) (rooms_count (count (session cx)))
            then (emit n (on_notification_count_changed data) w2).2 else w2 in
  poll_resume n (Normal data) w =
    (Normal tt,
     with_timers (λ l, l ++ [(n, interval (options (session cx)))])
       (this_session_set n (set_count data) w3).2).
Proof.
  intros Hb w2 w3.
  assert (Hb2 : bound n w2 = Some (c, cx)) by (unfold w2; by rewrite emit_count_keeps_bound).
  assert (Hb3 : bound n w3 = Some (c, cx)).
  { unfold w3. destruct (loose_ne _ _); [by rewrite emit_changed_keeps_bound|done]. }
  destruct (this_session_set_bound' n (set_count data) w3 c cx Hb3) as (H1 & H2 & H3).
  unfold poll_resume, detached, try_catch.
  unfold bind at 1. unfold bind at 1. unfold effect at 1.
  unfold bind at 1.
  assert (E1 : emit n (on_notification_count data)
                 (with_trace (λ t, t ++ [Logged "polled"]) w) = (Normal tt, w2)).
  { apply normal_eta, emit_success_normal; [by exists (c, cx)|by left]. }
  rewrite E1.
  unfold bind at 1. rewrite (this_session_bound _ _ _ _ Hb2).
  unfold bind at 1.
  assert (E : (if loose_ne (rooms_count data) (rooms_count (count (session cx)))
               then emit n (on_notification_count_changed data) else ret ()) w2
              = (Normal tt, w3)).
  { unfold w3. destruct (loose_ne _ _); [|done].
    apply normal_eta, emit_success_normal; [by rewrite Hb2|by right]. }
  rewrite E. unfold bind at 1. rewrite (normal_eta _ _ _ H1).
  unfold bind at 1. rewrite (this_session_bound _ _ _ _ H2). done.
Qed.

Lemma emit_dispatch n e w :
  emit n e w = dispatch (run_listener n) n e (with_trace (λ t, t ++ [Emitted n e]) w).
Proof. reflexivity. Qed.

Lemma emit_emitted n e ev w :
  ev ≠ ev_poll → ev ≠ ev_state_changed →
  emitted n ev (emit n e w).2 =
  emitted n ev w ++ (if decide (event_name e = ev) then [e] else []).
Proof.
  intros H1 H2. rewrite emit_dispatch, dispatch_keeps_emitted, emitted_app; [|done..].
  f_equal. destruct (decide (event_name e = ev)) as [He|He].
  - by rewrite decide_True.
  - rewrite decide_False; [done|]. by intros [_ ?].
Qed.

Lemma this_session_set_keeps_emitted n m ev f :
  keeps (emitted m ev) (this_session_set n f).
Proof. keeps_frame. Qed.

Lemma loose_ne_differs (a b : number) :
  a ≠ NaN → loose_ne a b = true ↔ a ≠ b.
Proof.
  intros Ha. destruct a as [|x], b as [|y]; try done; unfold loose_ne; simpl.
  rewrite negb_true_iff, Z.eqb_neq. naive_solver.
Qed.

Lemma emitted_with_timers n ev f w : emitted n ev (with_timers f w) = emitted n ev w.
Proof. reflexivity. Qed.

Lemma bound_with_timers n f w : bound n (with_timers f w) = bound n w.
Proof. reflexivity. Qed.

(** C4. A poll cycle whose request succeeds: from the await on, with the
    fetched [data] (a count that is a number, as a JSON body has it), the
    cycle completes; it emits 'notification-count:changed' exactly once when
    [data.rooms_count] differs from the stored [count.rooms_count] and not
    at all when they are equal; afterwards [count] is [data] in either
    case, and the next poll is scheduled after [options.interval]. *)
Theorem poll_success_count_changed (n : nat) (data : NotificationsCount)
    (w : World) (c : nat) (cx : NotifierContext) :
  bound n w = Some (c, cx) →
  rooms_count data ≠ NaN →
  let w' := (poll_resume n (Normal data) w).2 in
  (poll_resume n (Normal data) w).1 = Normal tt ∧
  emitted n ev_notification_count_changed w' =
    emitted n ev_notification_count_changed w ++
      (if decide (rooms_count data = rooms_count (count (session cx)))
       then [] else [on_notification_count_changed data]) ∧
  session_of n w' = Some (set_count data (session cx)) ∧
  count <$> session_of n w' = Some data ∧
  timers w' = timers w ++ [(n, interval (options (session cx)))].
Proof.
  intros Hb Hnum. simpl. rewrite (poll_resume_success _ _ _ _ _ Hb). simpl.
  set (w2 := (emit n (on_notification_count data) _).2).
  set (w3 := if loose_ne _ _ then _ else _).
  assert (Hb2 : bound n w2 = Some (c, cx)) by (unfold w2; by rewrite emit_count_keeps_bound).
  assert (Hb3 : bound n w3 = Some (c, cx)).
  { unfold w3. destruct (loose_ne _ _); [by rewrite emit_changed_keeps_bound|done]. }
  destruct (this_session_set_bound' n (set_count data) w3 c cx Hb3) as (H1 & H2 & H3).
  split; [done|]. split; [|split; [|split]].
  - rewrite emitted_with_timers, this_session_set_keeps_emitted.
    assert (E2 : emitted n ev_notification_count_changed w2
                 = emitted n ev_notification_count_changed w).
    { unfold w2. rewrite emit_emitted; [|done..]. rewrite emitted_app. simpl.
      by rewrite !app_nil_r. }
    unfold w3. pose proof (loose_ne_differs _ (rooms_count (count (session cx))) Hnum) as Hd.
    destruct (loose_ne _ _).
    + rewrite emit_emitted, E2; [|done..]. simpl.
      rewrite decide_False; [done|]. by apply Hd.
    + rewrite E2.
      destruct (decide (rooms_count data = rooms_count (count (session cx)))) as [|Hne].
      * by rewrite app_nil_r.
      * by apply Hd in Hne.
  - unfold session_of. by rewrite bound_with_timers, H2.
  - unfold session_of. by rewrite bound_with_timers, H2.
  - assert (H : keeps timers (this_session_set n (set_count data))) by keeps_frame.
    rewrite H.
    assert (Ht3 : timers w3 = timers w2).
    { unfold w3. destruct (loose_ne _ _); [apply emit_keeps_timers|done]. }
    rewrite Ht3. unfold w2. by rewrite emit_keeps_timers.
Qed.

Lemma poll_success_count_changed_witness :
  (poll_resume 0 (Normal {| rooms_count := Num 5 |}) polled_3).1 = Normal tt ∧
  emitted 0 ev_notification_count_changed
    (poll_resume 0 (Normal {| rooms_count := Num 5 |}) polled_3).2 =
    emitted 0 ev_notification_count_changed polled_3 ++
      [on_notification_count_changed {| rooms_count := Num 5 |}].
Proof.
  destruct (poll_success_count_changed 0 {| rooms_count := Num 5 |} polled_3 0
              {| chatId := Some (Num 7);
                 session := set_count {| rooms_count := Num 3 |}
                              (set_polling true stored_session);
                 notifier := None |})
    as (H1 & H2 & _).
  - vm_compute. reflexivity.
  - discriminate.
  - split; [exact H1|exact H2].
Defined.
Lemma strict_eq_zero (a : number) : strict_eq a (Num 0) = bool_decide (a = Num 0).
Proof.
  destruct a as [|z]; simpl; [done|].
  destruct (Z.eqb_spec z 0) as [->|Hne]; [done|].
  rewrite bool_decide_eq_false_2; [done|]. by intros [= ->].
Qed.

Lemma emit_changed_keeps_notifications n data :
  keeps notifications (emit n (on_notification_count_changed data)).
Proof. keeps_auto. Qed.

Lemma this_session_set_keeps_notifications n f :
  keeps notifications (this_session_set n f).
Proof. keeps_frame. Qed.

Lemma handleNotificationCount_notifications c cx data w :
  contexts w !! c = Some cx →
  notifications (detached (handleNotificationCount c data false) w).2 =
  notifications w ++
    (if allowZeroMessages (options (session cx)) || negb (bool_decide (rooms_count data = Num 0))
     then [(c, rooms_count data)] else []).
Proof.
  intros Hc. unfold detached, try_catch, handleNotificationCount, bind, get_context.
  rewrite Hc. rewrite strict_eq_zero. simpl.
  destruct (allowZeroMessages _), (bool_decide _); simpl;
    rewrite ?notifications_app, ?app_nil_r; done.
Qed.

Lemma notifications_with_notifiers f w :
  notifications (with_notifiers f w) = notifications w.
Proof. reflexivity. Qed.

Lemma emit_count_notifications n data w c cx :
  listeners n ev_notification_count w = [relay_notification_count c] →
  contexts w !! c = Some cx →
  notifications (emit n (on_notification_count data) w).2 =
  notifications w ++
    (if allowZeroMessages (options (session cx)) || negb (bool_decide (rooms_count data = Num 0))
     then [(c, rooms_count data)] else []).
Proof.
  unfold listeners. intros Hl Hc.
  destruct (notifiers w !! n) as [nt|] eqn:Hn; [|done].
  rewrite emit_dispatch.
  rewrite (dispatch_found _ _ _ _ nt); [|done..]. simpl.
  destruct (filter _ (emitter nt)) as [|r [|r' rs]]; try done.
  injection Hl as Hl. unfold for_each, bind. rewrite Hl.
  change (run_listener n (relay_notification_count c) (on_notification_count data))
    with (detached (handleNotificationCount c data false)).
  match goal with
  | |- context [detached _ ?x] => pose proof (handleNotificationCount_notifications c cx data x Hc) as H
  end.
  destruct (detached _ _) as [[[]|t] w1]; simpl in *; rewrite H; f_equal;
    rewrite notifications_with_notifiers, notifications_app; simpl; by rewrite app_nil_r.
Qed.




(** Whose flag it is: after [/allow] has turned zero counts off in the
    session that the notifier reads, the relay still reads the session of
    the context the notifier was made for, where they are on, and a poll
    that returns 0 is announced. *)
Lemma relay_reads_creating_context :
  accessor 0 allow_turned_off = Some 1 ∧
  allowZeroMessages <$> (options <$> session_of 0 allow_turned_off) = Some false ∧
  listeners 0 ev_notification_count allow_turned_off = [relay_notification_count 0] ∧
  (λ cx, allowZeroMessages (options (session cx))) <$> contexts allow_turned_off !! 0
    = Some true ∧
  notifications (fetch_settles 0 (ok 0) allow_turned_off).2
    = notifications allow_turned_off ++ [(0, Num 0)].
Proof. vm_compute. repeat split; reflexivity. Qed.

(** ** getNotificationCount *)

Lemma getNotificationCount_bound n w c cx :
  bound n w = Some (c, cx) →
  getNotificationCount n w =
    if negb (truthy_string (referer (options (session cx)))) then
      (Normal (rejected (ThrownError (InvalidError "referer"))), w)
    else if negb (truthy_string (token (options (session cx)))) then
      (Normal (rejected (ThrownError (InvalidError "token"))), w)
    else
      match notifiers w !! n with
      | Some nt =>
          (Normal (fetching (controller nt)),
           with_trace (λ t, t ++ [Fetched (BASE_ENDPOINT +:+ "/" +:+ NOTIFICATION_COUNT_PATH)
                                    (default "" (referer (options (session cx))))
                                    (default "" (referer (options (session cx))))
                                    (default "" (token (options (session cx))))
                                    (controller nt)]) w)
      | None => (Normal (rejected (TypeError "no such notifier")), w)
      end.
Proof.
  intros Hb. unfold getNotificationCount, try_catch.
  unfold bind at 1. rewrite (this_session_bound _ _ _ _ Hb).
  destruct (truthy_string (referer _)); simpl; [|done].
  unfold bind at 1. rewrite (this_session_bound _ _ _ _ Hb).
  destruct (truthy_string (token _)); simpl; [|done].
  unfold bind at 1. rewrite (this_session_bound _ _ _ _ Hb).
  unfold bind, get_notifier. by destruct (notifiers w !! n).
Qed.

(** C7. [getNotificationCount()] with the referer or the token unset (null)
    comes back rejected with an [InvalidError], whatever the network would
    have answered, and the world is as before: no request went out. When it
    does send a request, both were set; and it sends one whenever both are
    set and not empty. *)
Theorem getNotificationCount_unset (n : nat) (w : World) (c : nat) (cx : NotifierContext) :
  bound n w = Some (c, cx) →
  let o := options (session cx) in
  (referer o = None ∨ token o = None →
   ∃ e, getNotificationCount n w = (Normal (rejected (ThrownError (InvalidError e))), w) ∧
        (e = "referer" ∨ e = "token") ∧
        ∀ net, settle (rejected (ThrownError (InvalidError e))) net
               = Throw (ThrownError (InvalidError e))) ∧
  (∀ signal, (getNotificationCount n w).1 = Normal (fetching signal) →
             is_Some (referer o) ∧ is_Some (token o)) ∧
  (truthy_string (referer o) = true → truthy_string (token o) = true →
   ∃ signal, (getNotificationCount n w).1 = Normal (fetching signal) ∧
             requests (getNotificationCount n w).2 =
               requests w ++ [Fetched (BASE_ENDPOINT +:+ "/" +:+ NOTIFICATION_COUNT_PATH)
                                (default "" (referer o)) (default "" (referer o))
                                (default "" (token o)) signal]).
Proof.
  intros Hb o. rewrite (getNotificationCount_bound _ _ _ _ Hb). fold o.
  destruct (bound_notifier _ _ _ _ Hb) as (nt & Hn & _). rewrite Hn.
  split; [|split].
  - intros [Hr|Ht].
    + rewrite Hr. simpl. exists "referer". eauto.
    + rewrite Ht. destruct (truthy_string (referer o)); simpl.
      * exists "token". eauto.
      * exists "referer". eauto.
  - intros signal.
    destruct (referer o) as [r|], (token o) as [t|]; simpl;
      repeat (match goal with |- context [if ?b then _ else _] => destruct b end; simpl);
      try done; eauto.
  - intros -> ->. simpl. exists (controller nt). split; [done|].
    unfold requests. simpl. by rewrite omap_app.
Qed.

Lemma getNotificationCount_unset_witness :
  ∃ e, getNotificationCount 0 unconfigured
       = (Normal (rejected (ThrownError (InvalidError e))), unconfigured).
Proof.
  destruct (getNotificationCount_unset 0 unconfigured 0
              {| chatId := Some (Num 7); session := DEFAULT_NOTIFIER_STATE;
                 notifier := None |})
    as [H _].
  - vm_compute. reflexivity.
  - destruct H as (e & H & _); [left; reflexivity|]. exists e. exact H.
Defined.

(** ** The commands *)



(** C2, which the code does not keep. The guard of [/interval] is
    [Number.isNaN(interval) && interval > 0], which no number satisfies: the
    handler never throws, assigns whatever [Number(ctx.match)] is to
    [options.interval], NaN and non-positive values included, and replies
    that the interval was set. *)
Theorem command_interval_accepts_all (c : nat) (interval : number) (w : World) :
  command_interval c interval w =
    (Normal tt,
     with_trace (λ t, t ++ [Replied c (Text "Interval successfully set")])
       (with_contexts (alter (with_session (set_interval interval)) c) w)).
Proof.
  unfold command_interval.
  assert (E : isNaN interval && gt interval (Num 0) = false) by by destruct interval.
  by rewrite E.
Qed.

(** ** NotifierFactory.create *)

Lemma create_registered c w cx k n :
  contexts w !! c = Some cx → chatId cx = Some k → truthy k = true →
  registry w !! k = Some n →
  NotifierFactory.create c w =
    (Normal n,
     with_notifiers (alter (rebind c) n) w).
Proof.
  intros Hc Hk Ht Hr. unfold NotifierFactory.create, bind, get_context.
  rewrite Hc, Hk, Ht. cbn [negb]. cbv beta iota. rewrite Hr. unfold ret at 1. cbv beta iota.
  by rewrite Hr.
Qed.

Lemma emit_poll_true_normal n w :
  is_Some (bound n w) → (emit n (on_poll true) w).1 = Normal tt.
Proof.
  intros Hb. rewrite emit_dispatch.
  eapply proj1, (dispatch_normal (λ _, True)); try done.
  - destruct Hb as [[c cx] Hb].
    destruct (bound_notifier _ _ _ _ Hb) as (nt & Hn & _). simpl. by rewrite Hn.
  - intros l w' _. by destruct l.
Qed.

Lemma poll_normal n w : (poll n w).1 = Normal tt.
Proof. apply detached_normal. Qed.

Lemma poll_keeps_contexts n : keeps contexts (poll n).
Proof. keeps_frame. Qed.

Lemma poll_keeps_accessor n m : keeps (accessor m) (poll n).
Proof. keeps_accessor. Qed.

Lemma bound_new_AbortController n m w :
  bound n (new_AbortController m w).2 = bound n w.
Proof. apply bound_eq; [apply keeps_accessor_new_AbortController|done]. Qed.

Lemma startPollingNotifications_normal n force w :
  is_Some (bound n w) → (startPollingNotifications n force w).1 = Normal tt.
Proof.
  intros [[c cx] Hb]. unfold startPollingNotifications.
  rewrite (bind_normal _ _ _ _ _ (this_session_bound _ _ _ _ Hb)).
  destruct (polling _ && negb force); [done|].
  unfold bind at 1. simpl.
  set (w1 := with_controllers _ _).
  assert (Hb1 : bound n w1 = Some (c, cx)) by by rewrite <- Hb, <- (bound_new_AbortController n n w).
  destruct (this_session_set_bound' n (set_polling true) w1 c cx Hb1) as (H1 & H2 & _).
  rewrite (bind_normal _ _ _ _ _ (normal_eta _ _ _ H1)).
  set (w2 := (this_session_set n (set_polling true) w1).2) in *.
  destruct (this_session_set_bound' n (set_pollingOnBoot true) w2 c _ H2) as (H3 & H4 & _).
  rewrite (bind_normal _ _ _ _ _ (normal_eta _ _ _ H3)).
  set (w3 := (this_session_set n (set_pollingOnBoot true) w2).2) in *.
  rewrite (bind_normal _ _ _ _ _ (normal_eta _ _ _ (poll_normal n w3))).
  assert (Hb4 : is_Some (bound n (poll n w3).2)).
  { rewrite (bound_eq n w3 (poll n w3).2), H4;
      [done|apply poll_keeps_accessor|apply poll_keeps_contexts]. }
  rewrite (bind_normal _ _ _ _ _ (normal_eta _ _ _ (emit_poll_true_normal n _ Hb4))).
  done.
Qed.

Lemma keeps_length_modify_notifier n f :
  keeps (λ w, length (notifiers w)) (modify_notifier n f).
Proof. intros w. apply length_alter. Qed.

Lemma keeps_length_new_AbortController n :
  keeps (λ w, length (notifiers w)) (new_AbortController n).
Proof. intros w. apply length_alter. Qed.

Ltac keeps_length :=
  unfold_ops; keeps_split;
  try first
    [ intros ?; reflexivity
    | apply keeps_length_modify_notifier
    | apply keeps_length_new_AbortController ].

Lemma startPollingNotifications_keeps_length n force :
  keeps (λ w, length (notifiers w)) (startPollingNotifications n force).
Proof. keeps_length. Qed.

Lemma startPollingNotifications_keeps_registry n force :
  keeps registry (startPollingNotifications n force).
Proof. keeps_frame. Qed.

Lemma startPollingNotifications_keeps_accessor n m force :
  keeps (accessor m) (startPollingNotifications n force).
Proof. keeps_accessor. Qed.

Lemma bind_returns {A B} (m : Js A) (k : A → Js B) w a b :
  (m w).1 = Normal a → (k a (m w).2).1 = Normal b → (bind m k w).1 = Normal b.
Proof. unfold bind. destruct (m w) as [r w']. simpl. by intros ->. Qed.

Lemma wire_normal c n k resume w :
  is_Some (bound n w) → (wire c n k resume w).1 = Normal tt.
Proof.
  intros Hb. unfold wire. destruct resume; [|done].
  apply bind_returns with tt; [|done].
  apply bind_returns with tt; [done|].
  apply bind_returns with tt; [|apply detached_normal].
  by apply startPollingNotifications_normal.
Qed.

Lemma wire_keeps_registry c n k resume : keeps registry (wire c n k resume).
Proof. unfold wire. keeps_frame. Qed.

Lemma wire_keeps_length c n k resume : keeps (λ w, length (notifiers w)) (wire c n k resume).
Proof. unfold wire. keeps_length. Qed.

Lemma wire_keeps_accessor c n m k resume : keeps (accessor m) (wire c n k resume).
Proof. unfold wire. keeps_accessor. Qed.

Lemma create_new c w cx k :
  contexts w !! c = Some cx → chatId cx = Some k → truthy k = true →
  registry w !! k = None →
  let n := length (notifiers w) in
  let w2 := with_registry (insert k n) (new_Notifier c w).2 in
  NotifierFactory.create c w =
    (Normal n,
     (updateSession n c (wire c n k (pollingOnBoot (options (session cx))) w2).2).2)
  ∧ bound n w2 = Some (c, cx).
Proof.
  intros Hc Hk Ht Hr n w2.
  assert (Hb : bound n w2 = Some (c, cx)).
  { unfold bound, w2, n. simpl. rewrite list_lookup_middle; [|done]. simpl. by rewrite Hc. }
  split; [|done].
  unfold NotifierFactory.create.
  unfold bind at 1. unfold get_context at 1. rewrite Hc, Hk, Ht. cbn [negb]. cbv beta iota.
  unfold bind at 1. cbv beta iota. rewrite Hr.
  unfold bind at 1. unfold bind at 1. unfold new_Notifier at 1. cbv beta iota.
  unfold bind at 1. unfold registry_set at 1. cbv beta iota.
  unfold bind at 1. unfold get_context at 1. cbn [contexts with_registry with_controllers with_notifiers].
  rewrite Hc.
  change (with_registry _ _) with w2. fold n.
  change (bind (if pollingOnBoot (options (session cx)) then _ else _) _)
    with (wire c n k (pollingOnBoot (options (session cx)))).
  rewrite (normal_eta _ _ _ (wire_normal c n k _ w2 (mk_is_Some _ _ Hb))).
  unfold bind at 1. cbv beta iota.
  rewrite wire_keeps_registry. unfold w2 at 1. cbn [registry with_registry].
  rewrite lookup_insert_eq. done.
Qed.

(** A later call: what it returns and what it changes, with the change
    seen through the objects of the process. *)
Lemma create_later c w cx k n :
  contexts w !! c = Some cx → chatId cx = Some k → truthy k = true →
  registry w !! k = Some n → is_Some (notifiers w !! n) →
  ∃ w', NotifierFactory.create c w = (Normal n, w') ∧
        accessor n w' = Some c ∧
        controller <$> notifiers w' !! n = controller <$> notifiers w !! n ∧
        emitter <$> notifiers w' !! n = emitter <$> notifiers w !! n ∧
        (∀ m, m ≠ n → notifiers w' !! m = notifiers w !! m) ∧
        length (notifiers w') = length (notifiers w) ∧
        registry w' = registry w ∧ contexts w' = contexts w ∧
        storage w' = storage w ∧ controllers w' = controllers w ∧
        timers w' = timers w ∧ awaiting w' = awaiting w ∧ trace w' = trace w.
Proof.
  intros Hc Hk Ht Hr [nt Hn].
  exists (with_notifiers (alter (rebind c) n) w).
  split; [by apply (create_registered c w cx k n)|].
  unfold accessor. simpl. rewrite !list_lookup_alter_eq, Hn. simpl.
  do 3 (split; [done|]).
  split; [intros m Hm; by apply list_lookup_alter_ne|].
  split; [apply length_alter|done].
Qed.

(** C9. [NotifierFactory.create] for a context whose chat id passes its
    guard, in a process whose registry holds notifiers that exist. When the
    registry has no notifier for the id, the call makes a new one,
    registers it under the id and returns it. When it has one, the call
    returns that notifier, and afterwards the accessor of that notifier
    reads the context of this call; nothing else has changed: the
    notifier's controller and listeners, every other notifier, the number
    of notifiers, the registry, every session and session file, the pending
    timers, the suspended polls, and the trace (nothing was aborted, sent
    or emitted). So after the first call every later call for the id
    returns the notifier of the first, rebound to the caller's context. *)
Theorem create_idempotent (c : nat) (w : World) (cx : NotifierContext) (k : number) :
  contexts w !! c = Some cx → chatId cx = Some k → truthy k = true →
  (∀ n, registry w !! k = Some n → is_Some (notifiers w !! n)) →
  match registry w !! k with
  | Some n =>
      ∃ w', NotifierFactory.create c w = (Normal n, w') ∧
            accessor n w' = Some c ∧
            controller <$> notifiers w' !! n = controller <$> notifiers w !! n ∧
            emitter <$> notifiers w' !! n = emitter <$> notifiers w !! n ∧
            (∀ m, m ≠ n → notifiers w' !! m = notifiers w !! m) ∧
            length (notifiers w') = length (notifiers w) ∧
            registry w' = registry w ∧ contexts w' = contexts w ∧
            storage w' = storage w ∧ controllers w' = controllers w ∧
            timers w' = timers w ∧ awaiting w' = awaiting w ∧ trace w' = trace w
  | None =>
      let n := length (notifiers w) in
      ∃ w', NotifierFactory.create c w = (Normal n, w') ∧
            registry w' = <[k := n]> (registry w) ∧
            length (notifiers w') = S (length (notifiers w)) ∧
            accessor n w' = Some c ∧
            ∀ c2 cx2, contexts w' !! c2 = Some cx2 → chatId cx2 = Some k →
                      ∃ w'', NotifierFactory.create c2 w' = (Normal n, w'') ∧
                             accessor n w'' = Some c2 ∧
                             registry w'' = registry w' ∧
                             length (notifiers w'') = length (notifiers w') ∧
                             timers w'' = timers w' ∧ awaiting w'' = awaiting w'
  end.
Proof.
  intros Hc Hk Ht Hlive. destruct (registry w !! k) as [n|] eqn:Hr.
  - apply (create_later c w cx k n); [done..|by apply Hlive].
  - intros n. destruct (create_new c w cx k Hc Hk Ht Hr) as [E Hb].
    fold n in E, Hb.
    set (w2 := with_registry (insert k n) (new_Notifier c w).2) in *.
    set (w3 := (wire c n k (pollingOnBoot (options (session cx))) w2).2) in *.
    assert (Hreg : registry (updateSession n c w3).2 = <[k := n]> (registry w)).
    { unfold w3. simpl. by rewrite wire_keeps_registry. }
    assert (Hacc : accessor n w3 = Some c).
    { unfold w3. rewrite wire_keeps_accessor.
      destruct (bound_notifier _ _ _ _ Hb) as (nt & Hn & Hg & _).
      unfold accessor. by rewrite Hn, <- Hg. }
    assert (Hacc' : accessor n (updateSession n c w3).2 = Some c).
    { unfold accessor in *. unfold updateSession. simpl.
      rewrite list_lookup_alter_eq. by destruct (notifiers w3 !! n). }
    eexists. split; [exact E|]. split; [done|]. split; [|split; [done|]].
    + unfold updateSession. simpl. rewrite length_alter.
      unfold w3. rewrite (wire_keeps_length c n k _ w2).
      unfold w2. simpl. rewrite length_app. simpl. lia.
    + intros c2 cx2 Hc2 Hk2.
      destruct (create_later c2 (updateSession n c w3).2 cx2 k n Hc2 Hk2 Ht)
        as (w'' & E2 & A2 & _ & _ & _ & L2 & R2 & _ & _ & _ & T2 & W2 & _).
      * by rewrite Hreg, lookup_insert_eq.
      * unfold accessor in Hacc'. by destruct (notifiers (updateSession n c w3).2 !! n).
      * exists w''. done.
Qed.

(** An update from chat 7 reaches the booted process, whose notifier 0 was
    made for context 0 and waits for the response of its first poll: the
    call for the new context 1 returns notifier 0, whose accessor read
    context 0 before and reads context 1 now, and the suspended poll is
    where it was. *)
Lemma create_idempotent_witness :
  let w := (new_NotifierContext (Some (Num 7)) with_credentials booted).2 in
  accessor 0 w = Some 0 ∧ awaiting w = [(0, fetching 1)] ∧
  ∃ w', NotifierFactory.create 1 w = (Normal 0, w') ∧
        accessor 0 w' = Some 1 ∧ awaiting w' = [(0, fetching 1)] ∧
        length (notifiers w') = 1.
Proof.
  intros w.
  pose proof (create_idempotent 1 w
                {| chatId := Some (Num 7); session := with_credentials; notifier := None |}
                (Num 7)) as H.
  replace (registry w !! Num 7) with (Some 0) in H by (vm_compute; reflexivity).
  destruct H as (w' & E & A & _ & _ & _ & L & _ & _ & _ & _ & _ & W & _).
  - vm_compute. reflexivity.
  - reflexivity.
  - reflexivity.
  - intros n Hn. apply (bool_decide_unpack _).
    assert (n = 0) as -> by (vm_compute in Hn; congruence).
    vm_compute. exact I.
  - split; [vm_compute; reflexivity|]. split; [vm_compute; reflexivity|].
    exists w'. split; [exact E|]. split; [exact A|]. split; [|].
    + rewrite W. vm_compute. reflexivity.
    + rewrite L. vm_compute. reflexivity.
Defined.

(** ** Stopping, and the next boot *)

Lemma file_put_file k v files : file k (put_file k v files) = Some v.
Proof.
  induction files as [|[k' v'] files IH]; simpl.
  - by rewrite decide_True.
  - destruct (decide (k' = k)) as [->|Hne]; simpl.
    + by rewrite decide_True.
    + by rewrite decide_False.
Qed.

Lemma file_put_file_ne k k' v files : k ≠ k' → file k' (put_file k v files) = file k' files.
Proof.
  intros Hne. induction files as [|[k0 v0] files IH]; simpl.
  - by rewrite decide_False.
  - destruct (decide (k0 = k)) as [->|Hne0]; simpl.
    + by rewrite !decide_False.
    + by rewrite IH.
Qed.

(** A write through the proxy of a context that passed the guard of
    [create] leaves the session and its file equal. *)
Lemma this_session_set_synced n f w c cx k :
  bound n w = Some (c, cx) → chatId cx = Some k → truthy k = true →
  (this_session_set n f w).1 = Normal tt ∧
  bound n (this_session_set n f w).2 = Some (c, with_session f cx) ∧
  file k (storage (this_session_set n f w).2) = Some (Readable (f (session cx))).
Proof.
  intros Hb Hk Ht.
  destruct (this_session_set_bound' n f w c cx Hb) as (H1 & H2 & _).
  split; [done|]. split; [done|].
  rewrite (this_session_set_bound _ _ _ _ _ Hb), Hk, Ht. simpl.
  apply file_put_file.
Qed.

Lemma stopPollingNotifications_bound n (commit : bool) w c cx k :
  bound n w = Some (c, cx) → chatId cx = Some k → truthy k = true →
  let s' := set_polling false
              (if commit then set_pollingOnBoot false (session cx) else session cx) in
  (stopPollingNotifications n commit w).1 = Normal tt ∧
  bound n (stopPollingNotifications n commit w).2 = Some (c, with_session (λ _ : NotifierState, s') cx) ∧
  file k (storage (stopPollingNotifications n commit w).2) = Some (Readable s').
Proof.
  intros Hb Hk Ht s'.
  set (cx' := with_session (λ _ : NotifierState, s') cx).
  set (P := λ v, bound n v = Some (c, cx') ∧ file k (storage v) = Some (Readable s')).
  (* the two assignments *)
  set (m1 := if commit then this_session_set n (set_pollingOnBoot false) else ret tt).
  assert (H1 : (m1 w).1 = Normal tt ∧
               bound n (m1 w).2 =
                 Some (c, with_session (if commit then set_pollingOnBoot false else id) cx)).
  { unfold m1. destruct commit; [|by destruct cx as [? [] ?]].
    by destruct (this_session_set_synced n (set_pollingOnBoot false) w c cx k) as (? & ? & _). }
  destruct H1 as [H1 Hb1].
  destruct (this_session_set_synced n (set_polling false) (m1 w).2 c _ k Hb1 Hk Ht)
    as (H2 & Hb2 & Hf2).
  set (w2 := (this_session_set n (set_polling false) (m1 w).2).2) in *.
  assert (HP2 : P w2).
  { split; [rewrite Hb2|rewrite Hf2]; by destruct commit. }
  (* the controller *)
  destruct (bound_notifier _ _ _ _ (proj1 HP2)) as (nt & Hn & _).
  set (w3 := (new_AbortController n (with_trace (λ t, t ++ [Aborted (controller nt)]) w2)).2).
  assert (HP3 : P w3).
  { destruct HP2 as [Hb' Hf']. split; [|done].
    unfold w3. by rewrite bound_new_AbortController. }
  (* the 'poll' event *)
  assert (H4 : (emit_plain n (on_poll false) w3).1 = Normal tt ∧
               P (emit_plain n (on_poll false) w3).2).
  { unfold emit_plain, emit_with, bind at 1 2, effect. cbv beta iota.
    apply (dispatch_normal P).
    - destruct (bound_notifier _ _ _ _ (proj1 HP3)) as (nt3 & Hn3 & _).
      exists nt3. exact Hn3.
    - done.
    - intros l v [Hbv Hfv]. destruct l; try done. simpl.
      destruct (this_session_set_synced n (set_polling false) v c cx' k Hbv Hk Ht)
        as (? & ? & ?).
      done.
    - intros f v Hf [Hbv Hfv]. split; [by rewrite bound_modify_notifier|done].
    - destruct HP3. by split. }
  assert (E : stopPollingNotifications n commit w = emit_plain n (on_poll false) w3).
  { unfold stopPollingNotifications. fold m1.
    rewrite (bind_normal _ _ _ _ _ (normal_eta _ _ _ H1)).
    rewrite (bind_normal _ _ _ _ _ (normal_eta _ _ _ H2)). fold w2.
    unfold bind, get_notifier. by rewrite Hn. }
  rewrite E. destruct H4 as (? & ? & ?). done.
Qed.

Lemma getNotificationCount_normal n w :
  is_Some (bound n w) → ∃ p, (getNotificationCount n w).1 = Normal p.
Proof.
  intros [[c cx] Hb]. rewrite (getNotificationCount_bound _ _ _ _ Hb).
  destruct (negb _); [eauto|]. destruct (negb _); [eauto|].
  destruct (notifiers w !! n); eauto.
Qed.

Lemma poll_enter_polling n w c cx :
  bound n w = Some (c, cx) → polling (options (session cx)) = true →
  ∃ p, poll_enter n w = (Normal (Some p), (getNotificationCount n w).2).
Proof.
  intros Hb Hp. unfold poll_enter.
  rewrite (bind_normal _ _ _ _ _ (this_session_bound _ _ _ _ Hb)), Hp. simpl.
  destruct (getNotificationCount_normal n w) as [p Hg]; [by rewrite Hb|].
  exists p. by rewrite (bind_normal _ _ _ _ _ (normal_eta _ _ _ Hg)).
Qed.

Lemma poll_suspends n w c cx :
  bound n w = Some (c, cx) → polling (options (session cx)) = true →
  ∃ p, awaiting (poll n w).2 = awaiting w ++ [(n, p)].
Proof.
  intros Hb Hp. destruct (poll_enter_polling n w c cx Hb Hp) as [p He].
  exists p. unfold poll, detached, try_catch.
  rewrite (bind_normal _ _ _ _ _ He). simpl. f_equal.
  assert (H : keeps awaiting (getNotificationCount n)) by keeps_frame. apply H.
Qed.

Lemma emit_poll_true_keeps_contexts n : keeps contexts (emit n (on_poll true)).
Proof. keeps_frame. Qed.

Lemma emit_keeps_awaiting n e : keeps awaiting (emit n e).
Proof. keeps_frame. Qed.

Lemma startPollingNotifications_forced n w c cx :
  bound n w = Some (c, cx) →
  let r := startPollingNotifications n true w in
  r.1 = Normal tt ∧
  (∃ p, awaiting r.2 = awaiting w ++ [(n, p)]) ∧
  bound n r.2 = Some (c, with_session (λ s, set_pollingOnBoot true (set_polling true s)) cx).
Proof.
  intros Hb r. split; [apply startPollingNotifications_normal; by rewrite Hb|].
  set (w1 := (new_AbortController n w).2).
  assert (Hb1 : bound n w1 = Some (c, cx)) by by rewrite <- Hb, <- (bound_new_AbortController n n w).
  destruct (this_session_set_bound' n (set_polling true) w1 c cx Hb1) as (H1 & H2 & _).
  set (w2 := (this_session_set n (set_polling true) w1).2) in *.
  destruct (this_session_set_bound' n (set_pollingOnBoot true) w2 c _ H2) as (H3 & H4 & _).
  set (w3 := (this_session_set n (set_pollingOnBoot true) w2).2) in *.
  assert (Hb4 : bound n (poll n w3).2 = bound n w3).
  { apply bound_eq; [apply poll_keeps_accessor|apply poll_keeps_contexts]. }
  assert (Hs4 : is_Some (bound n (poll n w3).2)) by by rewrite Hb4, H4.
  assert (E : r = add_listener n ev_poll true clear_polling
                    (emit n (on_poll true) (poll n w3).2).2).
  { unfold r, startPollingNotifications.
    rewrite (bind_normal _ _ _ _ _ (this_session_bound _ _ _ _ Hb)).
    rewrite andb_false_r.
    rewrite (bind_normal (new_AbortController n) _ w tt w1 eq_refl).
    rewrite (bind_normal _ _ _ _ _ (normal_eta _ _ _ H1)). fold w2.
    rewrite (bind_normal _ _ _ _ _ (normal_eta _ _ _ H3)). fold w3.
    rewrite (bind_normal _ _ _ _ _ (normal_eta _ _ _ (poll_normal n w3))).
    by rewrite (bind_normal _ _ _ _ _ (normal_eta _ _ _ (emit_poll_true_normal n _ Hs4))). }
  rewrite E.
  destruct (poll_suspends n w3 c _ H4 eq_refl) as [p Hp].
  split.
  - exists p. simpl. rewrite emit_keeps_awaiting, Hp. f_equal.
    assert (K : keeps awaiting (this_session_set n (set_pollingOnBoot true))) by keeps_frame.
    unfold w3. rewrite K.
    assert (K' : keeps awaiting (this_session_set n (set_polling true))) by keeps_frame.
    unfold w2. by rewrite K'.
  - unfold add_listener. rewrite bound_modify_notifier; [|done].
    rewrite (bound_eq n (poll n w3).2);
      [by rewrite Hb4, H4|apply emit_keeps_accessor|apply emit_poll_true_keeps_contexts].
Qed.

Lemma bound_with_trace n f w : bound n (with_trace f w) = bound n w.
Proof. reflexivity. Qed.

Lemma bound_updateSession n c w cx :
  bound n w = Some (c, cx) → bound n (updateSession n c w).2 = Some (c, cx).
Proof.
  intros Hb. destruct (bound_notifier _ _ _ _ Hb) as (nt & Hn & Hg & Hc).
  unfold bound, updateSession. simpl. rewrite list_lookup_alter_eq, Hn. simpl.
  by rewrite Hc.
Qed.

Lemma restore_new k w0 s :
  file k (storage w0) = Some (Readable s) → registry w0 !! k = None → truthy k = true →
  let c0 := length (contexts w0) in
  let n0 := length (notifiers w0) in
  let cx0 := {| chatId := Some k; session := s; notifier := None |} in
  let w2 := with_registry (insert k n0)
              (new_Notifier c0 (new_NotifierContext (Some k) s w0).2).2 in
  restore k w0 =
    sendMessage k (Text "Bot booted")
      (updateSession n0 c0 (wire c0 n0 k (pollingOnBoot (options s)) w2).2).2
  ∧ bound n0 w2 = Some (c0, cx0).
Proof.
  intros Hf Hr Ht c0 n0 cx0 w2.
  set (w1 := (new_NotifierContext (Some k) s w0).2).
  assert (Hc : contexts w1 !! c0 = Some cx0).
  { unfold w1, c0. simpl. by rewrite list_lookup_middle. }
  destruct (create_new c0 w1 cx0 k Hc eq_refl Ht Hr) as [E Hb].
  split; [|exact Hb].
  unfold restore.
  assert (E0 : storage_read k w0 = (Normal s, w0)) by (unfold storage_read; by rewrite Hf).
  rewrite (bind_normal _ _ _ _ _ E0).
  rewrite (bind_normal (new_NotifierContext (Some k) s) _ w0 c0 w1 eq_refl).
  by rewrite (bind_normal _ _ _ _ _ E).
Qed.

Lemma wire_resume c n k w cx :
  bound n w = Some (c, cx) →
  let started := (startPollingNotifications n true
                    (with_trace (λ t, t ++ [Logged "Polling enabled in session. Started to poll"])
                       w)).2 in
  wire c n k true w =
    (Normal tt,
     (add_listener n ev_notification_count false (relay_notification_count c)
        (add_listener n ev_error false (relay_error c)
           (detached (sendMessage k (Text "Continue polling after reboot")) started).2).2).2).
Proof.
  intros Hb started. unfold wire.
  set (w' := with_trace _ w) in *.
  destruct (startPollingNotifications_forced n w' c cx Hb) as (H1 & _).
  assert (E : (effect (Logged "Polling enabled in session. Started to poll") ;;;
               startPollingNotifications n true ;;;
               detached (sendMessage k (Text "Continue polling after reboot"))) w
              = (Normal tt,
                 (detached (sendMessage k (Text "Continue polling after reboot")) started).2)).
  { rewrite (bind_normal (effect _) _ w tt w' eq_refl).
    rewrite (bind_normal _ _ _ _ _ (normal_eta _ _ _ H1)).
    apply normal_eta, detached_normal. }
  by rewrite (bind_normal _ _ _ _ _ E).
Qed.

(** ** The check command and the stored count *)







(** ** The boot loop *)

Lemma this_session_set_files n f w c cx k' :
  bound n w = Some (c, cx) → chatId cx ≠ Some k' →
  file k' (storage (this_session_set n f w).2) = file k' (storage w).
Proof.
  intros Hb Hk. rewrite (this_session_set_bound _ _ _ _ _ Hb).
  destruct (chatId cx) as [k|]; [|done]. destruct (truthy k); [|done]. simpl.
  apply file_put_file_ne. by intros ->.
Qed.

Lemma poll_keeps_storage n : keeps storage (poll n).
Proof. keeps_frame. Qed.

Lemma emit_poll_true_keeps_storage n : keeps storage (emit n (on_poll true)).
Proof. keeps_frame. Qed.

Lemma startPollingNotifications_files n w c cx k' :
  bound n w = Some (c, cx) → chatId cx ≠ Some k' →
  file k' (storage (startPollingNotifications n true w).2) = file k' (storage w).
Proof.
  intros Hb Hk.
  set (w1 := (new_AbortController n w).2).
  assert (Hb1 : bound n w1 = Some (c, cx)) by by rewrite <- Hb, <- (bound_new_AbortController n n w).
  destruct (this_session_set_bound' n (set_polling true) w1 c cx Hb1) as (H1 & H2 & _).
  set (w2 := (this_session_set n (set_polling true) w1).2) in *.
  destruct (this_session_set_bound' n (set_pollingOnBoot true) w2 c _ H2) as (H3 & H4 & _).
  set (w3 := (this_session_set n (set_pollingOnBoot true) w2).2) in *.
  assert (Hb4 : bound n (poll n w3).2 = bound n w3).
  { apply bound_eq; [apply poll_keeps_accessor|apply poll_keeps_contexts]. }
  assert (Hs4 : is_Some (bound n (poll n w3).2)) by by rewrite Hb4, H4.
  assert (E : startPollingNotifications n true w
              = add_listener n ev_poll true clear_polling
                  (emit n (on_poll true) (poll n w3).2).2).
  { unfold startPollingNotifications.
    rewrite (bind_normal _ _ _ _ _ (this_session_bound _ _ _ _ Hb)).
    rewrite andb_false_r.
    rewrite (bind_normal (new_AbortController n) _ w tt w1 eq_refl).
    rewrite (bind_normal _ _ _ _ _ (normal_eta _ _ _ H1)). fold w2.
    rewrite (bind_normal _ _ _ _ _ (normal_eta _ _ _ H3)). fold w3.
    rewrite (bind_normal _ _ _ _ _ (normal_eta _ _ _ (poll_normal n w3))).
    by rewrite (bind_normal _ _ _ _ _ (normal_eta _ _ _ (emit_poll_true_normal n _ Hs4))). }
  rewrite E. simpl. rewrite emit_poll_true_keeps_storage, poll_keeps_storage.
  unfold w3. rewrite (this_session_set_files _ _ _ _ _ _ H2); [|done].
  unfold w2. by rewrite (this_session_set_files _ _ _ _ _ _ Hb1).
Qed.

Lemma sendMessage_delivered k m w :
  delivery w k m = None →
  sendMessage k m w = (Normal tt, with_trace (λ t, t ++ [Sent k m]) w).
Proof. intros Hd. unfold sendMessage, bind, effect. simpl. by rewrite Hd. Qed.

Lemma wire_keeps_delivery c n k resume : keeps delivery (wire c n k resume).
Proof. unfold wire. keeps_frame. Qed.

Lemma wire_files c n k resume w cx k' :
  bound n w = Some (c, cx) → chatId cx ≠ Some k' →
  file k' (storage (wire c n k resume w).2) = file k' (storage w).
Proof.
  intros Hb Hk. destruct resume; [|done].
  rewrite (wire_resume _ _ _ _ _ Hb). cbn [snd add_listener modify_notifier storage with_notifiers].
  assert (K : keeps storage (detached (sendMessage k (Text "Continue polling after reboot"))))
    by keeps_frame.
  rewrite K.
  by rewrite (startPollingNotifications_files n (with_trace _ w) c cx k' Hb).
Qed.

(** Restoring a readable session of a chat the process does not know yet,
    whose 'Bot booted' message is accepted: the chat gets its notifier, and
    no other chat's file changes. *)
Lemma restore_readable k w s :
  file k (storage w) = Some (Readable s) → registry w !! k = None → truthy k = true →
  delivery w k (Text "Bot booted") = None →
  (restore k w).1 = Normal tt ∧
  registry (restore k w).2 = <[k := length (notifiers w)]> (registry w) ∧
  delivery (restore k w).2 = delivery w ∧
  ∀ k', k' ≠ k → file k' (storage (restore k w).2) = file k' (storage w).
Proof.
  intros Hf Hr Ht Hd. destruct (restore_new k w s Hf Hr Ht) as [E Hb].
  rewrite E. clear E.
  set (c0 := length (contexts w)) in *. set (n0 := length (notifiers w)) in *.
  set (w2 := with_registry _ _) in *.
  set (w3 := (updateSession n0 c0 (wire c0 n0 k (pollingOnBoot (options s)) w2).2).2).
  assert (Hd3 : delivery w3 = delivery w).
  { unfold w3. simpl. by rewrite wire_keeps_delivery. }
  rewrite sendMessage_delivered; [|by rewrite Hd3].
  split; [done|]. simpl. split; [|split; [done|]].
  - by rewrite wire_keeps_registry.
  - intros k' Hne. rewrite (wire_files _ _ _ _ _ _ k' Hb); [done|].
    simpl. by intros [= ->].
Qed.

Lemma restore_unreadable k w t :
  file k (storage w) = Some (Unreadable t) → restore k w = (Throw t, w).
Proof. intros Hf. unfold restore, bind, storage_read. by rewrite Hf. Qed.

Lemma for_each_app {A} (f : A → Js unit) (l1 l2 : list A) w w1 :
  for_each f l1 w = (Normal tt, w1) → for_each f (l1 ++ l2) w = for_each f l2 w1.
Proof.
  revert w. induction l1 as [|x l1 IH]; intros w; simpl.
  - by intros [= ->].
  - unfold bind. destruct (f x w) as [[[]|t] w']; [|done]. apply IH.
Qed.

(** The sessions listed before the first one that cannot be restored are
    restored. *)
Lemma restore_all ks w :
  NoDup ks →
  (∀ k, k ∈ ks → truthy k = true ∧ registry w !! k = None ∧
                 (∃ s, file k (storage w) = Some (Readable s)) ∧
                 delivery w k (Text "Bot booted") = None) →
  ∃ w1, for_each restore ks w = (Normal tt, w1) ∧
        delivery w1 = delivery w ∧
        (∀ k, k ∈ ks → is_Some (registry w1 !! k)) ∧
        (∀ k, k ∉ ks → registry w1 !! k = registry w !! k ∧
                       file k (storage w1) = file k (storage w)).
Proof.
  intros Hnd. revert w. induction Hnd as [|k ks Hk Hnd IH]; intros w Hall.
  - exists w. split; [done|]. split; [done|]. split; [by intros k ?%elem_of_nil|done].
  - destruct (Hall k) as (Ht & Hr & [s Hf] & Hd); [by left|].
    destruct (restore_readable k w s Hf Hr Ht Hd) as (R1 & R2 & R4 & R3).
    destruct (IH (restore k w).2) as (w1 & E1 & D1 & I1 & I2).
    { intros k' Hk'. assert (k' ≠ k) by (by intros ->).
      destruct (Hall k') as (Ht' & Hr' & [s' Hf'] & Hd'); [by right|].
      split; [done|]. split; [|split].
      - by rewrite R2, lookup_insert_ne.
      - exists s'. by rewrite R3.
      - by rewrite R4. }
    exists w1. split; [|split; [|split]].
    + simpl. by rewrite (bind_normal _ _ _ _ _ (normal_eta _ _ _ R1)).
    + by rewrite D1.
    + intros k' [->|Hk']%elem_of_cons; [|by apply I1].
      destruct (I2 k Hk) as [-> _]. by rewrite R2, lookup_insert_eq.
    + intros k' Hk'%not_elem_of_cons. destruct Hk' as [Hne Hk'].
      destruct (I2 k' Hk') as [-> ->]. by rewrite R2, R3, lookup_insert_ne.
Qed.

(** C3, as the code has it. With no session file [boot] does nothing. The
    loop has no handler of its own: when it gets to session [k] (the
    sessions listed before [k] are readable and have been told 'Bot
    booted') and the file of [k] cannot be read, the error leaves [boot];
    the sessions listed before [k] have been restored by then, [k] and the
    sessions listed after it are not. *)
Theorem boot_stops_at_unreadable (w : World) (ks1 ks2 : list number) (k : number)
    (t : Thrown) :
  (storage w).*1 = ks1 ++ k :: ks2 →
  NoDup (ks1 ++ k :: ks2) →
  file k (storage w) = Some (Unreadable t) →
  (∀ k', k' ∈ ks1 → truthy k' = true ∧ (∃ s, file k' (storage w) = Some (Readable s)) ∧
                    delivery w k' (Text "Bot booted") = None) →
  registry w = ∅ →
  (∀ v, storage v = [] → boot v = (Normal tt, v)) ∧
  ∃ w1, for_each restore ks1 w = (Normal tt, w1) ∧
        boot w = (Throw t, w1) ∧
        (∀ k', k' ∈ ks1 → is_Some (registry w1 !! k')) ∧
        (∀ k', k' ∈ k :: ks2 → registry w1 !! k' = None).
Proof.
  intros Hkeys Hnd Hf Hall Hreg.
  split; [intros v Hv; unfold boot, bind, getKeys; by rewrite Hv|].
  apply NoDup_app in Hnd as (Hnd1 & Hdisj & Hnd2).
  destruct (restore_all ks1 w Hnd1) as (w1 & E1 & _ & I1 & I2).
  { intros k' Hk'. destruct (Hall k' Hk') as (Ht & Hs & Hd).
    split; [done|]. split; [by rewrite Hreg|done]. }
  exists w1. split; [done|]. split; [|split; [done|]].
  - unfold boot, bind at 1, getKeys. cbv beta iota. rewrite Hkeys.
    rewrite (for_each_app _ _ _ _ _ E1). simpl.
    destruct (I2 k) as [_ Hfk]; [intros Hin; by apply (Hdisj k Hin); left|].
    rewrite <- Hfk in Hf. by rewrite (bind_throw _ _ _ _ _ (restore_unreadable _ _ _ Hf)).
  - intros k' Hk'. destruct (I2 k') as [-> _]; [intros Hin; by apply (Hdisj k' Hin)|].
    by rewrite Hreg.
Qed.

Lemma boot_stops_at_unreadable_witness :
  ∃ w1, boot (fresh files_with_bad_one) = (Throw bad_json, w1) ∧
        is_Some (registry w1 !! Num 7) ∧ registry w1 !! Num 9 = None.
Proof.
  destruct (boot_stops_at_unreadable (fresh files_with_bad_one) [Num 7] [Num 9] (Num 8)
              bad_json) as (_ & w1 & _ & E & H1 & H2).
  - reflexivity.
  - apply (bool_decide_unpack _). vm_compute. exact I.
  - reflexivity.
  - intros k' ->%list_elem_of_singleton. split; [reflexivity|].
    split; [exists stored_session|]; reflexivity.
  - reflexivity.
  - exists w1. split; [exact E|]. split.
    + apply H1. apply (bool_decide_unpack _). vm_compute. exact I.
    + apply H2. apply (bool_decide_unpack _). vm_compute. exact I.
Defined.

(** C3 as written fails: the second of three files is unreadable, [boot]
    ends with the error, and the third session, whose file is fine, has no
    notifier. *)
Lemma unreadable_session_aborts_boot :
  (boot (fresh files_with_bad_one)).1 = Throw bad_json ∧
  file (Num 9) (storage (boot (fresh files_with_bad_one)).2) = Some (Readable stored_session) ∧
  registry (boot (fresh files_with_bad_one)).2 !! Num 9 = None.
Proof. vm_compute. repeat split; reflexivity. Qed.

(** ** A start, step by step *)

Lemma this_session_set_keeps_notifiers n f : keeps notifiers (this_session_set n f).
Proof. keeps_frame. Qed.

Lemma poll_keeps_notifiers n : keeps notifiers (poll n).
Proof. keeps_frame. Qed.

Lemma for_each_ret {A} (f : A → Js unit) (l : list A) w :
  (∀ x, f x = ret tt) → for_each f l w = (Normal tt, w).
Proof.
  intros Hf. induction l as [|x l IH]; simpl; [done|].
  by rewrite Hf.
Qed.

Lemma run_listener_poll_true n l : run_listener n l (on_poll true) = ret tt.
Proof. by destruct l. Qed.

(** [startPollingNotifications] past its guard, step by step. *)
Lemma startPollingNotifications_steps n force w c cx :
  bound n w = Some (c, cx) →
  polling (options (session cx)) && negb force = false →
  let w1 := (new_AbortController n w).2 in
  let w2 := (this_session_set n (set_polling true) w1).2 in
  let w3 := (this_session_set n (set_pollingOnBoot true) w2).2 in
  startPollingNotifications n force w =
    add_listener n ev_poll true clear_polling (emit n (on_poll true) (poll n w3).2).2
  ∧ bound n w2 = Some (c, with_session (set_polling true) cx)
  ∧ bound n w3 = Some (c, with_session (λ s, set_pollingOnBoot true (set_polling true s)) cx).
Proof.
  intros Hb Hcond w1 w2 w3.
  assert (Hb1 : bound n w1 = Some (c, cx)) by by rewrite <- Hb, <- (bound_new_AbortController n n w).
  destruct (this_session_set_bound' n (set_polling true) w1 c cx Hb1) as (H1 & H2 & _).
  fold w2 in H2.
  destruct (this_session_set_bound' n (set_pollingOnBoot true) w2 c _ H2) as (H3 & H4 & _).
  fold w3 in H4.
  assert (Hb4 : bound n (poll n w3).2 = bound n w3).
  { apply bound_eq; [apply poll_keeps_accessor|apply poll_keeps_contexts]. }
  assert (Hs4 : is_Some (bound n (poll n w3).2)) by by rewrite Hb4, H4.
  split; [|by split].
  unfold startPollingNotifications.
  rewrite (bind_normal _ _ _ _ _ (this_session_bound _ _ _ _ Hb)), Hcond.
  rewrite (bind_normal (new_AbortController n) _ w tt w1 eq_refl).
  rewrite (bind_normal _ _ _ _ _ (normal_eta _ _ _ H1)). fold w2.
  rewrite (bind_normal _ _ _ _ _ (normal_eta _ _ _ H3)). fold w3.
  rewrite (bind_normal _ _ _ _ _ (normal_eta _ _ _ (poll_normal n w3))).
  by rewrite (bind_normal _ _ _ _ _ (normal_eta _ _ _ (emit_poll_true_normal n _ Hs4))).
Qed.

Lemma emit_poll_true_found n w nt :
  notifiers w !! n = Some nt →
  emit n (on_poll true) w =
    (Normal tt,
     (modify_notifier n
        (λ nt, {| controller := controller nt; getSession := getSession nt;
                  emitter := filter (λ r, ¬ (event r = ev_poll ∧ once r = true)) (emitter nt) |})
        (with_trace (λ t, t ++ [Emitted n (on_poll true)]) w)).2).
Proof.
  intros Hn. rewrite emit_dispatch.
  rewrite (dispatch_found _ _ _ _ nt); [|done..].
  apply for_each_ret. intros r. apply run_listener_poll_true.
Qed.

(** ** What a notifier leaves alone *)

Lemma keeps_length_contexts_modify_session c f :
  keeps (λ w, length (contexts w)) (modify_session c f).
Proof. intros w. apply length_alter. Qed.

Ltac keeps_length_contexts :=
  unfold_ops; keeps_split;
  try first
    [ intros ?; reflexivity
    | apply keeps_length_contexts_modify_session ].

Lemma wire_keeps_length_contexts c n k resume :
  keeps (λ w, length (contexts w)) (wire c n k resume).
Proof. unfold wire. keeps_length_contexts. Qed.

Lemma chat_of_with_session n w c f :
  chat_of n (with_contexts (alter (with_session f) c) w) = chat_of n w.
Proof.
  unfold chat_of, bound. simpl. destruct (notifiers w !! n) as [nt|]; simpl; [|done].
  destruct (decide (c = getSession nt)) as [->|Hne].
  - rewrite list_lookup_alter_eq. by destruct (contexts w !! getSession nt).
  - by rewrite list_lookup_alter_ne.
Qed.

Lemma keeps_apart_context_this_session_set n c' f :
  keeps (apart_context n c') (this_session_set n f).
Proof.
  intros w. unfold apart_context.
  assert (Ha : accessor n (this_session_set n f w).2 = accessor n w).
  { assert (K : keeps (accessor n) (this_session_set n f)) by keeps_accessor. apply K. }
  rewrite Ha. case_decide as Hd; [done|]. f_equal.
  unfold this_session_set, bind, get_notifier.
  unfold accessor in Hd. destruct (notifiers w !! n) as [nt|] eqn:Hn; [|done].
  simpl in Hd.
  assert (K : keeps (λ v, contexts v !! c') (trigger (getSession nt))) by keeps_frame.
  unfold proxy_set, bind at 1, modify_session. cbv beta iota. rewrite K. simpl.
  apply list_lookup_alter_ne. congruence.
Qed.

Lemma keeps_apart_context_modify_notifier n c' m f :
  (∀ nt, getSession (f nt) = getSession nt) →
  keeps (apart_context n c') (modify_notifier m f).
Proof.
  intros Hf w. unfold apart_context.
  by rewrite (keeps_accessor_modify_notifier n m f Hf w).
Qed.

Lemma keeps_apart_context_new_AbortController n c' m :
  keeps (apart_context n c') (new_AbortController m).
Proof.
  intros w. unfold apart_context.
  by rewrite (keeps_accessor_new_AbortController n m w).
Qed.

Lemma keeps_chat_of_modify_session m c f : keeps (chat_of m) (modify_session c f).
Proof. intros w. apply chat_of_with_session. Qed.

Lemma keeps_chat_of_this_session_set m n f : keeps (chat_of m) (this_session_set n f).
Proof.
  unfold this_session_set, proxy_set, trigger. keeps_split;
    try first [intros ?; reflexivity | apply keeps_chat_of_modify_session].
Qed.

Lemma this_session_set_unbound n f w :
  bound n w = None → storage (this_session_set n f w).2 = storage w.
Proof.
  intros Hb. unfold this_session_set, bind at 1, get_notifier. unfold bound in Hb.
  destruct (notifiers w !! n) as [nt|] eqn:Hn; [|done]. simpl in Hb.
  destruct (contexts w !! getSession nt) as [cx|] eqn:Hc; [done|].
  unfold proxy_set, trigger, modify_session, get_context, bind.
  cbn [contexts with_contexts]. by rewrite list_lookup_alter_eq, Hc.
Qed.

Lemma keeps_apart_file_this_session_set n k' f :
  keeps (apart_file n k') (this_session_set n f).
Proof.
  intros w. unfold apart_file. rewrite keeps_chat_of_this_session_set.
  case_decide as Hd; [done|]. f_equal.
  destruct (bound n w) as [[c cx]|] eqn:Hb.
  - apply (this_session_set_files n f w c cx k' Hb).
    unfold chat_of in Hd. by rewrite Hb in Hd.
  - by rewrite this_session_set_unbound.
Qed.

Lemma chat_of_eq n w w' :
  accessor n w' = accessor n w → contexts w' = contexts w → chat_of n w' = chat_of n w.
Proof. intros Ha Hc. unfold chat_of. by rewrite (bound_eq _ _ _ Ha Hc). Qed.

Lemma keeps_apart_file_modify_notifier n k' m f :
  (∀ nt, getSession (f nt) = getSession nt) →
  keeps (apart_file n k') (modify_notifier m f).
Proof.
  intros Hf w. unfold apart_file.
  rewrite (chat_of_eq n w (modify_notifier m f w).2); [done| |done].
  by apply keeps_accessor_modify_notifier.
Qed.

Lemma keeps_apart_file_new_AbortController n k' m :
  keeps (apart_file n k') (new_AbortController m).
Proof.
  intros w. unfold apart_file.
  rewrite (chat_of_eq n w (new_AbortController m w).2); [done| |done].
  by apply keeps_accessor_new_AbortController.
Qed.

(** The operations of a notifier, with its assignments through
    [this.session] taken as steps. *)
Ltac unfold_notifier :=
  unfold startPollingNotifications, poll_resume, poll, poll_enter, getNotificationCount,
    emit, run_listener, stopPollingNotifications, emit_plain, emit_with, dispatch, run_plain,
    handleNotificationCount, reply, sendMessage, this_session, add_listener, updateSession,
    suspend.

Ltac keeps_apart :=
  repeat first
    [ progress cbv beta iota zeta
    | apply keeps_apart_context_this_session_set
    | apply keeps_apart_file_this_session_set
    | progress unfold_notifier
    | apply keeps_ret
    | apply keeps_throw
    | apply keeps_get_context
    | apply keeps_get_notifier
    | apply keeps_read
    | apply keeps_bind; [|intros ?]
    | apply keeps_try_catch; [|intros ?]
    | apply keeps_detached; [|intros ?]
    | apply keeps_for_each; intros ?
    | match goal with
      | |- keeps _ (if ?b then _ else _) => destruct b
      | |- keeps _ (match ?x with _ => _ end) => destruct x
      end ];
  try first
    [ intros ?; reflexivity
    | apply keeps_apart_context_modify_notifier; intros ?; reflexivity
    | apply keeps_apart_context_new_AbortController
    | apply keeps_apart_file_modify_notifier; intros ?; reflexivity
    | apply keeps_apart_file_new_AbortController ].

Lemma poll_resume_keeps_apart_context n c' r : keeps (apart_context n c') (poll_resume n r).
Proof. keeps_apart. Qed.

Lemma poll_resume_keeps_apart_file n k' r : keeps (apart_file n k') (poll_resume n r).
Proof. keeps_apart. Qed.

Lemma stop_keeps_apart_context n c' commit :
  keeps (apart_context n c') (stopPollingNotifications n commit).
Proof. keeps_apart. Qed.

Lemma stop_keeps_apart_file n k' commit :
  keeps (apart_file n k') (stopPollingNotifications n commit).
Proof. keeps_apart. Qed.

Lemma start_keeps_apart_context n c' force :
  keeps (apart_context n c') (startPollingNotifications n force).
Proof. keeps_apart. Qed.

Lemma start_keeps_apart_file n k' force :
  keeps (apart_file n k') (startPollingNotifications n force).
Proof. keeps_apart. Qed.

Lemma apart_context_eq n c' w w' :
  accessor n w ≠ Some c' → apart_context n c' w' = apart_context n c' w →
  contexts w' !! c' = contexts w !! c'.
Proof.
  unfold apart_context. intros Hne. rewrite (decide_False _ _ Hne).
  case_decide; [done|]. by intros [= ->].
Qed.

Lemma apart_file_eq n k' w w' :
  chat_of n w ≠ Some k' → apart_file n k' w' = apart_file n k' w →
  file k' (storage w') = file k' (storage w).
Proof.
  unfold apart_file. intros Hne. rewrite (decide_False _ _ Hne).
  case_decide; [done|]. by intros [= ->].
Qed.

(** ** The restart after a stop *)

(** *** What the boot loop's turn for one chat leaves alone *)

Lemma polls_of_app n w x :
  polls_of n (with_awaiting (λ l, l ++ [x]) w) =
  polls_of n w ++ (if decide (x.1 = n) then [x] else []).
Proof.
  unfold polls_of. simpl. rewrite filter_app.
  destruct (decide (x.1 = n)).
  - by rewrite (filter_cons_True _ x []).
  - by rewrite (filter_cons_False _ x []).
Qed.

Lemma keeps_polls_of_suspend m n p : m ≠ n → keeps (polls_of m) (suspend n p).
Proof.
  intros Hne w. unfold suspend. simpl. rewrite polls_of_app. simpl.
  rewrite decide_False; [apply app_nil_r|done].
Qed.

Lemma sent_app k w eff :
  sent k (with_trace (λ t, t ++ [eff]) w) =
  sent k w ++ match eff with
              | Sent k' m => if decide (k' = k) then [m] else []
              | _ => []
              end.
Proof.
  unfold sent. simpl. rewrite omap_app. f_equal.
  destruct eff; simpl; try done. by case_decide.
Qed.

Lemma keeps_sent_effect k eff :
  (∀ m, eff ≠ Sent k m) → keeps (sent k) (effect eff).
Proof.
  intros H w. unfold effect. simpl. rewrite sent_app.
  destruct eff; rewrite ?app_nil_r; try done.
  case_decide as Hd; rewrite ?app_nil_r; [|done]. subst. by destruct (H m).
Qed.

Lemma keeps_lookup_modify_notifier m n f :
  m ≠ n → keeps (λ w, notifiers w !! m) (modify_notifier n f).
Proof. intros Hne w. simpl. by apply list_lookup_alter_ne. Qed.

Lemma keeps_lookup_new_AbortController m n :
  m ≠ n → keeps (λ w, notifiers w !! m) (new_AbortController n).
Proof. intros Hne w. simpl. by apply list_lookup_alter_ne. Qed.

(** The operations of a notifier, with the suspension of a poll taken as a
    step. *)
Ltac unfold_upto_suspend :=
  unfold startPollingNotifications, poll_resume, poll, poll_enter, getNotificationCount,
    emit, run_listener, stopPollingNotifications, emit_plain, emit_with, dispatch, run_plain,
    handleNotificationCount, reply, sendMessage, this_session_set, this_session,
    proxy_set, trigger, add_listener, updateSession.

Ltac keeps_other :=
  repeat first
    [ progress cbv beta iota zeta
    | apply keeps_polls_of_suspend; done
    | progress unfold_upto_suspend
    | apply keeps_ret
    | apply keeps_throw
    | apply keeps_get_context
    | apply keeps_get_notifier
    | apply keeps_read
    | apply keeps_bind; [|intros ?]
    | apply keeps_try_catch; [|intros ?]
    | apply keeps_detached; [|intros ?]
    | apply keeps_for_each; intros ?
    | match goal with
      | |- keeps _ (if ?b then _ else _) => destruct b
      | |- keeps _ (match ?x with _ => _ end) => destruct x
      end ];
  try first
    [ intros ?; reflexivity
    | apply keeps_lookup_modify_notifier; done
    | apply keeps_lookup_new_AbortController; done
    | apply keeps_sent_effect; intros ? [=]; congruence ].

Lemma wire_keeps_lookup c n k resume m :
  m ≠ n → keeps (λ w, notifiers w !! m) (wire c n k resume).
Proof. intros Hne. unfold wire. keeps_other. Qed.

Lemma wire_keeps_polls_of c n k resume m :
  m ≠ n → keeps (polls_of m) (wire c n k resume).
Proof. intros Hne. unfold wire. keeps_other. Qed.

Lemma wire_keeps_sent c n k resume k0 :
  k0 ≠ k → keeps (sent k0) (wire c n k resume).
Proof. intros Hne. unfold wire. keeps_other. Qed.

Lemma wire_keeps_timers c n k resume : keeps timers (wire c n k resume).
Proof. unfold wire. keeps_frame. Qed.

Lemma wire_keeps_apart_context c n k resume c' :
  keeps (apart_context n c') (wire c n k resume).
Proof. unfold wire. keeps_apart. Qed.

Lemma sendMessage_world k m w :
  (sendMessage k m w).2 = with_trace (λ t, t ++ [Sent k m]) w.
Proof. unfold sendMessage, bind, effect. simpl. by destruct (delivery w k m). Qed.

Lemma sendMessage_completion k m w :
  (sendMessage k m w).1 =
  match delivery w k m with None => Normal tt | Some t => Throw t end.
Proof. unfold sendMessage, bind, effect. simpl. by destruct (delivery w k m). Qed.

Lemma sent_sendMessage k m w : sent k (sendMessage k m w).2 = sent k w ++ [m].
Proof. rewrite sendMessage_world, sent_app. by rewrite decide_True. Qed.

Lemma sent_detached_sendMessage k m w :
  sent k (detached (sendMessage k m) w).2 = sent k w ++ [m].
Proof.
  unfold detached, try_catch.
  pose proof (sendMessage_world k m w) as Hw. pose proof (sent_sendMessage k m w) as Hs.
  destruct (sendMessage k m w) as [[[]|t] w']; simpl in *; [done|].
  rewrite sent_app, app_nil_r. done.
Qed.

Lemma start_keeps_sent n force k : keeps (sent k) (startPollingNotifications n force).
Proof. keeps_other. Qed.

Lemma detached_sendMessage_keeps_awaiting k m :
  keeps awaiting (detached (sendMessage k m)).
Proof. keeps_frame. Qed.

(** The boot loop's turn for a readable session of a chat that the process
    does not know yet: the chat gets a notifier that reads the new context;
    polling is resumed exactly when the session says so, and the chat is
    then told twice, else once. Whether the turn completes is up to the
    answer to 'Bot booted'. *)
Lemma restore_turn k v s :
  file k (storage v) = Some (Readable s) → registry v !! k = None → truthy k = true →
  let n0 := length (notifiers v) in
  let v' := (restore k v).2 in
  (restore k v).1 = match delivery v k (Text "Bot booted") with
                    | None => Normal tt
                    | Some t => Throw t
                    end ∧
  registry v' !! k = Some n0 ∧
  length (notifiers v') = S n0 ∧
  (∃ c0, accessor n0 v' = Some c0 ∧ c0 < length (contexts v')) ∧
  if pollingOnBoot (options s)
  then session_of n0 v' = Some (set_pollingOnBoot true (set_polling true s)) ∧
       (∃ p, awaiting v' = awaiting v ++ [(n0, p)]) ∧
       sent k v' = sent k v ++ [Text "Continue polling after reboot"; Text "Bot booted"]
  else session_of n0 v' = Some s ∧ awaiting v' = awaiting v ∧
       sent k v' = sent k v ++ [Text "Bot booted"].
Proof.
  intros Hf Hr Ht n0 v'. destruct (restore_new k v s Hf Hr Ht) as [E Hb].
  unfold v'. rewrite E. clear E. fold n0 in Hb |- *.
  set (c0 := length (contexts v)) in *.
  set (cx0 := {| chatId := Some k; session := s; notifier := None |}) in *.
  set (w2 := with_registry _ _) in *.
  set (w3 := (wire c0 n0 k (pollingOnBoot (options s)) w2).2).
  set (w4 := (updateSession n0 c0 w3).2).
  assert (Hd : delivery w4 = delivery v).
  { unfold w4, w3. simpl. by rewrite wire_keeps_delivery. }
  assert (Hlen : length (notifiers w4) = S n0).
  { unfold w4, updateSession. simpl. rewrite length_alter.
    unfold w3. rewrite (wire_keeps_length c0 n0 k _ w2).
    unfold w2. simpl. rewrite length_app. simpl. unfold n0. lia. }
  assert (Hacc3 : accessor n0 w3 = Some c0).
  { unfold w3. rewrite wire_keeps_accessor.
    destruct (bound_notifier _ _ _ _ Hb) as (nt & Hn & Hg & _).
    unfold accessor. by rewrite Hn, <- Hg. }
  assert (Hacc : accessor n0 w4 = Some c0).
  { unfold accessor in *. unfold w4, updateSession. simpl.
    rewrite list_lookup_alter_eq. by destruct (notifiers w3 !! n0). }
  assert (Hlc : c0 < length (contexts w4)).
  { unfold w4, w3. simpl. rewrite (wire_keeps_length_contexts c0 n0 k _ w2).
    unfold w2. simpl. rewrite length_app. simpl. unfold c0. lia. }
  rewrite sendMessage_completion, sendMessage_world, Hd.
  split; [done|]. split; [|split; [done|split; [by exists c0|]]].
  { unfold w4, w3. simpl. rewrite wire_keeps_registry. unfold w2. simpl.
    apply lookup_insert_eq. }
  rewrite sent_app, decide_True; [|done].
  change (awaiting (with_trace _ w4)) with (awaiting w3).
  change (sent k w4) with (sent k w3).
  unfold session_of. rewrite bound_with_trace. unfold w4.
  destruct (pollingOnBoot (options s)) eqn:Hp.
  - unfold w3. rewrite (wire_resume c0 n0 k w2 cx0 Hb).
    set (w2' := with_trace _ w2).
    destruct (startPollingNotifications_forced n0 w2' c0 cx0 Hb) as (_ & [p Hp'] & Hb3).
    split; [|split].
    + rewrite (bound_updateSession n0 c0 _
                 (with_session (λ s, set_pollingOnBoot true (set_polling true s)) cx0));
        [done|].
      cbn [snd]. unfold add_listener. rewrite !bound_modify_notifier; [|done..].
      rewrite (bound_eq n0 (startPollingNotifications n0 true w2').2); [done| |].
      * assert (K : keeps (accessor n0)
                      (detached (sendMessage k (Text "Continue polling after reboot"))))
          by keeps_accessor.
        apply K.
      * assert (K : keeps contexts
                      (detached (sendMessage k (Text "Continue polling after reboot"))))
          by keeps_frame.
        apply K.
    + exists p. cbn [snd add_listener modify_notifier awaiting with_notifiers].
      by rewrite detached_sendMessage_keeps_awaiting, Hp'.
    + cbn [snd add_listener modify_notifier].
      change (sent k (with_notifiers ?f ?x)) with (sent k x).
      change (sent k (with_notifiers ?f ?x)) with (sent k x).
      rewrite sent_detached_sendMessage, start_keeps_sent.
      unfold w2'. rewrite sent_app, app_nil_r. by rewrite <- app_assoc.
  - split; [|done].
    rewrite (bound_updateSession n0 c0 _ cx0); [done|].
    by rewrite (bound_eq n0 w2 w3); [|apply wire_keeps_accessor|].
Qed.

Lemma restore_frame k' v :
  registry v !! k' = None →
  let v' := (restore k' v).2 in
  (∀ m, m < length (notifiers v) → notifiers v' !! m = notifiers v !! m) ∧
  (∀ c, c < length (contexts v) → contexts v' !! c = contexts v !! c) ∧
  (∀ m, m ≠ length (notifiers v) → polls_of m v' = polls_of m v) ∧
  timers v' = timers v ∧
  length (notifiers v) ≤ length (notifiers v') ∧
  length (contexts v) ≤ length (contexts v') ∧
  (awaiting v' = awaiting v ∨ length (notifiers v') = S (length (notifiers v))) ∧
  (∀ k, k ≠ k' → registry v' !! k = registry v !! k ∧
                 file k (storage v') = file k (storage v) ∧
                 sent k v' = sent k v).
Proof.
  intros Hr v'. unfold v'. clear v'.
  destruct (file k' (storage v)) as [[s|t]|] eqn:Hf.
  - destruct (truthy k') eqn:Ht.
    + destruct (restore_new k' v s Hf Hr Ht) as [E Hb]. rewrite E. clear E.
      set (n0 := length (notifiers v)) in *. set (c0 := length (contexts v)) in *.
      set (cx0 := {| chatId := Some k'; session := s; notifier := None |}) in *.
      set (w2 := with_registry _ _) in *.
      set (r := pollingOnBoot (options s)).
      rewrite sendMessage_world.
      assert (Hacc2 : accessor n0 w2 = Some c0).
      { destruct (bound_notifier _ _ _ _ Hb) as (nt & Hn & Hg & _).
        unfold accessor. by rewrite Hn, <- Hg. }
      split; [|split; [|split; [|split; [|split; [|split; [|split]]]]]].
      * intros m Hm. simpl. rewrite list_lookup_alter_ne; [|lia].
        rewrite (wire_keeps_lookup c0 n0 k' r m); [|lia].
        unfold w2. simpl. by rewrite lookup_app_l.
      * intros c Hc. simpl.
        rewrite (apart_context_eq n0 c w2 (wire c0 n0 k' r w2).2).
        -- unfold w2. simpl. by rewrite lookup_app_l.
        -- rewrite Hacc2. intros [= ->]. lia.
        -- apply wire_keeps_apart_context.
      * intros m Hm.
        change (polls_of m (with_trace ?f (updateSession ?a ?b ?x).2)) with (polls_of m x).
        by rewrite wire_keeps_polls_of.
      * simpl. by rewrite wire_keeps_timers.
      * simpl. rewrite length_alter, (wire_keeps_length c0 n0 k' r w2).
        unfold w2. simpl. rewrite length_app. simpl. lia.
      * simpl. rewrite (wire_keeps_length_contexts c0 n0 k' r w2).
        unfold w2. simpl. rewrite length_app. simpl. lia.
      * right. simpl. rewrite length_alter, (wire_keeps_length c0 n0 k' r w2).
        unfold w2. simpl. rewrite length_app. simpl. lia.
      * intros k Hne. split; [|split].
        -- simpl. rewrite wire_keeps_registry. unfold w2. simpl.
           by rewrite lookup_insert_ne.
        -- simpl. rewrite (wire_files _ _ _ _ _ _ k Hb); [done|].
           simpl. by intros [= ->].
        -- rewrite sent_app, decide_False, app_nil_r; [|done].
           change (sent k (updateSession ?a ?b ?x).2) with (sent k x).
           by rewrite wire_keeps_sent.
    + assert (E : restore k' v =
                  (Throw (ThrownError (InvalidError "chat id")),
                   (new_NotifierContext (Some k') s v).2)).
      { unfold restore.
        assert (E0 : storage_read k' v = (Normal s, v))
          by (unfold storage_read; by rewrite Hf).
        rewrite (bind_normal _ _ _ _ _ E0).
        rewrite (bind_normal (new_NotifierContext (Some k') s) _ v (length (contexts v))
                   (new_NotifierContext (Some k') s v).2 eq_refl).
        apply bind_throw.
        unfold NotifierFactory.create, bind, get_context. simpl.
        rewrite list_lookup_middle; [|done]. simpl. by rewrite Ht. }
      rewrite E. simpl. repeat split; try done; try lia; try by left.
      * intros c Hc. by rewrite lookup_app_l.
      * rewrite length_app. lia.
  - rewrite (restore_unreadable _ _ _ Hf). simpl. repeat split; try done; try lia; by left.
  - assert (E : restore k' v = (Throw (TypeError "session is undefined"), v)).
    { unfold restore, bind, storage_read. by rewrite Hf. }
    rewrite E. simpl. repeat split; try done; try lia; by left.
Qed.





(** *** A boot without an unhandled rejection *)

Lemma unhandled_app w eff :
  unhandled (with_trace (λ t, t ++ [eff]) w) =
  unhandled w ++ match eff with Unhandled t => [t] | _ => [] end.
Proof. unfold unhandled. simpl. rewrite omap_app. f_equal. by destruct eff. Qed.

Lemma keeps_unhandled_effect eff :
  (∀ t, eff ≠ Unhandled t) → keeps unhandled (effect eff).
Proof.
  intros H w. unfold effect. simpl. rewrite unhandled_app.
  destruct eff; rewrite ?app_nil_r; try done. by destruct (H t).
Qed.

Ltac keeps_unhandled :=
  unfold_ops; keeps_split;
  try first
    [ intros ?; reflexivity
    | apply keeps_unhandled_effect; intros ?; discriminate ].

Lemma getNotificationCount_keeps_unhandled n : keeps unhandled (getNotificationCount n).
Proof. keeps_unhandled. Qed.

Lemma this_session_set_keeps_unhandled n f : keeps unhandled (this_session_set n f).
Proof. keeps_unhandled. Qed.

(** A forced start on a notifier that nothing listens to yet: the poll it
    enters is suspended, and no listener runs. *)
Lemma start_forced_unhandled n w c cx :
  bound n w = Some (c, cx) →
  unhandled (startPollingNotifications n true w).2 = unhandled w.
Proof.
  intros Hb.
  destruct (startPollingNotifications_steps n true w c cx Hb) as (E & Hb2 & Hb3);
    [apply andb_false_r|].
  rewrite E. clear E.
  set (w1 := (new_AbortController n w).2) in *.
  set (w2 := (this_session_set n (set_polling true) w1).2) in *.
  set (w3 := (this_session_set n (set_pollingOnBoot true) w2).2) in *.
  destruct (poll_enter_polling n w3 c _ Hb3 eq_refl) as [p He].
  assert (Ep : poll n w3 = (Normal tt, with_awaiting (λ l, l ++ [(n, p)])
                                         (getNotificationCount n w3).2)).
  { unfold poll, detached, try_catch. by rewrite (bind_normal _ _ _ _ _ He). }
  rewrite Ep. cbn [snd].
  destruct (bound_notifier _ _ _ _ Hb3) as (nt & Hn & _).
  assert (Hn4 : notifiers (with_awaiting (λ l, l ++ [(n, p)]) (getNotificationCount n w3).2) !! n
                = Some nt).
  { simpl. assert (K : keeps notifiers (getNotificationCount n)) by keeps_frame.
    by rewrite K. }
  rewrite (emit_poll_true_found _ _ _ Hn4). cbn [snd].
  change (unhandled (add_listener ?a ?b ?c ?d (modify_notifier ?e ?f ?x).2).2)
    with (unhandled x).
  rewrite unhandled_app, app_nil_r.
  change (unhandled (with_awaiting ?f ?x)) with (unhandled x).
  rewrite getNotificationCount_keeps_unhandled.
  unfold w3, w2. by rewrite !this_session_set_keeps_unhandled.
Qed.

Lemma wire_unhandled c n k resume w cx :
  bound n w = Some (c, cx) →
  (resume = true → delivery w k (Text "Continue polling after reboot") = None) →
  unhandled (wire c n k resume w).2 = unhandled w.
Proof.
  intros Hb Hd. destruct resume; [|done].
  rewrite (wire_resume _ _ _ _ _ Hb). cbn [snd].
  change (unhandled (add_listener ?a ?b ?c ?d (add_listener ?e ?f ?g ?h ?x).2).2)
    with (unhandled x).
  set (started := (startPollingNotifications n true _).2).
  assert (Hds : delivery started k (Text "Continue polling after reboot") = None).
  { unfold started.
    assert (K : keeps delivery (startPollingNotifications n true)) by keeps_frame.
    rewrite K. by apply Hd. }
  unfold detached, try_catch. rewrite (sendMessage_delivered _ _ _ Hds). cbn [snd].
  rewrite unhandled_app, app_nil_r. unfold started.
  rewrite (start_forced_unhandled n _ c cx); [|exact Hb].
  by rewrite unhandled_app, app_nil_r.
Qed.

Lemma restore_keeps_delivery k : keeps delivery (restore k).
Proof.
  unfold restore. apply keeps_bind.
  { intros w. unfold storage_read. by destruct (file k (storage w)) as [[]|]. }
  intros s. unfold NotifierFactory.create, new_NotifierContext, new_Notifier, registry_set.
  keeps_frame.
Qed.

(** The boot loop's turn for a session that can be restored and whose chat
    is accepted its messages: the turn completes, and nothing is rejected
    unhandled. *)
Lemma restore_quiet k v s :
  file k (storage v) = Some (Readable s) → registry v !! k = None → truthy k = true →
  (∀ m, delivery v k m = None) →
  (restore k v).1 = Normal tt ∧ unhandled (restore k v).2 = unhandled v.
Proof.
  intros Hf Hr Ht Hd. destruct (restore_new k v s Hf Hr Ht) as [E Hb].
  rewrite E. clear E.
  set (c0 := length (contexts v)) in *. set (n0 := length (notifiers v)) in *.
  set (w2 := with_registry _ _) in *.
  set (w3 := (wire c0 n0 k (pollingOnBoot (options s)) w2).2).
  assert (Hd3 : delivery (updateSession n0 c0 w3).2 = delivery v).
  { unfold w3. simpl. by rewrite wire_keeps_delivery. }
  rewrite sendMessage_delivered; [|by rewrite Hd3]. split; [done|].
  cbn [snd]. rewrite unhandled_app, app_nil_r.
  change (unhandled (updateSession ?a ?b ?x).2) with (unhandled x).
  unfold w3. rewrite (wire_unhandled _ _ _ _ _ _ Hb); [done|].
  intros _. apply Hd.
Qed.

Lemma boot_loop_quiet ks w :
  NoDup ks →
  (∀ k, k ∈ ks → truthy k = true ∧ registry w !! k = None ∧
                 (∃ s, file k (storage w) = Some (Readable s)) ∧
                 ∀ m, delivery w k m = None) →
  (for_each restore ks w).1 = Normal tt ∧
  unhandled (for_each restore ks w).2 = unhandled w.
Proof.
  intros Hnd. revert w. induction Hnd as [|k ks Hk Hnd IH]; intros w Hall; [done|].
  destruct (Hall k) as (Ht & Hr & [s Hf] & Hd); [by left|].
  destruct (restore_quiet k w s Hf Hr Ht Hd) as [Q1 Q2].
  destruct (restore_frame k w Hr) as (_ & _ & _ & _ & _ & _ & _ & F8).
  destruct (IH (restore k w).2) as [I1 I2].
  { intros k' Hk'. assert (k' ≠ k) by (by intros ->).
    destruct (Hall k') as (Ht' & Hr' & [s' Hf'] & Hd'); [by right|].
    destruct (F8 k') as (-> & -> & _); [done|].
    split; [done|]. split; [done|]. split; [by exists s'|].
    intros m. by rewrite restore_keeps_delivery. }
  cbn [for_each]. unfold bind.
  destruct (restore k w) as [[[]|t] w1]; simpl in *; [|done].
  split; [done|]. by rewrite I2.
Qed.




(** ** The write-through handle *)

Import SessionProxy.

Lemma run_app {Env} (trigger : value → Env → Env) l1 l2 st :
  run trigger (l1 ++ l2) st = run trigger l2 (run trigger l1 st).
Proof. unfold run. apply foldl_app. Qed.

Lemma run_calls {Env} (trigger : value → Env → Env) l st :
  calls (run trigger l st) = calls st + writes l (root st).
Proof.
  revert st. induction l as [|a l IH]; intros st; simpl; [lia|].
  change (run trigger (a :: l) st) with (run trigger l (step trigger a st)).
  rewrite IH. destruct a as [path|path p x]; simpl; [done|].
  unfold write. destruct (assign path p x (root st)); simpl; lia.
Qed.

(** The assignments the notifier makes, on the object the program has. *)
Lemma assign_polling s b :
  assign ["options"] "polling" (Prim (boolean b)) (of_state s)
    = Some (of_state (set_polling b s)).
Proof. reflexivity. Qed.

Lemma assign_pollingOnBoot s b :
  assign ["options"] "pollingOnBoot" (Prim (boolean b)) (of_state s)
    = Some (of_state (set_pollingOnBoot b s)).
Proof. reflexivity. Qed.

Lemma assign_count s c :
  assign [] "count" (of_count c) (of_state s) = Some (of_state (set_count c s)).
Proof. reflexivity. Qed.

(** C6. The handle that [sessionProxy] returns, for any object and any
    [trigger]: over every sequence of accesses the trigger has run once per
    write that went through, at whatever depth, and never for a read; a
    write runs it right after the assignment, on the object as the
    assignment left it. With the store's record as what the trigger writes
    the whole object to, record and object are equal after every write.
    For the handle of [NotifierFactory.create]: after an assignment through
    [this.session] the session file of the chat holds the session as it is
    in memory. *)
Theorem sessionProxy_write_through :
  (∀ (Env : Type) (trigger : value → Env → Env) (st : state) (l : list access),
     calls (run trigger l st) = calls st + writes l (root st) ∧
     (∀ path, run trigger (l ++ [Read path]) st = run trigger l st) ∧
     (∀ path p x r,
        assign path p x (root (run trigger l st)) = Some r →
        run trigger (l ++ [Write path p x]) st =
          {| root := r; env := trigger r (env (run trigger l st));
             calls := S (calls (run trigger l st)) |})) ∧
  (∀ (st : state) (l : list access) path p x,
     is_Some (assign path p x (root (run (λ r _, r) l st))) →
     env (run (λ r _, r) (l ++ [Write path p x]) st)
       = root (run (λ r _, r) (l ++ [Write path p x]) st)) ∧
  (∀ n f w c cx k,
     bound n w = Some (c, cx) → chatId cx = Some k → truthy k = true →
     (this_session_set n f w).1 = Normal tt ∧
     session_of n (this_session_set n f w).2 = Some (f (session cx)) ∧
     file k (storage (this_session_set n f w).2) = Some (Readable (f (session cx)))).
Proof.
  split; [|split].
  - intros Env trigger st l. split; [apply run_calls|]. split.
    + intros path. by rewrite run_app.
    + intros path p x r Ha. rewrite run_app. simpl. unfold write. by rewrite Ha.
  - intros st l path p x [r Ha]. rewrite run_app. simpl. unfold write. by rewrite Ha.
  - intros n f w c cx k Hb Hk Ht.
    destruct (this_session_set_synced n f w c cx k Hb Hk Ht) as (H1 & H2 & H3).
    split; [done|]. split; [|done]. unfold session_of. by rewrite H2.
Qed.

Lemma sessionProxy_write_through_witness :
  file (Num 7) (storage (this_session_set 0 (set_polling false) booted).2)
    = Some (Readable (set_polling false (set_pollingOnBoot true (set_polling true stored_session))))
  ∧
  env (run (λ r _, r)
         ([Read ["options"]] ++ [Write ["options"] "interval" (Prim (numeric (Num 5)))])
         {| root := of_state DEFAULT_NOTIFIER_STATE; env := Prim undefined; calls := 0 |})
    = of_state (set_interval (Num 5) DEFAULT_NOTIFIER_STATE).
Proof.
  destruct sessionProxy_write_through as (_ & H2 & H3). split.
  - apply (H3 0 (set_polling false) booted 0
             {| chatId := Some (Num 7);
                session := set_pollingOnBoot true (set_polling true stored_session);
                notifier := None |}
             (Num 7)).
    + vm_compute. reflexivity.
    + reflexivity.
    + reflexivity.
  - rewrite H2; [reflexivity|]. vm_compute. eexists. reflexivity.
Defined.

(** * Further properties of the poller *)

(** ** When a poll fails *)

Lemma replied_app w eff :
  replied (with_trace (λ t, t ++ [eff]) w) =
  replied w ++ match eff with Replied c m => [(c, m)] | _ => [] end.
Proof. unfold replied. simpl. rewrite omap_app. f_equal. by destruct eff. Qed.

Lemma keeps_replied_effect eff :
  (∀ c m, eff ≠ Replied c m) → keeps replied (effect eff).
Proof.
  intros H w. unfold effect. simpl. rewrite replied_app.
  destruct eff; rewrite ?app_nil_r; try done. by destruct (H ctx m).
Qed.

Ltac keeps_replied :=
  unfold_ops; keeps_split;
  try first
    [ intros ?; reflexivity
    | apply keeps_replied_effect; intros ? ?; discriminate ].

Lemma stopPollingNotifications_keeps_replied n commit :
  keeps replied (stopPollingNotifications n commit).
Proof. keeps_replied. Qed.

(** X1. A poll whose awaited request throws [t], on a notifier wired as
    [NotifierFactory.create] wires it (one 'error' relay): the poller is
    stopped without commit, so the session and its file have [polling]
    false and everything else, [pollingOnBoot] included, as before; and the
    relay's context replies once, with [formatError (ensureError t)]. *)
Theorem poll_error_stops_and_reports (n : nat) (w : World) (c : nat) (cx : NotifierContext)
    (k : number) (r : nat) (t : Thrown) :
  bound n w = Some (c, cx) → chatId cx = Some k → truthy k = true →
  listeners n ev_error w = [relay_error r] →
  let w' := (poll_resume n (Throw t) w).2 in
  session_of n w' = Some (set_polling false (session cx)) ∧
  file k (storage w') = Some (Readable (set_polling false (session cx))) ∧
  replied w' = replied w ++ [(r, Text (formatError (ensureError t)))].
Proof.
  intros Hb Hk Ht Hl. simpl. rewrite poll_resume_throw, detached_emit.
  set (e := on_error (ensureError t)).
  set (w1 := with_trace _ w).
  destruct (bound_notifier _ _ _ _ Hb) as (nt & Hn & Hg & Hc).
  unfold listeners in Hl. rewrite Hn in Hl.
  assert (Hne : filter (λ r, event r = event_name e) (emitter nt) ≠ []).
  { intros E. simpl in E. by rewrite E in Hl. }
  unfold detached, try_catch.
  rewrite (dispatch_called _ n e w1 nt Hn Hne).
  change (event_name e) with ev_error in *.
  destruct (filter _ (emitter nt)) as [|r0 [|r1 rs]]; try done.
  injection Hl as Hl. unfold for_each. rewrite Hl.
  set (w2 := (modify_notifier n _ w1).2).
  assert (Hb2 : bound n w2 = Some (c, cx)).
  { unfold w2. by rewrite bound_modify_notifier. }
  destruct (stopPollingNotifications_bound n false w2 c cx k Hb2 Hk Ht) as (S1 & S2 & S3).
  assert (E : run_listener n (relay_error r) e w2 =
              (Normal tt,
               with_trace (λ l, l ++ [Replied r (Text (formatError (ensureError t)))])
                 (stopPollingNotifications n false w2).2)).
  { change (run_listener n (relay_error r) e)
      with (detached (stopPollingNotifications n false ;;;
                      reply r (Text (formatError (ensureError t))))).
    unfold detached, try_catch.
    by rewrite (bind_normal _ _ _ _ _ (normal_eta _ _ _ S1)). }
  rewrite (bind_normal _ _ _ _ _ E). cbn [fst snd ret].
  split; [unfold session_of; by rewrite bound_with_trace, S2|].
  split; [done|].
  rewrite replied_app, stopPollingNotifications_keeps_replied. f_equal.
  change (replied w2) with (replied w1). unfold w1. rewrite replied_app. apply app_nil_r.
Qed.

Lemma poll_error_stops_and_reports_witness :
  replied (poll_resume 0 (Throw (ThrownError (new_Error "Got non 200 response status")))
             booted).2
    = replied booted ++ [(0, Text "Error: Got non 200 response status")].
Proof.
  apply (poll_error_stops_and_reports 0 booted 0
           {| chatId := Some (Num 7);
              session := set_pollingOnBoot true (set_polling true stored_session);
              notifier := None |}
           (Num 7) 0 (ThrownError (new_Error "Got non 200 response status"))).
  - vm_compute. reflexivity.
  - reflexivity.
  - reflexivity.
  - vm_compute. reflexivity.
Defined.

(** ** Starting, stopping and timers *)

Lemma filter_poll_kept (l : list Registration) :
  filter (λ r, event r = ev_poll) (filter (λ r, ¬ (event r = ev_poll ∧ once r = true)) l)
  = filter (λ r, event r = ev_poll ∧ once r = false) l.
Proof.
  induction l as [|r l IH]; [done|].
  destruct r as [ev [] li]; destruct (decide (ev = ev_poll)) as [->|Hne].
  - rewrite (filter_cons_False (λ r, ¬ _)); [|simpl; tauto].
    rewrite (filter_cons_False (λ r, _ ∧ _)); [done|]. simpl. by intros [_ ?].
  - rewrite (filter_cons_True (λ r, ¬ _)); [|simpl; tauto].
    rewrite (filter_cons_False (λ r, event r = ev_poll)); [|done].
    rewrite (filter_cons_False (λ r, _ ∧ _)); [done|]. simpl. tauto.
  - rewrite (filter_cons_True (λ r, ¬ _)); [|simpl; by intros [_ ?]].
    rewrite (filter_cons_True (λ r, event r = ev_poll)); [|done].
    rewrite (filter_cons_True (λ r, _ ∧ _)); [|done]. by rewrite IH.
  - rewrite (filter_cons_True (λ r, ¬ _)); [|simpl; tauto].
    rewrite (filter_cons_False (λ r, event r = ev_poll)); [|done].
    rewrite (filter_cons_False (λ r, _ ∧ _)); [done|]. simpl. tauto.
Qed.

(** X2. [startPollingNotifications(false)] on a session that is polling
    does nothing but log the warning: no controller, no assignment, no
    poll, no listener. *)
Theorem start_when_polling (n : nat) (w : World) (c : nat) (cx : NotifierContext) :
  bound n w = Some (c, cx) → polling (options (session cx)) = true →
  startPollingNotifications n false w =
    (Normal tt, with_trace (λ t, t ++ [Logged "Already polling for notifications"]) w).
Proof.
  intros Hb Hp. unfold startPollingNotifications.
  by rewrite (bind_normal _ _ _ _ _ (this_session_bound _ _ _ _ Hb)), Hp.
Qed.

Lemma start_when_polling_witness :
  startPollingNotifications 0 false booted =
    (Normal tt, with_trace (λ t, t ++ [Logged "Already polling for notifications"]) booted).
Proof.
  apply (start_when_polling 0 booted 0
           {| chatId := Some (Num 7);
              session := set_pollingOnBoot true (set_polling true stored_session);
              notifier := None |}).
  - vm_compute. reflexivity.
  - reflexivity.
Defined.

(** X3. [startPollingNotifications(force)] on a session that is not
    polling, or with [force]: it completes; [polling] and [pollingOnBoot]
    are true in the session and in its file; exactly one poll has been
    entered and waits for its request, and no timer was set; and of the
    'poll' listeners only those registered with [on] remain, followed by
    the one [once] listener this call adds, so the [once] listeners of
    earlier starts do not pile up. *)
Theorem start_begins_polling (n : nat) (force : bool) (w : World) (c : nat)
    (cx : NotifierContext) (k : number) (nt : Notifier) :
  bound n w = Some (c, cx) → chatId cx = Some k → truthy k = true →
  notifiers w !! n = Some nt →
  polling (options (session cx)) && negb force = false →
  let r := startPollingNotifications n force w in
  let s' := set_pollingOnBoot true (set_polling true (session cx)) in
  r.1 = Normal tt ∧
  session_of n r.2 = Some s' ∧
  file k (storage r.2) = Some (Readable s') ∧
  (∃ p, awaiting r.2 = awaiting w ++ [(n, p)]) ∧
  timers r.2 = timers w ∧
  listeners n ev_poll r.2 =
    (listener <$> filter (λ r, event r = ev_poll ∧ once r = false) (emitter nt))
    ++ [clear_polling].
Proof.
  intros Hb Hk Ht Hn Hcond r s'.
  destruct (startPollingNotifications_steps n force w c cx Hb Hcond) as (E & Hb2 & Hb3).
  set (w1 := (new_AbortController n w).2) in *.
  set (w2 := (this_session_set n (set_polling true) w1).2) in *.
  set (w3 := (this_session_set n (set_pollingOnBoot true) w2).2) in *.
  assert (Hn4 : notifiers (poll n w3).2 !! n
                = Some {| controller := controllers w; getSession := getSession nt;
                          emitter := emitter nt |}).
  { rewrite poll_keeps_notifiers. unfold w3. rewrite this_session_set_keeps_notifiers.
    unfold w2. rewrite this_session_set_keeps_notifiers.
    unfold w1. simpl. by rewrite list_lookup_alter_eq, Hn. }
  unfold r. rewrite E, (emit_poll_true_found _ _ _ Hn4).
  destruct (this_session_set_synced n (set_pollingOnBoot true) w2 c _ k Hb2 Hk Ht)
    as (_ & _ & Hf3). fold w3 in Hf3.
  destruct (poll_suspends n w3 c _ Hb3 eq_refl) as [p Hp].
  split; [done|]. split; [|split; [|split; [|split]]].
  - unfold session_of, add_listener. cbn [snd].
    rewrite !bound_modify_notifier; [|done..]. rewrite bound_with_trace.
    rewrite (bound_eq n w3 (poll n w3).2), Hb3;
      [done|apply poll_keeps_accessor|apply poll_keeps_contexts].
  - simpl. by rewrite poll_keeps_storage.
  - exists p. simpl. rewrite Hp. f_equal.
    assert (K : ∀ f, keeps awaiting (this_session_set n f)) by (intros f; keeps_frame).
    unfold w3, w2. by rewrite !K.
  - simpl. assert (K : keeps timers (poll n)) by keeps_frame. rewrite K.
    assert (K' : ∀ f, keeps timers (this_session_set n f)) by (intros f; keeps_frame).
    unfold w3, w2. by rewrite !K'.
  - unfold listeners, add_listener. simpl.
    rewrite !list_lookup_alter_eq, Hn4. simpl.
    rewrite filter_app, filter_poll_kept, fmap_app. done.
Qed.

Lemma start_begins_polling_witness :
  listeners 0 ev_poll (startPollingNotifications 0 true booted).2 = [clear_polling].
Proof.
  apply (start_begins_polling 0 true booted 0
           {| chatId := Some (Num 7);
              session := set_pollingOnBoot true (set_polling true stored_session);
              notifier := None |}
           (Num 7)
           {| controller := 1; getSession := 0;
              emitter := [ {| event := ev_notification_count_changed; once := false;
                              listener := relay_state_changed |};
                           {| event := ev_poll; once := true; listener := clear_polling |};
                           {| event := ev_error; once := false; listener := relay_error 0 |};
                           {| event := ev_notification_count; once := false;
                              listener := relay_notification_count 0 |} ] |}).
  - vm_compute. reflexivity.
  - reflexivity.
  - reflexivity.
  - vm_compute. reflexivity.
  - reflexivity.
Defined.


Lemma poll_not_polling n w c cx :
  bound n w = Some (c, cx) → polling (options (session cx)) = false →
  poll n w = (Normal tt, w).
Proof.
  intros Hb Hp. unfold poll, detached, try_catch, poll_enter.
  assert (E : (s <- this_session n ;;
               if negb (polling (options s)) then ret None
               else p <- getNotificationCount n ;; ret (Some p)) w = (Normal None, w)).
  { by rewrite (bind_normal _ _ _ _ _ (this_session_bound _ _ _ _ Hb)), Hp. }
  by rewrite (bind_normal _ _ _ _ _ E).
Qed.

(** X5. A timer set by the poll loop comes due. When the session is not
    polling any more (a stop came in between), the poll returns at once:
    the timer is gone and nothing else has changed, no request, no new
    timer. When the session is polling, one poll is entered and waits for
    its request. *)
Theorem timer_fires_checks_polling (i n : nat) (delay : number) (w : World) (c : nat)
    (cx : NotifierContext) :
  timers w !! i = Some (n, delay) → bound n w = Some (c, cx) →
  if polling (options (session cx))
  then (timer_fires i w).1 = Normal tt ∧
       timers (timer_fires i w).2 = delete i (timers w) ∧
       ∃ p, awaiting (timer_fires i w).2 = awaiting w ++ [(n, p)]
  else timer_fires i w = (Normal tt, with_timers (delete i) w).
Proof.
  intros Hi Hb. unfold timer_fires. rewrite Hi.
  destruct (polling (options (session cx))) eqn:Hp.
  - split; [apply poll_normal|]. split.
    + assert (K : keeps timers (poll n)) by keeps_frame. by rewrite K.
    + destruct (poll_suspends n (with_timers (delete i) w) c cx Hb Hp) as [p Hs]. eauto.
  - by apply (poll_not_polling n _ c cx).
Qed.

Lemma timer_fires_checks_polling_witness :
  ∃ p, awaiting (timer_fires 0 polled_3).2 = awaiting polled_3 ++ [(0, p)].
Proof.
  pose proof (timer_fires_checks_polling 0 0 (Num 60000) polled_3 0
                {| chatId := Some (Num 7);
                   session := set_count {| rooms_count := Num 3 |}
                                (set_pollingOnBoot true (set_polling true stored_session));
                   notifier := None |}) as H.
  simpl in H. apply H.
  - vm_compute. reflexivity.
  - vm_compute. reflexivity.
Defined.

(** ** What a request returns *)

(** X6. The caller of [getNotificationCount()] receives a count in one case
    only: the request was sent, the response has status 200 and its body
    parses, and the count is that body. In every other case it receives an
    exception. *)
Theorem settle_normal_iff (p : Promise) (o : FetchOutcome) (data : NotificationsCount) :
  settle p o = Normal data ↔
  (∃ signal, p = fetching signal) ∧ o = fetch_resolves 200 (Normal data).
Proof.
  split.
  - destruct p as [t|signal]; [done|]. destruct o as [t|status json]; [done|]. simpl.
    destruct (decide (status ≠ 200%Z)) as [|Heq]; [done|].
    intros ->. split; [eauto|]. f_equal. apply dec_stable in Heq. done.
  - intros [[signal ->] ->]. reflexivity.
Qed.

(** ** The commands that ask for the count *)

Lemma ctx_notifier_found c w cx n :
  contexts w !! c = Some cx → notifier cx = Some n → ctx_notifier c w = (Normal n, w).
Proof. intros Hc Hn. unfold ctx_notifier, bind, get_context. by rewrite Hc, Hn. Qed.

Lemma command_check_ok c n w cx data :
  bound n w = Some (c, cx) → notifier cx = Some n →
  command_check c (fetch_resolves 200 (Normal data)) w =
    let w1 := (getNotificationCount n w).2 in
    match (getNotificationCount n w).1 with
    | Normal (fetching _) =>
        (Normal tt,
         with_trace (λ t, t ++ [Replied c (RoomsHaveNewMessages (rooms_count data))])
           (with_contexts (alter (with_session (set_rooms_count (rooms_count data))) c) w1))
    | Normal (rejected t) => (Throw t, w1)
    | Throw t => (Throw t, w1)
    end.
Proof.
  intros Hb Hn. destruct (bound_notifier _ _ _ _ Hb) as (nt & Hnt & Hg & Hc).
  unfold command_check.
  rewrite (bind_normal _ _ _ _ _ (ctx_notifier_found _ _ _ _ Hc Hn)).
  unfold bind at 1.
  assert (Hc1 : contexts (getNotificationCount n w).2 !! c = Some cx).
  { assert (K : keeps contexts (getNotificationCount n)) by keeps_frame. by rewrite K. }
  destruct (getNotificationCount n w) as [[[t|signal]|t] w1]; simpl in *; try done.
  unfold handleNotificationCount, bind, get_context. simpl.
  by rewrite list_lookup_alter_eq, Hc1.
Qed.

(** X7. [/check] on a configured session whose request succeeds replies
    with the fetched count whatever it is: a count of 0 is announced too,
    also when [allowZeroMessages] is false. *)
Theorem command_check_shows_zero (c n : nat) (w : World) (cx : NotifierContext)
    (data : NotificationsCount) :
  bound n w = Some (c, cx) → notifier cx = Some n →
  truthy_string (referer (options (session cx))) = true →
  truthy_string (token (options (session cx))) = true →
  notifications (command_check c (fetch_resolves 200 (Normal data)) w).2
    = notifications w ++ [(c, rooms_count data)].
Proof.
  intros Hb Hn Hr Ht. rewrite (command_check_ok c n w cx data Hb Hn).
  destruct (bound_notifier _ _ _ _ Hb) as (nt & Hnt & _).
  rewrite (getNotificationCount_bound _ _ _ _ Hb), Hr, Ht, Hnt. simpl.
  rewrite notifications_app. f_equal.
  change (notifications (with_contexts ?f ?x)) with (notifications x).
  rewrite notifications_app. apply app_nil_r.
Qed.

Lemma command_check_shows_zero_witness :
  notifications (command_check 0 (ok 0) configured).2 = notifications configured ++ [(0, Num 0)].
Proof.
  apply (command_check_shows_zero 0 0 configured
           {| chatId := Some (Num 7); session := with_credentials; notifier := Some 0 |}
           {| rooms_count := Num 0 |}).
  - vm_compute. reflexivity.
  - reflexivity.
  - reflexivity.
  - reflexivity.
Defined.

(** X8. [/check] whose [getNotificationCount()] throws, for a missing
    referer or token or for a request that fails: the exception leaves the
    handler as it is, no session and no session file is changed, and
    nothing is replied. *)
Theorem command_check_fails (c n : nat) (w : World) (cx : NotifierContext)
    (o : FetchOutcome) (p : Promise) (t : Thrown) :
  contexts w !! c = Some cx → notifier cx = Some n →
  (getNotificationCount n w).1 = Normal p → settle p o = Throw t →
  (command_check c o w).1 = Throw t ∧
  contexts (command_check c o w).2 = contexts w ∧
  storage (command_check c o w).2 = storage w ∧
  replied (command_check c o w).2 = replied w.
Proof.
  intros Hc Hn Hp Hs. unfold command_check.
  rewrite (bind_normal _ _ _ _ _ (ctx_notifier_found _ _ _ _ Hc Hn)).
  rewrite (bind_normal _ _ _ _ _ (normal_eta _ _ _ Hp)).
  unfold bind at 1 2 3 4. rewrite Hs. cbn [fst snd].
  split; [done|]. split; [|split].
  - assert (K : keeps contexts (getNotificationCount n)) by keeps_frame. apply K.
  - assert (K : keeps storage (getNotificationCount n)) by keeps_frame. apply K.
  - assert (K : keeps replied (getNotificationCount n)) by keeps_replied. apply K.
Qed.

Lemma command_check_fails_witness :
  (command_check 0 (fetch_resolves 500 (Throw bad_json)) configured).1
    = Throw (ThrownError (new_Error "Got non 200 response status")).
Proof.
  apply (command_check_fails 0 0 configured
           {| chatId := Some (Num 7); session := with_credentials; notifier := Some 0 |}
           (fetch_resolves 500 (Throw bad_json)) (fetching 0)).
  - vm_compute. reflexivity.
  - reflexivity.
  - vm_compute. reflexivity.
  - reflexivity.
Defined.

(** X9. [/token] assigns the token before it validates it: whether or not
    the validating request succeeds, the session has the new token
    afterwards. The request is made with the new token in place, and its
    outcome decides the rest: when the handler's await receives a count,
    the handler completes and replies that the token was set; when it
    receives an exception, that exception leaves the handler and nothing is
    replied. *)
Theorem command_token_stores_first (c n : nat) (w : World) (cx : NotifierContext)
    (text : string) (o : FetchOutcome) :
  bound n w = Some (c, cx) → notifier cx = Some n →
  let r := command_token c text o w in
  let assigned := (modify_session c (set_token (Some text)) w).2 in
  session_of n r.2 = Some (set_token (Some text) (session cx)) ∧
  ∃ p, (getNotificationCount n assigned).1 = Normal p ∧
       match settle p o with
       | Normal _ =>
           r.1 = Normal tt ∧
           replied r.2 = replied w ++ [(c, Text "Token successfully set")]
       | Throw t =>
           r.1 = Throw t ∧ replied r.2 = replied w
       end.
Proof.
  intros Hb Hn r assigned. destruct (bound_notifier _ _ _ _ Hb) as (nt & Hnt & Hg & Hc).
  set (w1 := (modify_session c (set_token (Some text)) w).2).
  assert (Hb1 : bound n w1 = Some (c, with_session (set_token (Some text)) cx)).
  { unfold bound, w1. simpl. rewrite Hnt. simpl. by rewrite Hg, list_lookup_alter_eq, Hc. }
  destruct (bound_notifier _ _ _ _ Hb1) as (_ & _ & _ & Hc1).
  destruct (getNotificationCount_normal n w1) as [p Hp]; [by rewrite Hb1|].
  set (w2 := (getNotificationCount n w1).2) in *.
  assert (Hb2 : bound n w2 = bound n w1).
  { apply bound_eq.
    - assert (K : keeps (accessor n) (getNotificationCount n)) by keeps_accessor. apply K.
    - assert (K : keeps contexts (getNotificationCount n)) by keeps_frame. apply K. }
  assert (Hr2 : replied w2 = replied w).
  { assert (K : keeps replied (getNotificationCount n)) by keeps_replied. unfold w2.
    by rewrite K. }
  assert (E : r = match settle p o with
                  | Normal _ =>
                      (Normal tt,
                       with_trace (λ l, l ++ [Replied c (Text "Token successfully set")]) w2)
                  | Throw t => (Throw t, w2)
                  end).
  { unfold r, command_token.
    rewrite (bind_normal (modify_session c _) _ w tt w1 eq_refl).
    rewrite (bind_normal _ _ _ _ _ (ctx_notifier_found c w1 _ n Hc1 Hn)).
    rewrite (bind_normal _ _ _ _ _ (normal_eta _ _ _ Hp)). fold w2.
    unfold bind. by destruct (settle p o). }
  rewrite E. split.
  - destruct (settle p o) as [data|t]; cbn [fst snd]; unfold session_of;
      by rewrite ?bound_with_trace, Hb2, Hb1.
  - exists p. split; [exact Hp|].
    destruct (settle p o) as [data|t]; cbn [fst snd]; split; try done.
    by rewrite replied_app, Hr2.
Qed.

(** [/token] with a token that the endpoint answers with status 401: the
    session has the token, the handler throws and nothing is replied. *)
Lemma command_token_stores_first_witness :
  let r := command_token 0 "expired" (fetch_resolves 401 (Throw bad_json)) configured in
  session_of 0 r.2 = Some (set_token (Some "expired") with_credentials) ∧
  r.1 = Throw (ThrownError (new_Error "Got non 200 response status")) ∧
  replied r.2 = replied configured.
Proof.
  destruct (command_token_stores_first 0 0 configured
              {| chatId := Some (Num 7); session := with_credentials; notifier := Some 0 |}
              "expired" (fetch_resolves 401 (Throw bad_json)))
    as (Hs & p & Hp & H).
  - vm_compute. reflexivity.
  - reflexivity.
  - assert (p = fetching 0) as -> by (vm_compute in Hp; congruence).
    split; [exact Hs|]. exact H.
Defined.

(** ** Contexts and their notifier *)

(** X10. [NotifierFactory.create] for a context without a chat id, or with
    the chat id 0 or NaN, throws [InvalidError('chat id')] before it
    touches anything: no notifier is made or registered. *)
Theorem create_rejects_falsy (c : nat) (w : World) (cx : NotifierContext) :
  contexts w !! c = Some cx →
  from_option truthy false (chatId cx) = false →
  NotifierFactory.create c w = (Throw (ThrownError (InvalidError "chat id")), w).
Proof.
  intros Hc Hk. unfold NotifierFactory.create, bind, get_context. rewrite Hc.
  destruct (chatId cx) as [k|]; [|done]. simpl in Hk. by rewrite Hk.
Qed.

Lemma create_rejects_falsy_witness :
  NotifierFactory.create 0 (new_NotifierContext (Some (Num 0)) with_credentials (fresh [])).2
    = (Throw (ThrownError (InvalidError "chat id")),
       (new_NotifierContext (Some (Num 0)) with_credentials (fresh [])).2).
Proof.
  apply (create_rejects_falsy 0 _
           {| chatId := Some (Num 0); session := with_credentials; notifier := None |}).
  - reflexivity.
  - reflexivity.
Defined.

(** [create] for a chat id that passes the guard, in a process whose
    registry points at live notifiers. *)
Lemma create_outcome c w cx k :
  contexts w !! c = Some cx → chatId cx = Some k → truthy k = true →
  (∀ n, registry w !! k = Some n → is_Some (notifiers w !! n)) →
  ∃ n, (NotifierFactory.create c w).1 = Normal n ∧
       registry (NotifierFactory.create c w).2 !! k = Some n ∧
       accessor n (NotifierFactory.create c w).2 = Some c ∧
       length (contexts (NotifierFactory.create c w).2) = length (contexts w).
Proof.
  intros Hc Hk Ht Hlive. destruct (registry w !! k) as [n|] eqn:Hr.
  - exists n. rewrite (create_registered c w cx k n Hc Hk Ht Hr). simpl.
    split; [done|]. split; [done|]. split; [|done].
    destruct (Hlive n eq_refl) as [nt Hnt].
    unfold accessor. simpl. by rewrite list_lookup_alter_eq, Hnt.
  - destruct (create_new c w cx k Hc Hk Ht Hr) as [E Hb].
    set (n := length (notifiers w)) in *.
    set (w2 := with_registry (insert k n) (new_Notifier c w).2) in *.
    exists n. rewrite E. cbn [fst snd]. split; [done|]. split; [|split].
    + simpl. rewrite wire_keeps_registry. unfold w2. simpl. apply lookup_insert_eq.
    + destruct (bound_notifier _ _ _ _ Hb) as (nt & Hn & Hg & _).
      assert (Ha : accessor n (wire c n k (pollingOnBoot (options (session cx))) w2).2
                   = Some c).
      { rewrite wire_keeps_accessor. unfold accessor. by rewrite Hn, <- Hg. }
      unfold accessor in *. unfold updateSession. simpl.
      rewrite list_lookup_alter_eq.
      by destruct (notifiers (wire c n k (pollingOnBoot (options (session cx))) w2).2 !! n).
    + simpl. by rewrite wire_keeps_length_contexts.
Qed.

(** X11. [ctx.notifier] before and after [ctx.initialize()], for a context
    whose chat id passes the guard: before, the getter throws
    [InvalidError('notifier')]; [initialize] completes, and after it the
    getter returns the notifier that the registry has for the chat, whose
    accessor now reads this context. *)
Theorem initialize_binds (c : nat) (w : World) (cx : NotifierContext) (k : number) :
  contexts w !! c = Some cx → chatId cx = Some k → truthy k = true →
  notifier cx = None →
  (∀ n, registry w !! k = Some n → is_Some (notifiers w !! n)) →
  ctx_notifier c w = (Throw (ThrownError (InvalidError "notifier")), w) ∧
  (initialize c w).1 = Normal tt ∧
  ∃ n, ctx_notifier c (initialize c w).2 = (Normal n, (initialize c w).2) ∧
       registry (initialize c w).2 !! k = Some n ∧
       accessor n (initialize c w).2 = Some c.
Proof.
  intros Hc Hk Ht Hnone Hlive. split.
  { unfold ctx_notifier, bind, get_context. by rewrite Hc, Hnone. }
  destruct (create_outcome c w cx k Hc Hk Ht Hlive) as (n & H1 & H2 & H3 & H4).
  unfold initialize. rewrite (bind_normal _ _ _ _ _ (normal_eta _ _ _ H1)).
  set (w1 := (NotifierFactory.create c w).2) in *. cbn [fst snd].
  split; [done|]. exists n.
  assert (Hlt : c < length (contexts w1)).
  { rewrite H4. by apply lookup_lt_Some in Hc. }
  destruct (lookup_lt_is_Some_2 _ _ Hlt) as [cx1 Hc1].
  split; [|done].
  unfold ctx_notifier, bind, get_context. simpl.
  by rewrite list_lookup_alter_eq, Hc1.
Qed.

Lemma initialize_binds_witness :
  ∃ n, ctx_notifier 1
         (initialize 1 (new_NotifierContext (Some (Num 7)) with_credentials booted).2).2
       = (Normal n,
          (initialize 1 (new_NotifierContext (Some (Num 7)) with_credentials booted).2).2)
       ∧ accessor n
           (initialize 1 (new_NotifierContext (Some (Num 7)) with_credentials booted).2).2
         = Some 1.
Proof.
  destruct (initialize_binds 1 (new_NotifierContext (Some (Num 7)) with_credentials booted).2
              {| chatId := Some (Num 7); session := with_credentials; notifier := None |}
              (Num 7))
    as (_ & _ & n & H1 & _ & H3).
  - vm_compute. reflexivity.
  - reflexivity.
  - reflexivity.
  - reflexivity.
  - intros n Hn. apply (bool_decide_unpack _).
    assert (n = 0) as -> by (vm_compute in Hn; congruence).
    vm_compute. exact I.
  - exists n. split; [exact H1|exact H3].
Defined.

(** ** What a successful poll leaves behind *)

(** X12. After a poll whose request succeeded, the session file of the
    chat holds the session as it is in memory, with the fetched count: the
    assignment of [count] went through the proxy. *)
Theorem poll_success_persists (n : nat) (data : NotificationsCount) (w : World)
    (c : nat) (cx : NotifierContext) (k : number) :
  bound n w = Some (c, cx) → chatId cx = Some k → truthy k = true →
  file k (storage (poll_resume n (Normal data) w).2)
    = Some (Readable (set_count data (session cx))) ∧
  session_of n (poll_resume n (Normal data) w).2 = Some (set_count data (session cx)).
Proof.
  intros Hb Hk Ht. rewrite (poll_resume_success _ _ _ _ _ Hb). simpl.
  set (w2 := (emit n (on_notification_count data) _).2).
  set (w3 := if loose_ne _ _ then _ else _).
  assert (Hb2 : bound n w2 = Some (c, cx)) by (unfold w2; by rewrite emit_count_keeps_bound).
  assert (Hb3 : bound n w3 = Some (c, cx)).
  { unfold w3. destruct (loose_ne _ _); [by rewrite emit_changed_keeps_bound|done]. }
  destruct (this_session_set_synced n (set_count data) w3 c cx k Hb3 Hk Ht) as (_ & H2 & H3).
  split; [done|]. unfold session_of. by rewrite bound_with_timers, H2.
Qed.

Lemma poll_success_persists_witness :
  file (Num 7) (storage (poll_resume 0 (Normal {| rooms_count := Num 5 |}) polled_3).2)
    = Some (Readable (set_count {| rooms_count := Num 5 |}
                        (set_pollingOnBoot true (set_polling true stored_session)))).
Proof.
  apply (poll_success_persists 0 {| rooms_count := Num 5 |} polled_3 0
           {| chatId := Some (Num 7);
              session := set_count {| rooms_count := Num 3 |}
                           (set_pollingOnBoot true (set_polling true stored_session));
              notifier := None |}
           (Num 7)).
  - vm_compute. reflexivity.
  - reflexivity.
  - reflexivity.
Defined.

(** ** Clearing the session *)

(** X13. [/clear] on the context that the notifier reads puts the default
    state in place of the session, without writing the session file
    itself. The poll loop is not stopped by the handler, but it ends at its
    next timer: the default state is not polling, so that poll returns
    without a request and sets no new timer. *)
Theorem clear_ends_polling (c n i : nat) (delay : number) (w : World) (cx : NotifierContext) :
  bound n w = Some (c, cx) → timers w !! i = Some (n, delay) →
  let w1 := (command_clear c w).2 in
  (command_clear c w).1 = Normal tt ∧
  session_of n w1 = Some DEFAULT_NOTIFIER_STATE ∧
  storage w1 = storage w ∧ timers w1 = timers w ∧ awaiting w1 = awaiting w ∧
  timer_fires i w1 = (Normal tt, with_timers (delete i) w1).
Proof.
  intros Hb Hi w1. destruct (bound_notifier _ _ _ _ Hb) as (nt & Hnt & Hg & Hc).
  assert (Hb1 : bound n w1
                = Some (c, with_session (λ _, createNotifierState) cx)).
  { unfold bound. simpl. rewrite Hnt. simpl. by rewrite Hg, list_lookup_alter_eq, Hc. }
  split; [done|]. split; [unfold session_of; by rewrite Hb1|].
  do 3 (split; [done|]).
  unfold timer_fires. change (timers w1) with (timers w). rewrite Hi.
  by apply (poll_not_polling n _ c (with_session (λ _, createNotifierState) cx)).
Qed.

Lemma clear_ends_polling_witness :
  timer_fires 0 (command_clear 0 polled_3).2
    = (Normal tt, with_timers (delete 0) (command_clear 0 polled_3).2).
Proof.
  apply (clear_ends_polling 0 0 0 (Num 60000) polled_3
           {| chatId := Some (Num 7);
              session := set_count {| rooms_count := Num 3 |}
                           (set_pollingOnBoot true (set_polling true stored_session));
              notifier := None |}).
  - vm_compute. reflexivity.
  - vm_compute. reflexivity.
Defined.

(** ** Reading back through the handle *)

Lemma get_set_field p x fields :
  SessionProxy.get_field p (SessionProxy.set_field p x fields) = x.
Proof.
  induction fields as [|[k v] fields IH]; simpl.
  - by rewrite String.eqb_refl.
  - destruct (String.eqb k p) eqn:E; simpl; by rewrite E.
Qed.

Lemma get_set_field_ne p q x fields :
  p ≠ q →
  SessionProxy.get_field q (SessionProxy.set_field p x fields) = SessionProxy.get_field q fields.
Proof.
  intros Hne. induction fields as [|[k v] fields IH]; simpl.
  - destruct (String.eqb_spec p q); done.
  - destruct (String.eqb_spec k p) as [->|Hkp]; simpl.
    + by destruct (String.eqb_spec p q).
    + by rewrite IH.
Qed.

Lemma navigate_assign path p x v r :
  SessionProxy.assign path p x v = Some r →
  SessionProxy.navigate (path ++ [p]) r = Some x.
Proof.
  revert v r. induction path as [|q path IH]; intros [pr|fields] r; simpl; try done.
  - intros [= <-]. by rewrite get_set_field.
  - destruct (SessionProxy.assign path p x (SessionProxy.get_field q fields)) as [v'|] eqn:E;
      [|done].
    intros [= <-]. rewrite get_set_field. by apply (IH _ _ E).
Qed.

Lemma navigate_assign_apart common q1 q2 t1 t2 path p x v r :
  SessionProxy.assign path p x v = Some r →
  path ++ [p] = common ++ q1 :: t1 → q1 ≠ q2 →
  SessionProxy.navigate (common ++ q2 :: t2) r = SessionProxy.navigate (common ++ q2 :: t2) v.
Proof.
  revert path v r. induction common as [|a common IH]; intros path v r Ha Hp Hne.
  - destruct v as [pr|fields]; [by destruct path|]. simpl in *.
    destruct path as [|q path]; simpl in *.
    + injection Hp as -> _. injection Ha as <-. by rewrite get_set_field_ne.
    + injection Hp as -> _.
      destruct (SessionProxy.assign path p x (SessionProxy.get_field q1 fields)); [|done].
      injection Ha as <-. by rewrite get_set_field_ne.
  - destruct path as [|q path]; simpl in Hp.
    { injection Hp as _ Hp. by destruct common. }
    injection Hp as -> Hp. destruct v as [pr|fields]; [done|]. simpl in *.
    destruct (SessionProxy.assign path p x (SessionProxy.get_field a fields)) as [v'|] eqn:E;
      [|done].
    injection Ha as <-. rewrite get_set_field. by apply (IH path _ _ E).
Qed.

Lemma assign_fails path p x v :
  SessionProxy.assign path p x v = None ↔
  ∀ fields, SessionProxy.navigate path v ≠ Some (SessionProxy.Obj fields).
Proof.
  revert v. induction path as [|q path IH]; intros [pr|fields]; simpl.
  - split; [by intros _ fs|done].
  - split; [done|]. intros H. by destruct (H fields).
  - split; [by intros _ fs|done].
  - rewrite <- IH.
    destruct (SessionProxy.assign path p x (SessionProxy.get_field q fields)); split; done.
Qed.

(** X14. What was written through the handle is what a read through the
    handle returns at the same place, at any depth; and a read at a place
    that branches off the written path returns what it returned before the
    write. *)
Theorem handle_read_after_write {Env : Type} (trigger : SessionProxy.value → Env → Env)
    (path : list string) (p : string) (x : SessionProxy.value) (st : SessionProxy.state) :
  (SessionProxy.write trigger path p x st).1 = true →
  let st' := (SessionProxy.write trigger path p x st).2 in
  (SessionProxy.read (path ++ [p]) st').1 = Some x ∧
  ∀ common q1 q2 t1 t2,
    path ++ [p] = common ++ q1 :: t1 → q1 ≠ q2 →
    (SessionProxy.read (common ++ q2 :: t2) st').1
      = (SessionProxy.read (common ++ q2 :: t2) st).1.
Proof.
  unfold SessionProxy.write, SessionProxy.read.
  destruct (SessionProxy.assign path p x (SessionProxy.root st)) as [r|] eqn:E; [|done].
  intros _. simpl. split; [by apply (navigate_assign _ _ _ _ _ E)|].
  intros common q1 q2 t1 t2 Hp Hne. by apply (navigate_assign_apart _ q1 _ t1 _ _ _ _ _ _ E).
Qed.

Lemma handle_read_after_write_witness :
  (SessionProxy.read ["options"; "interval"]
     (SessionProxy.write (λ r _, r) ["options"] "interval"
        (SessionProxy.Prim (SessionProxy.numeric (Num 5)))
        {| SessionProxy.root := SessionProxy.of_state DEFAULT_NOTIFIER_STATE;
           SessionProxy.env := SessionProxy.Prim SessionProxy.undefined;
           SessionProxy.calls := 0 |}).2).1
    = Some (SessionProxy.Prim (SessionProxy.numeric (Num 5))).
Proof.
  apply (handle_read_after_write (λ r _, r) ["options"] "interval"
           (SessionProxy.Prim (SessionProxy.numeric (Num 5)))
           {| SessionProxy.root := SessionProxy.of_state DEFAULT_NOTIFIER_STATE;
              SessionProxy.env := SessionProxy.Prim SessionProxy.undefined;
              SessionProxy.calls := 0 |}).
  reflexivity.
Defined.

(** X15. A write through the handle fails exactly when its path does not
    lead to an object (a field on the way is missing or holds a
    primitive); a failed write changes nothing and does not run the
    trigger. *)
Theorem handle_write_fails {Env : Type} (trigger : SessionProxy.value → Env → Env)
    (path : list string) (p : string) (x : SessionProxy.value) (st : SessionProxy.state) :
  ((SessionProxy.write trigger path p x st).1 = false ↔
   ∀ fields, SessionProxy.navigate path (SessionProxy.root st) ≠ Some (SessionProxy.Obj fields))
  ∧ ((SessionProxy.write trigger path p x st).1 = false →
     (SessionProxy.write trigger path p x st).2 = st).
Proof.
  unfold SessionProxy.write. rewrite <- (assign_fails path p x).
  destruct (SessionProxy.assign path p x (SessionProxy.root st)); simpl.
  - split; [split; intros; discriminate|intros; discriminate].
  - split; [split; intros; reflexivity|intros; reflexivity].
Qed.

Lemma handle_write_fails_witness :
  (SessionProxy.write (λ r _, r) ["count"; "rooms_count"] "x"
     (SessionProxy.Prim SessionProxy.null)
     {| SessionProxy.root := SessionProxy.of_state DEFAULT_NOTIFIER_STATE;
        SessionProxy.env := SessionProxy.Prim SessionProxy.undefined;
        SessionProxy.calls := 0 |}).2
    = {| SessionProxy.root := SessionProxy.of_state DEFAULT_NOTIFIER_STATE;
         SessionProxy.env := SessionProxy.Prim SessionProxy.undefined;
         SessionProxy.calls := 0 |}.
Proof.
  apply (handle_write_fails (λ r _, r) ["count"; "rooms_count"] "x").
  reflexivity.
Defined.

(** ** Sessions do not touch each other *)

(** X16. Whatever a notifier does, it does to its own session only: a poll
    from its await on (with either outcome), a stop and a start leave every
    context other than the one its accessor reads as it was, session
    included, and leave the session file of every chat other than its own
    as it was. *)
Theorem notifier_keeps_to_its_session (n : nat) (w : World) (c' : nat) (k' : number)
    (r : Completion NotificationsCount) (commit force : bool) :
  accessor n w ≠ Some c' → chat_of n w ≠ Some k' →
  (contexts (poll_resume n r w).2 !! c' = contexts w !! c' ∧
   file k' (storage (poll_resume n r w).2) = file k' (storage w)) ∧
  (contexts (stopPollingNotifications n commit w).2 !! c' = contexts w !! c' ∧
   file k' (storage (stopPollingNotifications n commit w).2) = file k' (storage w)) ∧
  (contexts (startPollingNotifications n force w).2 !! c' = contexts w !! c' ∧
   file k' (storage (startPollingNotifications n force w).2) = file k' (storage w)).
Proof.
  intros Hc Hk. repeat split.
  - apply (apart_context_eq n); [done|apply poll_resume_keeps_apart_context].
  - apply (apart_file_eq n); [done|apply poll_resume_keeps_apart_file].
  - apply (apart_context_eq n); [done|apply stop_keeps_apart_context].
  - apply (apart_file_eq n); [done|apply stop_keeps_apart_file].
  - apply (apart_context_eq n); [done|apply start_keeps_apart_context].
  - apply (apart_file_eq n); [done|apply start_keeps_apart_file].
Qed.

Lemma notifier_keeps_to_its_session_witness :
  contexts (poll_resume 0 (Throw bad_json) two_sessions).2 !! 1 = contexts two_sessions !! 1 ∧
  file (Num 9) (storage (poll_resume 0 (Throw bad_json) two_sessions).2)
    = file (Num 9) (storage two_sessions).
Proof.
  destruct (notifier_keeps_to_its_session 0 two_sessions 1 (Num 9) (Throw bad_json) true true)
    as (H & _).
  - vm_compute. discriminate.
  - vm_compute. discriminate.
  - exact H.
Defined.

(** ** Boot with every file readable *)

(** X17. [boot] when every session file that [getKeys] lists is readable
    and named by a chat id that passes the guard of [create], the ids are
    distinct, the Bot API accepts the messages to each of these chats, and
    the process has no notifier yet: it completes, no promise is rejected
    unhandled on the way, and afterwards the registry has a notifier for
    exactly the chats listed. *)
Theorem boot_restores_all (w : World) :
  NoDup (storage w).*1 →
  (∀ k, k ∈ (storage w).*1 →
        truthy k = true ∧ (∃ s, file k (storage w) = Some (Readable s)) ∧
        ∀ m, delivery w k m = None) →
  registry w = ∅ →
  (boot w).1 = Normal tt ∧
  unhandled (boot w).2 = unhandled w ∧
  ∀ k, is_Some (registry (boot w).2 !! k) ↔ k ∈ (storage w).*1.
Proof.
  intros Hnd Hall Hreg.
  destruct (restore_all (storage w).*1 w Hnd) as (w1 & E & _ & I1 & I2).
  { intros k Hk. destruct (Hall k Hk) as (Ht & Hs & Hd).
    split; [done|]. split; [by rewrite Hreg|done]. }
  destruct (boot_loop_quiet (storage w).*1 w Hnd) as [_ Q].
  { intros k Hk. destruct (Hall k Hk) as (Ht & Hs & Hd).
    split; [done|]. split; [by rewrite Hreg|done]. }
  assert (Eb : boot w = (Normal tt, w1)).
  { unfold boot, bind, getKeys. by rewrite E. }
  rewrite E in Q. rewrite Eb. cbn [fst snd] in *. split; [done|]. split; [done|].
  intros k. split.
  - intros Hs. destruct (decide (k ∈ (storage w).*1)) as [|Hn]; [done|].
    destruct (I2 k Hn) as [Hr _]. rewrite Hr, Hreg in Hs. by destruct Hs.
  - apply I1.
Qed.

Lemma boot_restores_all_witness :
  (boot (fresh [(Num 7, Readable stored_session); (Num 9, Readable stored_session)])).1
    = Normal tt.
Proof.
  apply (boot_restores_all
           (fresh [(Num 7, Readable stored_session); (Num 9, Readable stored_session)])).
  - apply (bool_decide_unpack _). vm_compute. exact I.
  - intros k Hk. apply elem_of_cons in Hk as [->|Hk].
    + split; [reflexivity|]. split; [exists stored_session|]; reflexivity.
    + apply list_elem_of_singleton in Hk as ->.
      split; [reflexivity|]. split; [exists stored_session|]; reflexivity.
  - reflexivity.
Defined.

(** ** From file names to keys *)

Lemma split_slash_cons s : ∃ seg segs, split_slash s = seg :: segs.
Proof.
  induction s as [|a s (seg & segs & IH)]; simpl; [eauto|].
  destruct (Ascii.eqb a "/"%char); [eauto|]. rewrite IH. eauto.
Qed.

Lemma split_slash_no_slash s : no_slash s = true → split_slash s = [s].
Proof.
  induction s as [|a s IH]; simpl; [done|].
  destruct (Ascii.eqb a "/"%char); simpl; [done|]. intros H. by rewrite IH.
Qed.

Lemma split_slash_two dir rest :
  ∃ x y l, split_slash (dir +:+ String "/"%char rest) = x :: y :: l.
Proof.
  induction dir as [|a dir (x & y & l & IH)]; simpl.
  - destruct (split_slash_cons rest) as (seg & segs & ->). eauto.
  - destruct (Ascii.eqb a "/"%char); [rewrite IH; eauto|]. rewrite IH. eauto.
Qed.

Lemma last_split_slash dir rest :
  last (split_slash (dir +:+ String "/"%char rest)) = last (split_slash rest).
Proof.
  induction dir as [|a dir IH]; simpl.
  - by destruct (split_slash_cons rest) as (seg & segs & ->).
  - destruct (split_slash_two dir rest) as (x & y & l & E).
    rewrite E in IH. destruct (Ascii.eqb a "/"%char); rewrite E; simpl in *; done.
Qed.

Lemma length_append (a b : string) :
  String.length (a +:+ b) = String.length a + String.length b.
Proof. induction a as [|c a IH]; simpl; [done|]. by rewrite IH. Qed.

Lemma substring_prefix (a b : string) :
  String.substring 0 (String.length a) (a +:+ b) = a.
Proof.
  induction a as [|c a IH]; simpl; [by destruct b|]. by rewrite IH.
Qed.

(** X18. [getKeys] gives back the key under which a session was stored:
    for a file [<dir>/<key>.json], whatever directories [dir] goes through,
    the key computed from the path is [key], provided it has no slash in
    it. *)
Theorem key_of_file_round_trip (dir key : string) :
  no_slash key = true →
  key_of_file (dir +:+ "/" +:+ key +:+ ".json") = key.
Proof.
  intros Hk. unfold key_of_file.
  change (dir +:+ "/" +:+ key +:+ ".json") with (dir +:+ String "/"%char (key +:+ ".json")).
  rewrite last_split_slash.
  assert (Hj : no_slash (key +:+ ".json") = true).
  { induction key as [|a key IH]; simpl in *; [done|].
    destruct (Ascii.eqb a "/"%char); simpl in *; [done|]. by apply IH. }
  rewrite (split_slash_no_slash _ Hj). simpl.
  unfold slice_0_minus5. rewrite length_append. simpl.
  replace (String.length key + 5 - 5) with (String.length key) by lia.
  apply substring_prefix.
Qed.

Lemma key_of_file_round_trip_witness :
  key_of_file ("/srv/bot/sessions/45/-100123456745.json") = "-100123456745".
Proof.
  apply (key_of_file_round_trip "/srv/bot/sessions/45" "-100123456745").
  reflexivity.
Defined.

(** ** More on the poll loop *)

(** X19. With [allowZeroMessages] true in the session of the context whose
    relay listens, every poll whose request succeeds delivers exactly one
    notification, a count of 0 included. *)
Theorem poll_success_notifies_zero (n : nat) (data : NotificationsCount) (w : World)
    (c : nat) (cx : NotifierContext) (r : nat) (rcx : NotifierContext) :
  bound n w = Some (c, cx) →
  listeners n ev_notification_count w = [relay_notification_count r] →
  contexts w !! r = Some rcx →
  allowZeroMessages (options (session rcx)) = true →
  notifications (poll_resume n (Normal data) w).2
    = notifications w ++ [(r, rooms_count data)].
Proof.
  intros Hb Hl Hr Hz. rewrite (poll_resume_success _ _ _ _ _ Hb). simpl.
  set (w1 := with_trace _ w).
  set (w2 := (emit n (on_notification_count data) w1).2).
  assert (E2 : notifications w2 = notifications w ++ [(r, rooms_count data)]).
  { unfold w2. rewrite (emit_count_notifications n data w1 r rcx); [|done..].
    rewrite Hz. unfold w1. rewrite notifications_app. simpl. by rewrite app_nil_r. }
  change (notifications (with_timers ?f ?x)) with (notifications x).
  rewrite this_session_set_keeps_notifications.
  destruct (loose_ne _ _); [by rewrite emit_changed_keeps_notifications|done].
Qed.

Lemma poll_success_notifies_zero_witness :
  notifications
    (poll_resume 0 (Normal {| rooms_count := Num 0 |})
       (command_allow 0 "yes" polled_3).2).2
    = notifications (command_allow 0 "yes" polled_3).2 ++ [(0, Num 0)].
Proof.
  apply (poll_success_notifies_zero 0 {| rooms_count := Num 0 |}
           (command_allow 0 "yes" polled_3).2 0
           {| chatId := Some (Num 7);
              session := set_allowZeroMessages true
                           (set_count {| rooms_count := Num 3 |}
                              (set_pollingOnBoot true (set_polling true stored_session)));
              notifier := None |}
           0
           {| chatId := Some (Num 7);
              session := set_allowZeroMessages true
                           (set_count {| rooms_count := Num 3 |}
                              (set_pollingOnBoot true (set_polling true stored_session)));
              notifier := None |}).
  - vm_compute. reflexivity.
  - vm_compute. reflexivity.
  - vm_compute. reflexivity.
  - reflexivity.
Defined.

(** X20. When the request of a suspended poll ends, that poll is no longer
    waiting, and a timer for the next poll is set exactly when a count came
    back, with the session's interval as its delay: a loop has its next
    poll scheduled only once the previous one is over, and an exception
    ends the loop's own scheduling. *)
Theorem fetch_settles_schedules_next (i n : nat) (p : Promise) (o : FetchOutcome)
    (w : World) (c : nat) (cx : NotifierContext) :
  awaiting w !! i = Some (n, p) → bound n w = Some (c, cx) →
  (fetch_settles i o w).1 = Normal tt ∧
  awaiting (fetch_settles i o w).2 = delete i (awaiting w) ∧
  timers (fetch_settles i o w).2 =
    timers w ++ match settle p o with
                | Normal _ => [(n, interval (options (session cx)))]
                | Throw _ => []
                end.
Proof.
  intros Hi Hb. unfold fetch_settles. rewrite Hi.
  set (w0 := with_awaiting (delete i) w).
  split; [apply detached_normal|]. split.
  - assert (K : keeps awaiting (poll_resume n (settle p o))) by keeps_frame. by rewrite K.
  - destruct (settle p o) as [data|t].
    + rewrite (poll_resume_success n data w0 c cx Hb). simpl.
      assert (K : keeps timers (this_session_set n (set_count data))) by keeps_frame.
      rewrite K. f_equal.
      destruct (loose_ne _ _); by rewrite ?emit_keeps_timers.
    + rewrite app_nil_r.
      assert (K : keeps timers (poll_resume n (Throw t))) by keeps_frame. by rewrite K.
Qed.

Lemma fetch_settles_schedules_next_witness :
  timers (fetch_settles 0 (ok 3) booted).2 = timers booted ++ [(0, Num 60000)].
Proof.
  apply (fetch_settles_schedules_next 0 0 (fetching 1) (ok 3) booted 0
           {| chatId := Some (Num 7);
              session := set_pollingOnBoot true (set_polling true stored_session);
              notifier := None |}).
  - vm_compute. reflexivity.
  - vm_compute. reflexivity.
Defined.

(** ** Boot with a file whose name is no chat id *)

(** X21. The boot loop's turn for a readable file whose name denotes 0 or
    no number at all: [NotifierFactory.create] throws
    [InvalidError('chat id')], which leaves the loop; the context made for
    the file exists, but no notifier was made or registered and no message
    was sent. *)
Theorem restore_rejects_falsy_key (k : number) (s : NotifierState) (w : World) :
  file k (storage w) = Some (Readable s) → truthy k = false →
  restore k w =
    (Throw (ThrownError (InvalidError "chat id")), (new_NotifierContext (Some k) s w).2).
Proof.
  intros Hf Ht. unfold restore.
  assert (E0 : storage_read k w = (Normal s, w)) by (unfold storage_read; by rewrite Hf).
  rewrite (bind_normal _ _ _ _ _ E0).
  rewrite (bind_normal (new_NotifierContext (Some k) s) _ w (length (contexts w))
             (new_NotifierContext (Some k) s w).2 eq_refl).
  apply bind_throw.
  unfold NotifierFactory.create, bind, get_context. simpl.
  rewrite list_lookup_middle; [|done]. simpl. by rewrite Ht.
Qed.

Lemma restore_rejects_falsy_key_witness :
  (restore NaN (fresh [(NaN, Readable stored_session)])).1
    = Throw (ThrownError (InvalidError "chat id")).
Proof.
  rewrite (restore_rejects_falsy_key NaN stored_session
             (fresh [(NaN, Readable stored_session)])).
  - reflexivity.
  - reflexivity.
  - reflexivity.
Defined.

(** ** Boot with a message that is not accepted *)

(** X22. The boot loop awaits the 'Bot booted' message of each session with
    no handler around it. When the loop gets to a readable session [k] and
    the Bot API rejects the message to [k] with [t], [boot] ends with [t]:
    the sessions listed up to [k], [k] included, have their notifiers, and
    the sessions listed after [k] have none. *)
Theorem boot_stops_at_rejected_send (w : World) (ks1 ks2 : list number) (k : number)
    (s : NotifierState) (t : Thrown) :
  (storage w).*1 = ks1 ++ k :: ks2 →
  NoDup (ks1 ++ k :: ks2) →
  registry w = ∅ →
  (∀ k', k' ∈ ks1 → truthy k' = true ∧ (∃ s', file k' (storage w) = Some (Readable s')) ∧
                    delivery w k' (Text "Bot booted") = None) →
  truthy k = true → file k (storage w) = Some (Readable s) →
  delivery w k (Text "Bot booted") = Some t →
  (boot w).1 = Throw t ∧
  (∀ k', k' ∈ ks1 ++ [k] → is_Some (registry (boot w).2 !! k')) ∧
  (∀ k', k' ∈ ks2 → registry (boot w).2 !! k' = None).
Proof.
  intros Hkeys Hnd Hreg Hall Ht Hf Hd.
  apply NoDup_app in Hnd as (Hnd1 & Hdisj & Hnd2).
  apply NoDup_cons in Hnd2 as [Hk2 Hnd2].
  assert (Hk1 : k ∉ ks1) by (intros Hin; apply (Hdisj k Hin); by left).
  destruct (restore_all ks1 w Hnd1) as (w1 & E1 & D1 & I1 & I2).
  { intros k' Hk'. destruct (Hall k' Hk') as (Ht' & Hs' & Hd').
    split; [done|]. split; [by rewrite Hreg|done]. }
  destruct (I2 k Hk1) as [Hr1 Hf1]. rewrite Hreg, lookup_empty in Hr1.
  destruct (restore_turn k w1 s) as (R1 & R2 & _); [by rewrite Hf1|done..|].
  rewrite D1, Hd in R1.
  destruct (restore_frame k w1 Hr1) as (_ & _ & _ & _ & _ & _ & _ & F8).
  assert (E : boot w = (Throw t, (restore k w1).2)).
  { unfold boot, bind at 1, getKeys. cbv beta iota. rewrite Hkeys.
    rewrite (for_each_app _ _ _ _ _ E1). cbn [for_each]. unfold bind.
    destruct (restore k w1) as [r wk]. simpl in R1. by rewrite R1. }
  rewrite E. cbn [fst snd]. split; [done|]. split.
  - intros k' [Hin| ->%list_elem_of_singleton]%elem_of_app; [|by rewrite R2].
    destruct (F8 k') as [-> _]; [by intros ->|]. by apply I1.
  - intros k' Hin. destruct (F8 k') as [-> _]; [by intros ->|].
    destruct (I2 k') as [-> _]; [|by rewrite Hreg].
    intros Hin1. apply (Hdisj k' Hin1). by right.
Qed.

(** Chat 7 has blocked the bot: its session is restored, the message to it
    is rejected, and the session of chat 9 is not restored. *)
Lemma boot_stops_at_rejected_send_witness :
  let blocked := ThrownError {| name := "GrammyError";
                                message := "Forbidden: bot was blocked by the user";
                                entity := None |} in
  let w := with_delivery (λ chat _, if decide (chat = Num 7) then Some blocked else None)
             (fresh [(Num 7, Readable stored_session); (Num 9, Readable stored_session)]) in
  (boot w).1 = Throw blocked ∧
  is_Some (registry (boot w).2 !! Num 7) ∧
  registry (boot w).2 !! Num 9 = None.
Proof.
  intros blocked w.
  destruct (boot_stops_at_rejected_send w [] [Num 9] (Num 7) stored_session blocked)
    as (H1 & H2 & H3).
  - reflexivity.
  - apply (bool_decide_unpack _). vm_compute. exact I.
  - reflexivity.
  - by intros k' ?%elem_of_nil.
  - reflexivity.
  - reflexivity.
  - reflexivity.
  - split; [exact H1|]. split.
    + apply H2. by apply list_elem_of_singleton.
    + apply H3. by apply list_elem_of_singleton.
Defined.
